(** * CN-Project: shortest-path routing and TCP-like congestion control

    A shallow embedding of the algorithmic core of [main.py]: the Python
    number tower used by the window arithmetic, the [Packet] flow state
    machine ([update_cwnd], [handle_congestion_control] and its
    retransmit/timeout helpers), the bounded event log
    ([record_packet_event], [record_packet_event_dropped]), Dijkstra's
    algorithm ([dijkstra_shortest_path]) and the traffic generator
    ([spawn_packet], [send_manual_packet]).

    What Python leaves to the machine is a parameter of the model: the
    rounding of floats ([fl]), the readings of [time.time()] ([time_at]),
    the draws of [random.random()] and [random.randint] ([random_at],
    [randint_at]) and the order in which a set of node objects is
    iterated ([set_order]).  Every statement below holds for all of them,
    under the hypotheses it names.

    Tk widgets, the canvas, the plots and the running statistics
    ([track_performance], [update_real_time_stats]) are not modelled; the
    only trace the user interface leaves in the model is the list of
    message boxes that the simulator opens. *)

From Stdlib Require Import ZArith QArith Lia Lqa.
From stdpp Require Import gmap strings list.

Local Open Scope Z_scope.

(** ** Python numbers *)

(** A Python number is an [int] (unbounded) or a [float].  A float is
    modelled by the rational it denotes; the rounding of binary64 is the
    section variable [fl] below, so every statement proved here holds for
    exact arithmetic ([fl] the identity) and for any other rounding that
    meets the few hypotheses a theorem names. *)
Inductive pynum :=
  | PyInt (z : Z)
  | PyFloat (q : Q).

Definition value (a : pynum) : Q :=
  match a with
  | PyInt z => inject_Z z
  | PyFloat q => q
  end.

(** Comparisons between ints and floats are exact in Python. *)
Definition py_lt (a b : pynum) : bool := negb (Qle_bool (value b) (value a)).
Definition py_le (a b : pynum) : bool := Qle_bool (value a) (value b).
Definition py_gt (a b : pynum) : bool := py_lt b a.
Definition py_ge (a b : pynum) : bool := py_le b a.

(** [max(a, b)] and [min(a, b)] keep the first argument on a tie. *)
Definition py_max (a b : pynum) : pynum := if py_gt b a then b else a.
Definition py_min (a b : pynum) : pynum := if py_lt b a then b else a.

Section Arithmetic.

(** Rounding of a real result to the nearest float. *)
Variable fl : Q -> Q.

Definition to_float (a : pynum) : Q :=
  match a with
  | PyInt z => fl (inject_Z z)
  | PyFloat q => q
  end.

(** A float literal of the source text, such as [0.10]. *)
Definition py_float (q : Q) : pynum := PyFloat (fl q).

Definition py_add (a b : pynum) : pynum :=
  match a, b with
  | PyInt x, PyInt y => PyInt (x + y)
  | _, _ => PyFloat (fl (to_float a + to_float b))
  end.

Definition py_sub (a b : pynum) : pynum :=
  match a, b with
  | PyInt x, PyInt y => PyInt (x - y)
  | _, _ => PyFloat (fl (to_float a - to_float b))
  end.

Definition py_mul (a b : pynum) : pynum :=
  match a, b with
  | PyInt x, PyInt y => PyInt (x * y)
  | _, _ => PyFloat (fl (to_float a * to_float b))
  end.

(** True division [a / b]: always a float; the quotient of two ints is
    rounded once. *)
Definition py_truediv (a b : pynum) : pynum :=
  match a, b with
  | PyInt x, PyInt y => PyFloat (fl (inject_Z x / inject_Z y))
  | _, _ => PyFloat (fl (to_float a / to_float b))
  end.

End Arithmetic.

(** ** Path costs *)

(** The entries of the [distances] table of the path finder: an int, or
    [float('infinity')]. *)
Inductive dist :=
  | Dist (z : Z)
  | Infinity.

Definition dist_lt (a b : dist) : bool :=
  match a, b with
  | Dist x, Dist y => x <? y
  | Dist _, Infinity => true
  | Infinity, _ => false
  end.

Definition dist_add (a : dist) (z : Z) : dist :=
  match a with
  | Dist x => Dist (x + z)
  | Infinity => Infinity
  end.

Definition is_infinity (a : dist) : bool :=
  match a with
  | Infinity => true
  | Dist _ => false
  end.

(** ** Nodes and flows *)

(** A node object is named by its identity; its attributes live in the
    object store of the simulator. *)
Definition node := nat.

Record NetworkNode := {
  node_type : string;
  name : string;
  connections : list node;
  latency : Z;
  throughput : Z;
  congestion : pynum
}.

Record Packet := {
  source : node;
  destination : node;
  path : list node;
  current_index : nat;
  progress : pynum;
  hop_count : Z;
  total_latency : dist;
  timestamp : Q;
  completed : bool;
  packet_id : Z;
  cwnd : pynum;
  ssthresh : pynum;
  phase : string;
  dup_ack_count : Z;
  rtt : pynum;
  last_ack_time : Q;
  lost : bool;
  retransmitted : bool;
  color : string
}.

Definition phase_color (ph : string) : string :=
  if String.eqb ph "slow_start" then "#28a745"
  else if String.eqb ph "congestion_avoidance" then "#0066cc"
  else if String.eqb ph "fast_retransmit" then "#ffc107"
  else if String.eqb ph "fast_recovery" then "#fd7e14"
  else "#ffffff".

Definition get_phase_color (p : Packet) : string := phase_color (phase p).

(** [Packet.__init__]: [created] and [acked] are the two readings of the
    clock it takes, and [rand_id] is the draw of
    [random.randint(1000, 9999)] that names the packet when the caller
    gives no id, or gives 0. *)
Definition Packet_init (src dst : node) (pth : list node)
    (pid : option Z) (rand_id : Z) (created acked : Q) : Packet :=
  {| source := src; destination := dst; path := pth;
     current_index := 0; progress := PyInt 0;
     hop_count := Z.of_nat (length pth) - 1;
     total_latency := Dist 0;
     timestamp := created; completed := false;
     packet_id := match pid with
                  | Some i => if Z.eqb i 0 then rand_id else i
                  | None => rand_id
                  end;
     cwnd := PyInt 1; ssthresh := PyInt 64;
     phase := "slow_start";
     dup_ack_count := 0;
     rtt := PyInt 0;
     last_ack_time := acked;
     lost := false; retransmitted := false;
     color := phase_color "slow_start" |}.

(** Field updates of a packet object. *)
Definition set_cwnd (v : pynum) (p : Packet) : Packet :=
  {| source := source p; destination := destination p; path := path p;
     current_index := current_index p; progress := progress p;
     hop_count := hop_count p; total_latency := total_latency p;
     timestamp := timestamp p; completed := completed p;
     packet_id := packet_id p; cwnd := v; ssthresh := ssthresh p;
     phase := phase p; dup_ack_count := dup_ack_count p; rtt := rtt p;
     last_ack_time := last_ack_time p; lost := lost p;
     retransmitted := retransmitted p; color := color p |}.

Definition set_ssthresh (v : pynum) (p : Packet) : Packet :=
  {| source := source p; destination := destination p; path := path p;
     current_index := current_index p; progress := progress p;
     hop_count := hop_count p; total_latency := total_latency p;
     timestamp := timestamp p; completed := completed p;
     packet_id := packet_id p; cwnd := cwnd p; ssthresh := v;
     phase := phase p; dup_ack_count := dup_ack_count p; rtt := rtt p;
     last_ack_time := last_ack_time p; lost := lost p;
     retransmitted := retransmitted p; color := color p |}.

(** [Packet.set_phase]: the phase and the colour that displays it. *)
Definition set_phase (phase_name : string) (p : Packet) : Packet :=
  {| source := source p; destination := destination p; path := path p;
     current_index := current_index p; progress := progress p;
     hop_count := hop_count p; total_latency := total_latency p;
     timestamp := timestamp p; completed := completed p;
     packet_id := packet_id p; cwnd := cwnd p; ssthresh := ssthresh p;
     phase := phase_name; dup_ack_count := dup_ack_count p; rtt := rtt p;
     last_ack_time := last_ack_time p; lost := lost p;
     retransmitted := retransmitted p; color := phase_color phase_name |}.

Definition set_dup_ack_count (v : Z) (p : Packet) : Packet :=
  {| source := source p; destination := destination p; path := path p;
     current_index := current_index p; progress := progress p;
     hop_count := hop_count p; total_latency := total_latency p;
     timestamp := timestamp p; completed := completed p;
     packet_id := packet_id p; cwnd := cwnd p; ssthresh := ssthresh p;
     phase := phase p; dup_ack_count := v; rtt := rtt p;
     last_ack_time := last_ack_time p; lost := lost p;
     retransmitted := retransmitted p; color := color p |}.

Definition set_rtt (v : pynum) (p : Packet) : Packet :=
  {| source := source p; destination := destination p; path := path p;
     current_index := current_index p; progress := progress p;
     hop_count := hop_count p; total_latency := total_latency p;
     timestamp := timestamp p; completed := completed p;
     packet_id := packet_id p; cwnd := cwnd p; ssthresh := ssthresh p;
     phase := phase p; dup_ack_count := dup_ack_count p; rtt := v;
     last_ack_time := last_ack_time p; lost := lost p;
     retransmitted := retransmitted p; color := color p |}.

Definition set_last_ack_time (v : Q) (p : Packet) : Packet :=
  {| source := source p; destination := destination p; path := path p;
     current_index := current_index p; progress := progress p;
     hop_count := hop_count p; total_latency := total_latency p;
     timestamp := timestamp p; completed := completed p;
     packet_id := packet_id p; cwnd := cwnd p; ssthresh := ssthresh p;
     phase := phase p; dup_ack_count := dup_ack_count p; rtt := rtt p;
     last_ack_time := v; lost := lost p;
     retransmitted := retransmitted p; color := color p |}.

Definition set_lost (v : bool) (p : Packet) : Packet :=
  {| source := source p; destination := destination p; path := path p;
     current_index := current_index p; progress := progress p;
     hop_count := hop_count p; total_latency := total_latency p;
     timestamp := timestamp p; completed := completed p;
     packet_id := packet_id p; cwnd := cwnd p; ssthresh := ssthresh p;
     phase := phase p; dup_ack_count := dup_ack_count p; rtt := rtt p;
     last_ack_time := last_ack_time p; lost := v;
     retransmitted := retransmitted p; color := color p |}.

Definition set_retransmitted (v : bool) (p : Packet) : Packet :=
  {| source := source p; destination := destination p; path := path p;
     current_index := current_index p; progress := progress p;
     hop_count := hop_count p; total_latency := total_latency p;
     timestamp := timestamp p; completed := completed p;
     packet_id := packet_id p; cwnd := cwnd p; ssthresh := ssthresh p;
     phase := phase p; dup_ack_count := dup_ack_count p; rtt := rtt p;
     last_ack_time := last_ack_time p; lost := lost p;
     retransmitted := v; color := color p |}.

Definition set_total_latency (v : dist) (p : Packet) : Packet :=
  {| source := source p; destination := destination p; path := path p;
     current_index := current_index p; progress := progress p;
     hop_count := hop_count p; total_latency := v;
     timestamp := timestamp p; completed := completed p;
     packet_id := packet_id p; cwnd := cwnd p; ssthresh := ssthresh p;
     phase := phase p; dup_ack_count := dup_ack_count p; rtt := rtt p;
     last_ack_time := last_ack_time p; lost := lost p;
     retransmitted := retransmitted p; color := color p |}.

(** ** The simulator object *)

Record Event := {
  ev_time : pynum;
  ev_packet_id : Z;
  ev_cwnd : pynum;
  ev_phase : string;
  ev_rtt : pynum;
  ev_event_type : string;
  ev_throughput : pynum;
  ev_node_congestion : pynum
}.

(** A message box opened by the simulator: kind, title and text. *)
Inductive dialog :=
  | showwarning (title message : string)
  | showerror (title message : string).

(** The fields of [CloudNetworkSimulator] that routing, congestion control,
    traffic generation and event recording read or write.  [store] maps a
    node object to its attributes; [clock] and [rng] count the readings
    taken so far from [time.time()] and [random.random()]; [dialogs] lists
    the message boxes opened, most recent first. *)
Record Simulator := {
  nodes : list node;
  store : node -> NetworkNode;
  packets : list Packet;
  simulation_running : bool;
  traffic_load : string;
  manual_packet_mode : bool;
  active_manual_packet_ids : gset Z;
  manual_source_var : string;
  manual_dest_var : string;
  congestion_algorithm : string;
  packet_loss_rate : pynum;
  packet_counter : Z;
  packet_events : list Event;
  performance_start_time : Q;
  clock : nat;
  rng : nat;
  dialogs : list dialog
}.

Definition set_nodes (v : list node) (s : Simulator) : Simulator :=
  {| nodes := v; store := store s; packets := packets s;
     simulation_running := simulation_running s;
     traffic_load := traffic_load s;
     manual_packet_mode := manual_packet_mode s;
     active_manual_packet_ids := active_manual_packet_ids s;
     manual_source_var := manual_source_var s;
     manual_dest_var := manual_dest_var s;
     congestion_algorithm := congestion_algorithm s;
     packet_loss_rate := packet_loss_rate s;
     packet_counter := packet_counter s;
     packet_events := packet_events s;
     performance_start_time := performance_start_time s;
     clock := clock s; rng := rng s; dialogs := dialogs s |}.

Definition set_store (v : node -> NetworkNode) (s : Simulator) : Simulator :=
  {| nodes := nodes s; store := v; packets := packets s;
     simulation_running := simulation_running s;
     traffic_load := traffic_load s;
     manual_packet_mode := manual_packet_mode s;
     active_manual_packet_ids := active_manual_packet_ids s;
     manual_source_var := manual_source_var s;
     manual_dest_var := manual_dest_var s;
     congestion_algorithm := congestion_algorithm s;
     packet_loss_rate := packet_loss_rate s;
     packet_counter := packet_counter s;
     packet_events := packet_events s;
     performance_start_time := performance_start_time s;
     clock := clock s; rng := rng s; dialogs := dialogs s |}.

Definition set_packets (v : list Packet) (s : Simulator) : Simulator :=
  {| nodes := nodes s; store := store s; packets := v;
     simulation_running := simulation_running s;
     traffic_load := traffic_load s;
     manual_packet_mode := manual_packet_mode s;
     active_manual_packet_ids := active_manual_packet_ids s;
     manual_source_var := manual_source_var s;
     manual_dest_var := manual_dest_var s;
     congestion_algorithm := congestion_algorithm s;
     packet_loss_rate := packet_loss_rate s;
     packet_counter := packet_counter s;
     packet_events := packet_events s;
     performance_start_time := performance_start_time s;
     clock := clock s; rng := rng s; dialogs := dialogs s |}.

Definition set_simulation_running (v : bool) (s : Simulator) : Simulator :=
  {| nodes := nodes s; store := store s; packets := packets s;
     simulation_running := v;
     traffic_load := traffic_load s;
     manual_packet_mode := manual_packet_mode s;
     active_manual_packet_ids := active_manual_packet_ids s;
     manual_source_var := manual_source_var s;
     manual_dest_var := manual_dest_var s;
     congestion_algorithm := congestion_algorithm s;
     packet_loss_rate := packet_loss_rate s;
     packet_counter := packet_counter s;
     packet_events := packet_events s;
     performance_start_time := performance_start_time s;
     clock := clock s; rng := rng s; dialogs := dialogs s |}.

Definition set_manual_packet_mode (v : bool) (s : Simulator) : Simulator :=
  {| nodes := nodes s; store := store s; packets := packets s;
     simulation_running := simulation_running s;
     traffic_load := traffic_load s;
     manual_packet_mode := v;
     active_manual_packet_ids := active_manual_packet_ids s;
     manual_source_var := manual_source_var s;
     manual_dest_var := manual_dest_var s;
     congestion_algorithm := congestion_algorithm s;
     packet_loss_rate := packet_loss_rate s;
     packet_counter := packet_counter s;
     packet_events := packet_events s;
     performance_start_time := performance_start_time s;
     clock := clock s; rng := rng s; dialogs := dialogs s |}.

Definition set_active_manual_packet_ids (v : gset Z) (s : Simulator)
    : Simulator :=
  {| nodes := nodes s; store := store s; packets := packets s;
     simulation_running := simulation_running s;
     traffic_load := traffic_load s;
     manual_packet_mode := manual_packet_mode s;
     active_manual_packet_ids := v;
     manual_source_var := manual_source_var s;
     manual_dest_var := manual_dest_var s;
     congestion_algorithm := congestion_algorithm s;
     packet_loss_rate := packet_loss_rate s;
     packet_counter := packet_counter s;
     packet_events := packet_events s;
     performance_start_time := performance_start_time s;
     clock := clock s; rng := rng s; dialogs := dialogs s |}.

Definition set_congestion_algorithm (v : string) (s : Simulator)
    : Simulator :=
  {| nodes := nodes s; store := store s; packets := packets s;
     simulation_running := simulation_running s;
     traffic_load := traffic_load s;
     manual_packet_mode := manual_packet_mode s;
     active_manual_packet_ids := active_manual_packet_ids s;
     manual_source_var := manual_source_var s;
     manual_dest_var := manual_dest_var s;
     congestion_algorithm := v;
     packet_loss_rate := packet_loss_rate s;
     packet_counter := packet_counter s;
     packet_events := packet_events s;
     performance_start_time := performance_start_time s;
     clock := clock s; rng := rng s; dialogs := dialogs s |}.

Definition set_packet_counter (v : Z) (s : Simulator) : Simulator :=
  {| nodes := nodes s; store := store s; packets := packets s;
     simulation_running := simulation_running s;
     traffic_load := traffic_load s;
     manual_packet_mode := manual_packet_mode s;
     active_manual_packet_ids := active_manual_packet_ids s;
     manual_source_var := manual_source_var s;
     manual_dest_var := manual_dest_var s;
     congestion_algorithm := congestion_algorithm s;
     packet_loss_rate := packet_loss_rate s;
     packet_counter := v;
     packet_events := packet_events s;
     performance_start_time := performance_start_time s;
     clock := clock s; rng := rng s; dialogs := dialogs s |}.

Definition set_packet_events (v : list Event) (s : Simulator) : Simulator :=
  {| nodes := nodes s; store := store s; packets := packets s;
     simulation_running := simulation_running s;
     traffic_load := traffic_load s;
     manual_packet_mode := manual_packet_mode s;
     active_manual_packet_ids := active_manual_packet_ids s;
     manual_source_var := manual_source_var s;
     manual_dest_var := manual_dest_var s;
     congestion_algorithm := congestion_algorithm s;
     packet_loss_rate := packet_loss_rate s;
     packet_counter := packet_counter s;
     packet_events := v;
     performance_start_time := performance_start_time s;
     clock := clock s; rng := rng s; dialogs := dialogs s |}.

Definition set_clock (v : nat) (s : Simulator) : Simulator :=
  {| nodes := nodes s; store := store s; packets := packets s;
     simulation_running := simulation_running s;
     traffic_load := traffic_load s;
     manual_packet_mode := manual_packet_mode s;
     active_manual_packet_ids := active_manual_packet_ids s;
     manual_source_var := manual_source_var s;
     manual_dest_var := manual_dest_var s;
     congestion_algorithm := congestion_algorithm s;
     packet_loss_rate := packet_loss_rate s;
     packet_counter := packet_counter s;
     packet_events := packet_events s;
     performance_start_time := performance_start_time s;
     clock := v; rng := rng s; dialogs := dialogs s |}.

Definition set_rng (v : nat) (s : Simulator) : Simulator :=
  {| nodes := nodes s; store := store s; packets := packets s;
     simulation_running := simulation_running s;
     traffic_load := traffic_load s;
     manual_packet_mode := manual_packet_mode s;
     active_manual_packet_ids := active_manual_packet_ids s;
     manual_source_var := manual_source_var s;
     manual_dest_var := manual_dest_var s;
     congestion_algorithm := congestion_algorithm s;
     packet_loss_rate := packet_loss_rate s;
     packet_counter := packet_counter s;
     packet_events := packet_events s;
     performance_start_time := performance_start_time s;
     clock := clock s; rng := v; dialogs := dialogs s |}.

Definition set_dialogs (v : list dialog) (s : Simulator) : Simulator :=
  {| nodes := nodes s; store := store s; packets := packets s;
     simulation_running := simulation_running s;
     traffic_load := traffic_load s;
     manual_packet_mode := manual_packet_mode s;
     active_manual_packet_ids := active_manual_packet_ids s;
     manual_source_var := manual_source_var s;
     manual_dest_var := manual_dest_var s;
     congestion_algorithm := congestion_algorithm s;
     packet_loss_rate := packet_loss_rate s;
     packet_counter := packet_counter s;
     packet_events := packet_events s;
     performance_start_time := performance_start_time s;
     clock := clock s; rng := rng s; dialogs := v |}.

(** The last [n] elements of a list, Python's [l[-n:]] for [n > 0]. *)
Definition last_n {A} (n : nat) (l : list A) : list A :=
  drop (length l - n) l.

Definition important_events : list string :=
  ["created"; "delivered"; "dropped"; "timeout"; "fast_retransmit";
   "exit_fast_recovery"; "manual_created"].

Definition is_important (event_type : string) : bool :=
  existsb (String.eqb event_type) important_events.

(** [CloudNetworkSimulator.__init__]: the simulator before any topology is
    built; [started] is the reading of the clock kept as
    [performance_start_time]. *)
Definition Simulator_init (objects : node -> NetworkNode) (started : Q)
    : Simulator :=
  {| nodes := []; store := objects; packets := [];
     simulation_running := false;
     traffic_load := "medium";
     manual_packet_mode := false;
     active_manual_packet_ids := ∅;
     manual_source_var := "";
     manual_dest_var := "";
     congestion_algorithm := "reno";
     packet_loss_rate := PyFloat 0;
     packet_counter := 0;
     packet_events := [];
     performance_start_time := started;
     clock := 1; rng := 0; dialogs := [] |}.

(** [node.congestion = v] on the node object [n]. *)
Definition set_congestion (n : node) (v : pynum)
    (objects : node -> NetworkNode) : node -> NetworkNode :=
  fun m =>
    if decide (m = n)
    then {| node_type := node_type (objects m); name := name (objects m);
            connections := connections (objects m);
            latency := latency (objects m);
            throughput := throughput (objects m);
            congestion := v |}
    else objects m.

(** ** Outcomes of the modelled calls *)

(** A call returns a value, raises [KeyError] on a missing dictionary key,
    or is cut off because the loop budget of the model ran out. *)
Inductive result (A : Type) :=
  | Ok (a : A)
  | KeyError
  | OutOfFuel.
Arguments Ok {A} a.
Arguments KeyError {A}.
Arguments OutOfFuel {A}.

#[global] Instance result_ret : MRet result := fun A a => Ok a.
#[global] Instance result_bind : MBind result := fun A B f m =>
  match m with
  | Ok a => f a
  | KeyError => KeyError
  | OutOfFuel => OutOfFuel
  end.

(** [d[k]] on a dictionary. *)
Definition getitem {V} (d : gmap node V) (k : node) : result V :=
  match d !! k with
  | Some v => Ok v
  | None => KeyError
  end.

(** ** PathFinder *)

Section PathFinder.

(** The order in which a set built from a list of node objects is
    iterated.  Python fixes it by the hashes of the objects, that is by
    their addresses; removing an element keeps the order of the rest. *)
Variable set_order : list node -> list node.

(** [min(unvisited, key=lambda node: distances[node])], entered with the
    first element as the best so far: a later element replaces it only
    when its key is strictly smaller. *)
Fixpoint min_by_distance (distances : gmap node dist) (best : node)
    (best_key : dist) (rest : list node) : result node :=
  match rest with
  | [] => Ok best
  | x :: rest =>
      k ← getitem distances x;
      if dist_lt k best_key
      then min_by_distance distances x k rest
      else min_by_distance distances best best_key rest
  end.

(** The [for neighbor in current.connections] loop. *)
Fixpoint relax_neighbors (current : node) (current_latency : Z)
    (unvisited : list node) (neighbors : list node)
    (distances : gmap node dist) (previous : gmap node (option node))
    : result (gmap node dist * gmap node (option node)) :=
  match neighbors with
  | [] => Ok (distances, previous)
  | neighbor :: rest =>
      if bool_decide (neighbor ∈ unvisited) then
        dc ← getitem distances current;
        let alt_distance := dist_add dc current_latency in
        dn ← getitem distances neighbor;
        if dist_lt alt_distance dn
        then relax_neighbors current current_latency unvisited rest
               (<[neighbor := alt_distance]> distances)
               (<[neighbor := Some current]> previous)
        else relax_neighbors current current_latency unvisited rest
               distances previous
      else relax_neighbors current current_latency unvisited rest
             distances previous
  end.

(** The [while current] loop that walks [previous] back from the
    destination; the path is collected destination first. *)
Fixpoint reconstruct_path (fuel : nat) (previous : gmap node (option node))
    (current : option node) (pth : list node) : result (list node) :=
  match current with
  | None => Ok pth
  | Some c =>
      match fuel with
      | O => OutOfFuel
      | S fuel =>
          nxt ← getitem previous c;
          reconstruct_path fuel previous nxt (pth ++ [c])
      end
  end.

(** The [while unvisited] loop. *)
Fixpoint dijkstra_loop (fuel : nat) (objects : node -> NetworkNode)
    (destination : node) (distances : gmap node dist)
    (previous : gmap node (option node)) (unvisited : list node)
    : result (option (list node) * dist) :=
  match fuel with
  | O => OutOfFuel
  | S fuel =>
      match unvisited with
      | [] => Ok (None, Infinity)
      | first :: rest =>
          k ← getitem distances first;
          current ← min_by_distance distances first k rest;
          dc ← getitem distances current;
          if is_infinity dc then Ok (None, Infinity)
          else if bool_decide (current = destination) then
            pth ← reconstruct_path (S (size previous)) previous
                    (Some current) [];
            total ← getitem distances destination;
            Ok (Some (reverse pth), total)
          else
            let unvisited := filter (λ n, n ≠ current) unvisited in
            '(distances, previous) ←
              relax_neighbors current (latency (objects current)) unvisited
                (connections (objects current)) distances previous;
            dijkstra_loop fuel objects destination distances previous
              unvisited
      end
  end.

Definition dijkstra_shortest_path (s : Simulator)
    (source destination : node) : result (option (list node) * dist) :=
  let distances : gmap node dist :=
    list_to_map ((λ n, (n, Infinity)) <$> nodes s) in
  let distances := <[source := Dist 0]> distances in
  let previous : gmap node (option node) :=
    list_to_map ((λ n, (n, None)) <$> nodes s) in
  let unvisited := set_order (nodes s) in
  dijkstra_loop (S (length unvisited)) (store s) destination
    distances previous unvisited.

End PathFinder.

(** ** Congestion control, event log and traffic generation *)

Section Simulation.

Variable fl : Q -> Q.

(** The successive readings of [time.time()] and the successive draws of
    [random.random()]. *)
Variable time_at : nat -> Q.
Variable random_at : nat -> Q.

(** The draws of [random.randint(1000, 9999)], and the iteration order
    of sets of node objects. *)
Variable randint_at : nat -> Z.
Variable set_order : list node -> list node.

Notation "a +. b" := (py_add fl a b) (at level 50, left associativity).
Notation "a -. b" := (py_sub fl a b) (at level 50, left associativity).
Notation "a *. b" := (py_mul fl a b) (at level 40, left associativity).
Notation "a /. b" := (py_truediv fl a b) (at level 40, left associativity).

(** [time.time()] and [random.random()]: the reading and the simulator
    with the reading consumed. *)
Definition time_time (s : Simulator) : Q * Simulator :=
  (time_at (clock s), set_clock (S (clock s)) s).

Definition random_random (s : Simulator) : Q * Simulator :=
  (random_at (rng s), set_rng (S (rng s)) s).

Definition random_randint (s : Simulator) : Z * Simulator :=
  (randint_at (rng s), set_rng (S (rng s)) s).

Definition open_dialog (d : dialog) (s : Simulator) : Simulator :=
  set_dialogs (d :: dialogs s) s.

(** *** Window growth *)

Definition update_cwnd (algorithm : string) (p : Packet) : Packet :=
  if String.eqb (phase p) "slow_start" then
    let p := set_cwnd (py_min (cwnd p *. PyInt 2) (ssthresh p)) p in
    if py_ge (cwnd p) (ssthresh p)
    then set_phase "congestion_avoidance" p
    else p
  else if String.eqb (phase p) "congestion_avoidance" then
    set_cwnd (cwnd p +. (py_float fl 1 /. py_max (cwnd p) (PyInt 1))) p
  else if String.eqb (phase p) "fast_recovery" then
    if String.eqb algorithm "reno"
    then set_cwnd (cwnd p +. PyInt 1) p
    else p
  else p.

(** *** Loss reactions *)

Definition handle_fast_retransmit_reno (p : Packet) : Packet :=
  let p := set_phase "fast_retransmit" p in
  let p := set_ssthresh (py_max (cwnd p /. PyInt 2) (PyInt 2)) p in
  let p := set_cwnd (ssthresh p +. PyInt 3) p in
  let p := set_phase "fast_recovery" p in
  let p := set_retransmitted true p in
  set_dup_ack_count 0 p.

Definition handle_fast_retransmit_tahoe (p : Packet) : Packet :=
  let p := set_phase "fast_retransmit" p in
  let p := set_ssthresh (py_max (cwnd p /. PyInt 2) (PyInt 2)) p in
  let p := set_cwnd (PyInt 1) p in
  let p := set_phase "slow_start" p in
  let p := set_retransmitted true p in
  set_dup_ack_count 0 p.

Definition handle_timeout_reno (p : Packet) : Packet :=
  let p := set_ssthresh (py_max (cwnd p /. PyInt 2) (PyInt 2)) p in
  let p := set_cwnd (PyInt 1) p in
  let p := set_phase "slow_start" p in
  let p := set_lost true p in
  set_dup_ack_count 0 p.

Definition handle_timeout_tahoe (p : Packet) : Packet :=
  let p := set_ssthresh (py_max (cwnd p /. PyInt 2) (PyInt 2)) p in
  let p := set_cwnd (PyInt 1) p in
  let p := set_phase "slow_start" p in
  let p := set_lost true p in
  set_dup_ack_count 0 p.

(** *** The event log *)

Definition record_packet_event (s : Simulator) (p : Packet)
    (event_type : string) : Simulator :=
  let '(now, s) := time_time s in
  let current_time := PyFloat now -. PyFloat (performance_start_time s) in
  let '(skip, s) :=
    if is_important event_type then (false, s)
    else let '(r, s) := random_random s in
         (py_gt (PyFloat r) (py_float fl (1 # 10)), s) in
  if skip then s
  else
    let throughput :=
      if py_gt (rtt p) (PyInt 0)
      then (cwnd p *. PyInt 1500 *. PyInt 8) /. (rtt p /. PyInt 1000)
           /. PyInt 1000000
      else PyInt 0 in
    let event :=
      {| ev_time := current_time;
         ev_packet_id := packet_id p;
         ev_cwnd := cwnd p;
         ev_phase := phase p;
         ev_rtt := rtt p;
         ev_event_type := event_type;
         ev_throughput := throughput;
         ev_node_congestion :=
           match path p !! current_index p with
           | Some n => congestion (store s n)
           | None => PyInt 0
           end |} in
    let s := set_packet_events (packet_events s ++ [event]) s in
    if (500 <? length (packet_events s))%nat
    then set_packet_events (last_n 500 (packet_events s)) s
    else s.

Definition record_packet_event_dropped (s : Simulator) (pid : Z)
    : Simulator :=
  let '(now, s) := time_time s in
  let current_time := PyFloat now -. PyFloat (performance_start_time s) in
  let event :=
    {| ev_time := current_time;
       ev_packet_id := pid;
       ev_cwnd := PyInt 0;
       ev_phase := "dropped";
       ev_rtt := PyInt 0;
       ev_event_type := "dropped";
       ev_throughput := PyInt 0;
       ev_node_congestion := PyInt 0 |} in
  set_packet_events (packet_events s ++ [event]) s.

(** *** One hop-entry evaluation *)

Definition handle_congestion_control (s : Simulator) (p : Packet)
    (current_node : NetworkNode) : Simulator * Packet :=
  let '(current_time, s) := time_time s in
  let base_rtt := PyInt (latency current_node) in
  let congestion_delay := congestion current_node *. PyInt 5 in
  let p := set_rtt (base_rtt +. congestion_delay) p in
  if py_gt (congestion current_node) (PyInt 9) then
    let p := if String.eqb (congestion_algorithm s) "reno"
             then handle_timeout_reno p
             else handle_timeout_tahoe p in
    let p := set_dup_ack_count 0 p in
    (record_packet_event s p "timeout", p)
  else if py_gt (congestion current_node) (PyInt 7) then
    let p := set_dup_ack_count (dup_ack_count p + 1) p in
    if 3 <=? dup_ack_count p then
      let p := if String.eqb (congestion_algorithm s) "reno"
               then handle_fast_retransmit_reno p
               else handle_fast_retransmit_tahoe p in
      (record_packet_event s p "fast_retransmit", p)
    else (s, p)
  else if py_gt (congestion current_node) (PyInt 5)
          && String.eqb (phase p) "fast_recovery"
          && String.eqb (congestion_algorithm s) "reno" then
    let p := set_cwnd (cwnd p +. PyInt 1) p in
    (record_packet_event s p "cwnd_inflation", p)
  else
    let p := set_last_ack_time current_time p in
    let p := set_dup_ack_count 0 p in
    let '(s, p) :=
      if String.eqb (phase p) "fast_recovery"
         && String.eqb (congestion_algorithm s) "reno" then
        let p := set_cwnd (ssthresh p) p in
        let p := set_phase "congestion_avoidance" p in
        (record_packet_event s p "exit_fast_recovery", p)
      else
        let previous_cwnd := cwnd p in
        let p := update_cwnd (congestion_algorithm s) p in
        if py_lt previous_cwnd (ssthresh p) && py_le (ssthresh p) (cwnd p)
        then
          let p := set_phase "congestion_avoidance" p in
          (record_packet_event s p "phase_transition_CA", p)
        else (s, p) in
    (record_packet_event s p "ack_received", p).

(** A hop-entry evaluation as the flow sees it: [e.1] is the simulator at
    that moment and [e.2] the entry node. *)
Definition hop_entry (p : Packet) (e : Simulator * NetworkNode) : Packet :=
  (handle_congestion_control e.1 p e.2).2.

(** A run of hop-entry evaluations of one flow.  Between two of them the
    simulator serves other flows and the nodes gain and lose load, so
    each evaluation comes with a simulator and an entry node of its own. *)
Definition hop_entries (p : Packet) (es : list (Simulator * NetworkNode))
    : Packet :=
  fold_left hop_entry es p.

(** *** Traffic generation *)

(** [Packet(source, destination, path, packet_id=pid)] as the simulator
    evaluates it: two readings of the clock, and a random id only when
    [pid] is 0. *)
Definition new_packet (s : Simulator) (src dst : node) (pth : list node)
    (pid : Z) : Packet * Simulator :=
  let '(created, s) := time_time s in
  let '(rand_id, s) :=
    if pid =? 0 then random_randint s else (0, s) in
  let '(acked, s) := time_time s in
  (Packet_init src dst pth (Some pid) rand_id created acked, s).

(** The [for node in path] loop that loads the nodes of a route. *)
Definition add_congestion (congestion_factor : pynum) (pth : list node)
    (objects : node -> NetworkNode) : node -> NetworkNode :=
  fold_left
    (fun objects n =>
       set_congestion n
         (py_min (PyInt 10) (congestion (objects n) +. congestion_factor))
         objects)
    pth objects.

(** [track_performance] and [update_real_time_stats], which close
    [spawn_packet], write statistics and labels only and are left out. *)
Definition spawn_packet (s : Simulator) (src dst : node) (manual : bool)
    : result (bool * Simulator) :=
  '(found, total) ← dijkstra_shortest_path set_order s src dst;
  match found with
  | None | Some [] =>
      let s :=
        if manual
        then open_dialog
               (showwarning "No Path" "Selected nodes are not connected.") s
        else s in
      Ok (false, s)
  | Some pth =>
      let next_packet_id := packet_counter s + 1 in
      let '(dropped, s) :=
        if manual then (false, s)
        else let '(r, s) := random_random s in
             (py_lt (PyFloat r) (packet_loss_rate s /. py_float fl 100), s) in
      if dropped then
        let s := record_packet_event_dropped s next_packet_id in
        let s := set_packet_counter next_packet_id s in
        Ok (false, s)
      else
        let s := set_packet_counter next_packet_id s in
        let '(packet, s) := new_packet s src dst pth (packet_counter s) in
        let packet := set_total_latency total packet in
        let s := set_packets (packets s ++ [packet]) s in
        let event_type := if manual then "manual_created" else "created" in
        let s := record_packet_event s packet event_type in
        let congestion_factor :=
          if String.eqb (traffic_load s) "light" then py_float fl (1 # 2)
          else if String.eqb (traffic_load s) "heavy" then PyInt 2
          else PyInt 1 in
        let s := set_store (add_congestion congestion_factor pth (store s)) s in
        Ok (true, s)
  end.

(** [next((n for n in self.nodes if n.name == wanted), None)]. *)
Definition node_named (s : Simulator) (wanted : string) : option node :=
  List.find (fun n => String.eqb (name (store s n)) wanted) (nodes s).

Definition send_manual_packet (s : Simulator) : result Simulator :=
  if (length (nodes s) <? 2)%nat then
    Ok (open_dialog (showwarning "No Nodes" "Create a topology first.") s)
  else
    let source_name := manual_source_var s in
    let dest_name := manual_dest_var s in
    if String.eqb source_name "" || String.eqb dest_name ""
       || String.eqb source_name dest_name then
      Ok (open_dialog (showwarning "Invalid" "Select two different nodes.")
            s)
    else
      match node_named s source_name, node_named s dest_name with
      | Some source_node, Some dest_node =>
          let was_running := simulation_running s in
          let s := if was_running then set_simulation_running false s
                   else s in
          let s := set_manual_packet_mode true s in
          spawned ← spawn_packet s source_node dest_node true;
          let '(sent, s) := (spawned : bool * Simulator) in
          if sent then
            match last (packets s) with
            | Some manual_packet =>
                Ok (set_active_manual_packet_ids
                      ({[packet_id manual_packet]}
                         ∪ active_manual_packet_ids s) s)
            | None => Ok s
            end
          else Ok (set_manual_packet_mode false s)
      | _, _ => Ok (open_dialog (showerror "Error" "Nodes not found.") s)
      end.

End Simulation.

(** ** Congestion bands and decay *)

(** [NetworkNode.get_congestion_level]. *)
Definition get_congestion_level (n : NetworkNode) : string :=
  if py_le (congestion n) (PyInt 1) then "low"
  else if py_le (congestion n) (PyInt 3) then "medium"
  else if py_le (congestion n) (PyInt 5) then "high"
  else "critical".

Section Decay.

Variable fl : Q -> Q.

(** One pass of [decay_congestion] over the nodes; the timer that calls
    it again after 500 ms is outside the model. *)
Definition decay_congestion (s : Simulator) : Simulator :=
  if simulation_running s then
    set_store
      (fold_left
         (fun objects n =>
            if py_gt (congestion (objects n)) (PyInt 0) then
              let decay_rate :=
                if String.eqb (traffic_load s) "heavy"
                then py_float fl (1 # 10) else py_float fl (2 # 10) in
              set_congestion n
                (py_max (PyInt 0)
                   (py_sub fl (congestion (objects n)) decay_rate))
                objects
            else objects)
         (nodes s) (store s))
      s
  else s.

End Decay.

(** ** SimulationClock *)

(** [a == b] on numbers. *)
Definition py_eq (a b : pynum) : bool := Qeq_bool (value a) (value b).

Definition set_current_index (v : nat) (p : Packet) : Packet :=
  {| source := source p; destination := destination p; path := path p;
     current_index := v; progress := progress p;
     hop_count := hop_count p; total_latency := total_latency p;
     timestamp := timestamp p; completed := completed p;
     packet_id := packet_id p; cwnd := cwnd p; ssthresh := ssthresh p;
     phase := phase p; dup_ack_count := dup_ack_count p; rtt := rtt p;
     last_ack_time := last_ack_time p; lost := lost p;
     retransmitted := retransmitted p; color := color p |}.

Definition set_progress (v : pynum) (p : Packet) : Packet :=
  {| source := source p; destination := destination p; path := path p;
     current_index := current_index p; progress := v;
     hop_count := hop_count p; total_latency := total_latency p;
     timestamp := timestamp p; completed := completed p;
     packet_id := packet_id p; cwnd := cwnd p; ssthresh := ssthresh p;
     phase := phase p; dup_ack_count := dup_ack_count p; rtt := rtt p;
     last_ack_time := last_ack_time p; lost := lost p;
     retransmitted := retransmitted p; color := color p |}.

Definition set_completed (v : bool) (p : Packet) : Packet :=
  {| source := source p; destination := destination p; path := path p;
     current_index := current_index p; progress := progress p;
     hop_count := hop_count p; total_latency := total_latency p;
     timestamp := timestamp p; completed := v;
     packet_id := packet_id p; cwnd := cwnd p; ssthresh := ssthresh p;
     phase := phase p; dup_ack_count := dup_ack_count p; rtt := rtt p;
     last_ack_time := last_ack_time p; lost := lost p;
     retransmitted := retransmitted p; color := color p |}.

Section SimulationClock.

Variable fl : Q -> Q.
Variable time_at : nat -> Q.
Variable random_at : nat -> Q.

(** The body of the [for packet in list(self.packets)] loop of
    [_draw_packets], without the drawing: the simulator and the packet
    after the iteration, and whether the packet was put on
    [packets_to_remove].  [None] stands for the [IndexError] of an
    index outside [packet.path]. *)
Definition advance_packet (s : Simulator) (p : Packet)
    : option (Simulator * Packet * bool) :=
  if Z.of_nat (length (path p)) - 1 <=? Z.of_nat (current_index p) then
    let p := set_completed true p in
    Some (record_packet_event fl time_at random_at s p "delivered", p, true)
  else
    node1 ← path p !! current_index p;
    node2 ← path p !! S (current_index p);
    let '(s, p) :=
      if py_eq (progress p) (PyInt 0)
      then handle_congestion_control fl time_at random_at s p (store s node1)
      else (s, p) in
    let speed_factor :=
      py_max (py_float fl (1 # 100))
        (py_mul fl (py_float fl (5 # 100))
           (py_sub fl (PyInt 1)
              (py_mul fl (congestion (store s node1))
                 (py_float fl (5 # 100))))) in
    let p := set_progress (py_add fl (progress p) speed_factor) p in
    if py_ge (progress p) (py_float fl 1) then
      let p := set_progress (PyInt 0) p in
      let p := set_current_index (S (current_index p)) p in
      Some (record_packet_event fl time_at random_at s p "hop_completed",
            p, false)
    else Some (s, p, false).

Fixpoint advance_packets (s : Simulator) (todo : list Packet)
    : option (Simulator * list (Packet * bool)) :=
  match todo with
  | [] => Some (s, [])
  | p :: rest =>
      advanced ← advance_packet s p;
      let '(s, q, removed) := (advanced : Simulator * Packet * bool) in
      others ← advance_packets s rest;
      let '(s, out) := (others : Simulator * list (Packet * bool)) in
      Some (s, (q, removed) :: out)
  end.

(** [_draw_packets]: one tick of the flow-advancement driver.  The
    packet objects are updated in place; the list of active flows is
    rebuilt only when some flow was delivered. *)
Definition draw_packets (s : Simulator) : option Simulator :=
  advanced ← advance_packets s (packets s);
  let '(s, out) := (advanced : Simulator * list (Packet * bool)) in
  let packets_to_remove := filter (fun r => r.2 = true) out in
  match packets_to_remove with
  | [] => Some (set_packets (out.*1) s)
  | _ :: _ =>
      Some (set_packets ((filter (fun r => r.2 = false) out).*1) s)
  end.

End SimulationClock.

(** ** Status bar *)

(** [get_phase_counts]: the number of active flows per phase, over the
    four keys the dictionary starts with. *)
Definition get_phase_counts (s : Simulator) : gmap string Z :=
  fold_left
    (fun counts p =>
       match counts !! phase p with
       | Some c => <[phase p := c + 1]> counts
       | None => counts
       end)
    (packets s)
    (<["fast_recovery" := 0]>
       (<["fast_retransmit" := 0]>
          (<["congestion_avoidance" := 0]>
             (<["slow_start" := 0]> ∅)))).

(** ** Topology editing *)

(** The editing state of the canvas: [connection_mode], [selected_node],
    [dragging_node] and the list [self.connections] of the links that
    are drawn. *)
Record Canvas := {
  connection_mode : bool;
  selected_node : option node;
  dragging_node : option node;
  canvas_connections : list (node * node)
}.

Definition set_selected_node (v : option node) (c : Canvas) : Canvas :=
  {| connection_mode := connection_mode c; selected_node := v;
     dragging_node := dragging_node c;
     canvas_connections := canvas_connections c |}.

Definition set_dragging_node (v : option node) (c : Canvas) : Canvas :=
  {| connection_mode := connection_mode c;
     selected_node := selected_node c; dragging_node := v;
     canvas_connections := canvas_connections c |}.

Definition set_canvas_connections (v : list (node * node)) (c : Canvas)
    : Canvas :=
  {| connection_mode := connection_mode c;
     selected_node := selected_node c;
     dragging_node := dragging_node c; canvas_connections := v |}.

(** [a.connections.append(b)] on the node object [a]. *)
Definition append_connection (a b : node)
    (objects : node -> NetworkNode) : node -> NetworkNode :=
  fun m =>
    if decide (m = a)
    then {| node_type := node_type (objects m); name := name (objects m);
            connections := connections (objects m) ++ [b];
            latency := latency (objects m);
            throughput := throughput (objects m);
            congestion := congestion (objects m) |}
    else objects m.

(** [on_canvas_click], with [clicked_node] the result of [get_node_at]
    for the position of the click.  Nodes are compared by identity.  The
    redraw and the status line that follow a click in connection mode
    do not write to the node objects nor to the editing state and are
    left out. *)
Definition on_canvas_click (clicked_node : option node) (c : Canvas)
    (objects : node -> NetworkNode) : Canvas * (node -> NetworkNode) :=
  match clicked_node with
  | Some clicked =>
      if connection_mode c then
        match selected_node c with
        | None => (set_selected_node (Some clicked) c, objects)
        | Some selected =>
            if decide (selected <> clicked) then
              let '(c, objects) :=
                if decide (clicked ∉ connections (objects selected)) then
                  let objects := append_connection selected clicked objects in
                  let objects := append_connection clicked selected objects in
                  (set_canvas_connections
                     (canvas_connections c ++ [(selected, clicked)]) c,
                   objects)
                else (c, objects) in
              (set_selected_node None c, objects)
            else (c, objects)
        end
      else (set_dragging_node (Some clicked) c, objects)
  | None => (c, objects)
  end.

(** ** The traffic generator *)

Section Generator.

Variable fl : Q -> Q.
Variables time_at random_at : nat -> Q.
Variable randint_at : nat -> Z.
Variable set_order : list node -> list node.

(** The number that the [k]-th reading of the generator contributes to
    [random.choice]; the position chosen is this number modulo the
    length of the sequence. *)
Variable choice_at : nat -> nat.

(** [random.choice(seq)]; [None] stands for the [IndexError] on an empty
    sequence. *)
Definition random_choice {A} (seq : list A) (s : Simulator)
    : option (A * Simulator) :=
  x ← seq !! (choice_at (rng s) `mod` length seq)%nat;
  Some (x, set_rng (S (rng s)) s).

(** [start_packet_generation], with [self.max_packets] as an argument.
    The boolean tells whether the generator has scheduled its next run
    with [root.after]; the status line is left out. *)
Definition start_packet_generation (max_packets : Z) (s : Simulator)
    : option (result (bool * Simulator)) :=
  if simulation_running s && (1 <? length (nodes s))%nat then
    if Z.of_nat (length (packets s)) <? max_packets then
      chosen ← random_choice (nodes s) s;
      let '(source, s) := (chosen : node * Simulator) in
      chosen ← random_choice (filter (fun n => n <> source) (nodes s)) s;
      let '(destination, s) := (chosen : node * Simulator) in
      Some (spawned ← spawn_packet fl time_at random_at randint_at
                         set_order s source destination false;
            Ok (true, spawned.2))
    else Some (Ok (true, s))
  else Some (Ok (false, s)).

End Generator.

(** ** Performance tracking *)

(** An entry of [routing_stats['path_history']]. *)
Record PathRecord := {
  ph_hops : Z;
  ph_latency : dist;
  ph_time : pynum
}.

(** The performance fields of [CloudNetworkSimulator]: the three
    histories behind the graphs and the entries of [routing_stats]. *)
Record Performance := {
  time_stamps : list pynum;
  latency_history : list dist;
  throughput_history : list pynum;
  total_packets : Z;
  avg_hop_count : pynum;
  min_hops : dist;
  max_hops : Z;
  path_history : list PathRecord
}.

(** The performance fields as [__init__] and [reset_network] set them. *)
Definition Performance_init : Performance :=
  {| time_stamps := []; latency_history := []; throughput_history := [];
     total_packets := 0; avg_hop_count := PyInt 0; min_hops := Infinity;
     max_hops := 0; path_history := [] |}.

(** [l.pop(0)]; [None] stands for the [IndexError] on an empty list. *)
Definition pop_first {A} (l : list A) : option (list A) :=
  match l with
  | [] => None
  | _ :: rest => Some rest
  end.

Section Metrics.

Variable fl : Q -> Q.
Variable time_at : nat -> Q.

(** [a / b]; [None] stands for the [ZeroDivisionError]. *)
Definition checked_truediv (a b : pynum) : option pynum :=
  if py_eq b (PyInt 0) then None else Some (py_truediv fl a b).

(** [track_performance(latency, hops)]; [None] stands for an exception
    ([ZeroDivisionError] or [IndexError]). *)
Definition track_performance (s : Simulator) (m : Performance)
    (latency : dist) (hops : Z) : option (Simulator * Performance) :=
  let '(now, s) := time_time time_at s in
  let current_time :=
    py_sub fl (PyFloat now) (PyFloat (performance_start_time s)) in
  let stamps := time_stamps m ++ [current_time] in
  let latencies := latency_history m ++ [latency] in
  throughput ←
    (if (1 <? length stamps)%nat then
       newest ← stamps !! (length stamps - 1)%nat;
       before ← stamps !! (length stamps - 2)%nat;
       let time_diff := py_sub fl newest before in
       if py_gt time_diff (PyInt 0) then
         checked_truediv (PyInt (1500 * 8))
           (py_mul fl time_diff (PyInt 1000000))
       else
         Some (match last (throughput_history m) with
               | Some recent => recent
               | None => PyInt 0
               end)
     else Some (PyInt 0));
  let throughputs := throughput_history m ++ [throughput] in
  let total := total_packets m + 1 in
  let hop_count := hops - 1 in
  let least :=
    if dist_lt (Dist hop_count) (min_hops m)
    then Dist hop_count else min_hops m in
  let most := if max_hops m <? hop_count then hop_count else max_hops m in
  let total_hops :=
    py_add fl (py_mul fl (avg_hop_count m) (PyInt (total - 1)))
      (PyInt hop_count) in
  average ← checked_truediv total_hops (PyInt total);
  let '(now, s) := time_time time_at s in
  let routes :=
    path_history m ++
    [{| ph_hops := hop_count; ph_latency := latency;
        ph_time :=
          py_sub fl (PyFloat now) (PyFloat (performance_start_time s)) |}] in
  routes ← (if (100 <? length routes)%nat
            then pop_first routes else Some routes);
  kept ←
    (if (50 <? length stamps)%nat then
       stamps ← pop_first stamps;
       latencies ← pop_first latencies;
       throughputs ← pop_first throughputs;
       Some (stamps, latencies, throughputs)
     else Some (stamps, latencies, throughputs));
  let '(stamps, latencies, throughputs) :=
    (kept : list pynum * list dist * list pynum) in
  Some (s,
        {| time_stamps := stamps; latency_history := latencies;
           throughput_history := throughputs;
           total_packets := total; avg_hop_count := average;
           min_hops := least; max_hops := most;
           path_history := routes |}).

End Metrics.

(** ** Vocabulary of the statements *)

(** The floors that the flow state machine keeps: [cwnd >= 1] and
    [ssthresh >= 2]. *)
Definition window_floors (p : Packet) : Prop :=
  (1 <= value (cwnd p))%Q /\ (2 <= value (ssthresh p))%Q.

(** The round-trip estimate that every hop-entry stores first. *)
Definition entry_rtt (fl : Q -> Q) (n : NetworkNode) : pynum :=
  py_add fl (PyInt (latency n)) (py_mul fl (congestion n) (PyInt 5)).

(** The entry that [record_packet_event] builds when it records. *)
Definition event_of (fl : Q -> Q) (time_at : nat -> Q) (s : Simulator)
    (p : Packet) (event_type : string) : Event :=
  {| ev_time :=
       py_sub fl (PyFloat (time_at (clock s)))
         (PyFloat (performance_start_time s));
     ev_packet_id := packet_id p;
     ev_cwnd := cwnd p;
     ev_phase := phase p;
     ev_rtt := rtt p;
     ev_event_type := event_type;
     ev_throughput :=
       if py_gt (rtt p) (PyInt 0)
       then py_truediv fl
              (py_truediv fl
                 (py_mul fl (py_mul fl (cwnd p) (PyInt 1500)) (PyInt 8))
                 (py_truediv fl (rtt p) (PyInt 1000)))
              (PyInt 1000000)
       else PyInt 0;
     ev_node_congestion :=
       match path p !! current_index p with
       | Some n => congestion (store s n)
       | None => PyInt 0
       end |}.

(** A route lists its nodes from the first to the last; every node is
    linked to the next by a connection of the node being left. *)
Fixpoint is_route (objects : node -> NetworkNode) (fw : list node) : Prop :=
  match fw with
  | [] => True
  | a :: rest =>
      match head rest with
      | Some b => b ∈ connections (objects a)
      | None => True
      end /\ is_route objects rest
  end.

Definition latency_sum (objects : node -> NetworkNode) (l : list node) : Z :=
  foldr (fun n total => latency (objects n) + total) 0 l.

(** The cost of a route: the latencies of all its nodes but the last. *)
Definition route_cost (objects : node -> NetworkNode) (fw : list node) : Z :=
  latency_sum objects (removelast fw).

(** [b] can be reached from [a] through nodes of the topology. *)
Definition reachable (s : Simulator) (a b : node) : Prop :=
  exists fw, head fw = Some a /\ last fw = Some b /\
             is_route (store s) fw /\ forall x, x ∈ fw -> x ∈ nodes s.

(** The same link condition on a route listed from the last node to the
    first, the order in which [previous] is walked. *)
Fixpoint linked_back (objects : node -> NetworkNode) (bw : list node)
    : Prop :=
  match bw with
  | [] => True
  | x :: rest =>
      match head rest with
      | Some y => x ∈ connections (objects y)
      | None => True
      end /\ linked_back objects rest
  end.

(** [back_walk previous n bw]: walking [previous] from [n] until it gives
    [None] visits exactly [bw]. *)
Inductive back_walk (previous : gmap node (option node))
    : node -> list node -> Prop :=
  | back_walk_end n :
      previous !! n = Some None -> back_walk previous n [n]
  | back_walk_step n u bw :
      previous !! n = Some (Some u) -> back_walk previous u bw ->
      back_walk previous n (n :: bw).

(** What a finite entry [distances[n] = c] stands for while the path
    finder runs: a walk back from [n] to the source along settled nodes,
    of cost [c]. *)
Record settled_route (objects : node -> NetworkNode) (V : list node)
    (source : node) (previous : gmap node (option node))
    (unvisited : list node) (n : node) (c : Z) (bw : list node) : Prop := {
  route_walk : back_walk previous n bw;
  route_start : last bw = Some source;
  route_nodup : NoDup bw;
  route_linked : linked_back objects bw;
  route_total : c = latency_sum objects (tail bw);
  route_settled : forall x, x ∈ tail bw -> x ∉ unvisited;
  route_nodes : forall x, x ∈ bw -> x ∈ V
}.

(** The invariant of the [while unvisited] loop. *)
Record loop_invariant (objects : node -> NetworkNode) (V : list node)
    (source : node) (distances : gmap node dist)
    (previous : gmap node (option node)) (unvisited : list node) : Prop := {
  inv_keys : forall n, n ∈ V ->
    is_Some (distances !! n) /\ is_Some (previous !! n);
  inv_unvisited : forall n, n ∈ unvisited -> n ∈ V;
  inv_routes : forall n c, distances !! n = Some (Dist c) ->
    exists bw, settled_route objects V source previous unvisited n c bw;
  inv_frontier : forall u v, u ∈ V -> u ∉ unvisited ->
    v ∈ connections (objects u) -> v ∈ unvisited ->
    exists c, distances !! v = Some (Dist c);
  inv_source : source ∈ unvisited ->
    distances !! source = Some (Dist 0) /\
    forall n, n ∈ unvisited -> n <> source ->
              distances !! n = Some Infinity
}.

(** What a rejected manual send must leave alone: the active flows, the
    packet counter, the congestion of every node and the event log. *)
Definition untouched (s s' : Simulator) : Prop :=
  packets s' = packets s /\ packet_counter s' = packet_counter s /\
  (forall n, congestion (store s' n) = congestion (store s n)) /\
  packet_events s' = packet_events s.

(** A manual send rejected with the message box [d]. *)
Definition rejected_with (d : dialog) (s s' : Simulator) : Prop :=
  dialogs s' = d :: dialogs s /\ untouched s s'.

(** The checks of [send_manual_packet] on the selection itself. *)
Definition endpoints_selected (s : Simulator) : Prop :=
  (2 <= length (nodes s))%nat /\ manual_source_var s <> "" /\
  manual_dest_var s <> "" /\ manual_source_var s <> manual_dest_var s.

(** The user picks two names in the manual-send panel. *)
Definition select_endpoints (src dst : string) (s : Simulator) : Simulator :=
  {| nodes := nodes s; store := store s; packets := packets s;
     simulation_running := simulation_running s;
     traffic_load := traffic_load s;
     manual_packet_mode := manual_packet_mode s;
     active_manual_packet_ids := active_manual_packet_ids s;
     manual_source_var := src;
     manual_dest_var := dst;
     congestion_algorithm := congestion_algorithm s;
     packet_loss_rate := packet_loss_rate s;
     packet_counter := packet_counter s;
     packet_events := packet_events s;
     performance_start_time := performance_start_time s;
     clock := clock s; rng := rng s; dialogs := dialogs s |}.

(** The simulator as [send_manual_packet] hands it to [spawn_packet]:
    paused and in manual mode. *)
Definition paused_for_manual (s : Simulator) : Simulator :=
  set_manual_packet_mode true
    (if simulation_running s then set_simulation_running false s else s).

(** The phases a flow can be found in between two hop-entry
    evaluations. *)
Definition stable_phase (ph : string) : Prop :=
  ph = "slow_start" \/ ph = "congestion_avoidance" \/ ph = "fast_recovery".

(** [cwnd += 1], [k] times over. *)
Definition inflated (fl : Q -> Q) (k : nat) (c : pynum) : pynum :=
  Nat.iter k (fun c => py_add fl c (PyInt 1)) c.

(** The range of the congestion accumulator of every node. *)
Definition congestion_in_range (objects : node -> NetworkNode) : Prop :=
  forall n, (0 <= value (congestion (objects n)))%Q /\
            (value (congestion (objects n)) <= 10)%Q.

(** Two object stores that agree on everything but congestion. *)
Definition same_topology (objects objects' : node -> NetworkNode) : Prop :=
  forall n, node_type (objects' n) = node_type (objects n) /\
            name (objects' n) = name (objects n) /\
            connections (objects' n) = connections (objects n) /\
            latency (objects' n) = latency (objects n) /\
            throughput (objects' n) = throughput (objects n).

(** The congestion increment that [spawn_packet] takes from the load
    preset. *)
Definition load_factor (fl : Q -> Q) (load : string) : pynum :=
  if String.eqb load "light" then py_float fl (1 # 2)
  else if String.eqb load "heavy" then PyInt 2
  else PyInt 1.

(** What the settled nodes stand for when latencies are not negative:
    the distance of a settled node is the least cost of a route to it,
    and no link out of a settled node undercuts the distance of an
    unvisited neighbour. *)
Record optimal_invariant (objects : node -> NetworkNode) (V : list node)
    (source : node) (distances : gmap node dist) (unvisited : list node)
    : Prop := {
  opt_source : distances !! source = Some (Dist 0);
  opt_settled : forall u, u ∈ V -> u ∉ unvisited ->
    exists c, distances !! u = Some (Dist c) /\
      forall fw, head fw = Some source -> last fw = Some u ->
        is_route objects fw -> (forall x, x ∈ fw -> x ∈ V) ->
        c <= route_cost objects fw;
  opt_frontier : forall u v cu, u ∈ V -> u ∉ unvisited ->
    v ∈ connections (objects u) -> v ∈ unvisited ->
    distances !! u = Some (Dist cu) ->
    exists cv, distances !! v = Some (Dist cv) /\
               cv <= cu + latency (objects u)
}.

(** Two states of a flow with the same congestion-control state. *)
Definition same_window (p q : Packet) : Prop :=
  cwnd q = cwnd p /\ ssthresh q = ssthresh p /\ phase q = phase p /\
  dup_ack_count q = dup_ack_count p /\ rtt q = rtt p /\
  lost q = lost p /\ retransmitted q = retransmitted p.

(** A flow that has not reached the last node of its route. *)
Definition in_transit (p : Packet) : bool :=
  negb (Z.of_nat (length (path p)) - 1 <=? Z.of_nat (current_index p)).

(** A flow at the start of a hop. *)
Definition hop_started (p : Packet) : bool := py_eq (progress p) (PyInt 0).

(** Two simulators with the same topology, node objects, id counter and
    congestion-control algorithm. *)
Definition same_network (s s' : Simulator) : Prop :=
  nodes s' = nodes s /\ store s' = store s /\
  packet_counter s' = packet_counter s /\
  congestion_algorithm s' = congestion_algorithm s.

(** The keys of the phase counts. *)
Definition phase_names : list string :=
  ["slow_start"; "congestion_avoidance"; "fast_retransmit"; "fast_recovery"].

(** The number of flows of a list that are in the phase [ph]. *)
Definition flows_in_phase (ph : string) (l : list Packet) : Z :=
  Z.of_nat (length (filter (fun p => phase p = ph) l)).

(** The links of a topology form a simple undirected graph that is
    drawn link by link: no node is linked to itself, no node lists a
    neighbour twice, two nodes are linked exactly when the pair is drawn
    in one of its two orders, and no pair is drawn twice. *)
Record simple_links (objects : node -> NetworkNode)
    (drawn : list (node * node)) : Prop := {
  links_irreflexive : forall a, a ∉ connections (objects a);
  links_once : forall a, NoDup (connections (objects a));
  links_drawn : forall a b,
    b ∈ connections (objects a) <-> (a, b) ∈ drawn \/ (b, a) ∈ drawn;
  drawn_once : NoDup drawn;
  drawn_one_way : forall a b, (a, b) ∈ drawn -> (b, a) ∉ drawn
}.

(** The attributes of the nodes other than their links are the same. *)
Definition same_attributes (objects objects' : node -> NetworkNode) : Prop :=
  forall n,
    node_type (objects' n) = node_type (objects n) /\
    name (objects' n) = name (objects n) /\
    latency (objects' n) = latency (objects n) /\
    throughput (objects' n) = throughput (objects n) /\
    congestion (objects' n) = congestion (objects n).

(** [a <= b] on path costs and hop counts. *)
Definition dist_le (a b : dist) : Prop := dist_lt b a = false.

(** The histories behind the graphs are aligned and within their caps. *)
Definition histories_bounded (m : Performance) : Prop :=
  length (latency_history m) = length (time_stamps m) /\
  length (throughput_history m) = length (time_stamps m) /\
  (length (time_stamps m) <= 50)%nat /\
  (length (path_history m) <= 100)%nat.

(** The time between the reading of the clock that [track_performance]
    takes first and the newest time stamp. *)
Definition since_last_stamp (fl : Q -> Q) (time_at : nat -> Q)
    (s : Simulator) (m : Performance) : option pynum :=
  before ← last (time_stamps m);
  Some (py_sub fl
          (py_sub fl (PyFloat (time_at (clock s)))
             (PyFloat (performance_start_time s)))
          before).

(** ** Sample objects *)

(** Exact arithmetic, a clock that stands still and a generator that
    always draws 0: the simplest instances of the parameters, used to run
    the model on concrete inputs. *)
Definition exact (q : Q) : Q := q.
Definition still (_ : nat) : Q := 0%Q.
Definition zero_draw (_ : nat) : Z := 0.

(** A router with the given latency and load, and no links. *)
Definition sample_node (lat : Z) (load : pynum) : NetworkNode :=
  {| node_type := "router"; name := "ROUTER1"; connections := [];
     latency := lat; throughput := 100; congestion := load |}.

(** A simulator freshly created, switched to the given algorithm. *)
Definition sample_simulator (algorithm : string) : Simulator :=
  set_congestion_algorithm algorithm
    (Simulator_init (fun _ => sample_node 10 (PyInt 0)) 0).

(** A flow freshly created on a two-node route. *)
Definition sample_packet : Packet :=
  Packet_init 0%nat 1%nat [0%nat; 1%nat] (Some 1) 0 0 0.

(** The linear topology A - B - C with [latency(A) = 10] and
    [latency(B) = 20]; A, B and C are the objects 0, 1 and 2, and the
    latency of C is left open. *)
Definition linear_objects (latency_C : Z) (n : node) : NetworkNode :=
  match n with
  | O => {| node_type := "router"; name := "A"; connections := [1%nat];
            latency := 10; throughput := 100; congestion := PyInt 0 |}
  | S O => {| node_type := "router"; name := "B";
              connections := [0%nat; 2%nat];
              latency := 20; throughput := 100; congestion := PyInt 0 |}
  | _ => {| node_type := "router"; name := "C"; connections := [1%nat];
            latency := latency_C; throughput := 100;
            congestion := PyInt 0 |}
  end.

Definition linear_topology (latency_C : Z) : Simulator :=
  set_nodes [0%nat; 1%nat; 2%nat]
    (Simulator_init (linear_objects latency_C) 0).

(** Sets iterated in the order of the list they were built from. *)
Definition list_order (l : list node) : list node := l.

(** The canvas in connection mode with the node [a] selected, over the
    links that are drawn. *)
Definition connecting_from (a : node) (drawn : list (node * node))
    : Canvas :=
  {| connection_mode := true; selected_node := Some a;
     dragging_node := None; canvas_connections := drawn |}.

(** Two routers A and B without a link between them, in a simulation
    that is running. *)
Definition unlinked_objects (n : node) : NetworkNode :=
  match n with
  | O => {| node_type := "router"; name := "A"; connections := [];
            latency := 10; throughput := 100; congestion := PyInt 0 |}
  | _ => {| node_type := "router"; name := "B"; connections := [];
            latency := 20; throughput := 100; congestion := PyInt 0 |}
  end.

Definition unlinked_pair : Simulator :=
  set_simulation_running true
    (set_nodes [0%nat; 1%nat] (Simulator_init unlinked_objects 0)).

(** * Properties *)

(** ** Comparisons and rounding *)

Lemma py_lt_true a b : py_lt a b = true <-> (value a < value b)%Q.
Proof.
  unfold py_lt. rewrite negb_true_iff, <- not_true_iff_false, Qle_bool_iff.
  split; [apply Qnot_le_lt | apply Qlt_not_le].
Qed.

Lemma py_lt_false a b : py_lt a b = false <-> (value b <= value a)%Q.
Proof.
  unfold py_lt. rewrite negb_false_iff. apply Qle_bool_iff.
Qed.

Lemma py_gt_true a b : py_gt a b = true <-> (value b < value a)%Q.
Proof. apply py_lt_true. Qed.

Lemma py_gt_false a b : py_gt a b = false <-> (value a <= value b)%Q.
Proof. apply py_lt_false. Qed.

Lemma py_le_true a b : py_le a b = true <-> (value a <= value b)%Q.
Proof. apply Qle_bool_iff. Qed.

Lemma py_max_lower_r a b : (value b <= value (py_max a b))%Q.
Proof.
  unfold py_max. destruct (py_gt b a) eqn:E.
  - apply Qle_refl.
  - now apply py_gt_false.
Qed.

Lemma py_max_lower_l a b : (value a <= value (py_max a b))%Q.
Proof.
  unfold py_max. destruct (py_gt b a) eqn:E.
  - apply py_gt_true in E. now apply Qlt_le_weak.
  - apply Qle_refl.
Qed.

Lemma py_min_lower c a b :
  (c <= value a)%Q -> (c <= value b)%Q -> (c <= value (py_min a b))%Q.
Proof. intros Ha Hb. unfold py_min. now destruct (py_lt b a). Qed.

Section Rounding.

Variable fl : Q -> Q.
Hypothesis fl_mono : forall x y, (x <= y)%Q -> (fl x <= fl y)%Q.
Hypothesis fl_zero : (0 <= fl 0)%Q.
Hypothesis fl_one : (1 <= fl 1)%Q.

Lemma fl_nonneg x : (0 <= x)%Q -> (0 <= fl x)%Q.
Proof. intros H. eapply Qle_trans; [exact fl_zero | now apply fl_mono]. Qed.

Lemma fl_ge_one x : (1 <= x)%Q -> (1 <= fl x)%Q.
Proof. intros H. eapply Qle_trans; [exact fl_one | now apply fl_mono]. Qed.

Lemma to_float_nonneg a : (0 <= value a)%Q -> (0 <= to_float fl a)%Q.
Proof. destruct a; simpl; [apply fl_nonneg | trivial]. Qed.

Lemma to_float_ge_one a : (1 <= value a)%Q -> (1 <= to_float fl a)%Q.
Proof. destruct a; simpl; [apply fl_ge_one | trivial]. Qed.

Lemma py_add_ge_one a b :
  (1 <= value a)%Q -> (0 <= value b)%Q -> (1 <= value (py_add fl a b))%Q.
Proof.
  intros Ha Hb.
  assert (Hs : (1 <= to_float fl a + to_float fl b)%Q).
  { pose proof (to_float_ge_one a Ha). pose proof (to_float_nonneg b Hb).
    lra. }
  destruct a as [x|x], b as [y|y]; simpl; try (now apply fl_ge_one).
  simpl in Ha, Hb. rewrite inject_Z_plus. lra.
Qed.

Lemma py_mul_ge_one a b :
  (1 <= value a)%Q -> (1 <= value b)%Q -> (1 <= value (py_mul fl a b))%Q.
Proof.
  intros Ha Hb.
  assert (Hs : (1 <= to_float fl a * to_float fl b)%Q).
  { pose proof (to_float_ge_one a Ha). pose proof (to_float_ge_one b Hb).
    nra. }
  destruct a as [x|x], b as [y|y]; simpl; try (now apply fl_ge_one).
  simpl in Ha, Hb. rewrite inject_Z_mult. nra.
Qed.

Lemma Qdiv_nonneg x y : (0 <= x)%Q -> (0 <= y)%Q -> (0 <= x / y)%Q.
Proof.
  intros Hx Hy. unfold Qdiv. apply Qmult_le_0_compat; [trivial|].
  now apply Qinv_le_0_compat.
Qed.

Lemma py_truediv_nonneg a b :
  (0 <= value a)%Q -> (0 <= value b)%Q ->
  (0 <= value (py_truediv fl a b))%Q.
Proof.
  intros Ha Hb.
  pose proof (to_float_nonneg a Ha). pose proof (to_float_nonneg b Hb).
  destruct a as [x|x], b as [y|y]; simpl; apply fl_nonneg;
    now apply Qdiv_nonneg.
Qed.

End Rounding.

(** Linear arithmetic over the rationals, after the int literals of the
    source have been turned into fractions. *)
Ltac qlit := simpl; unfold inject_Z in *; lra.

(** ** The window floors *)

Section Floors.

Variable fl : Q -> Q.
Variables time_at random_at : nat -> Q.
Hypothesis fl_mono : forall x y, (x <= y)%Q -> (fl x <= fl y)%Q.
Hypothesis fl_zero : (0 <= fl 0)%Q.
Hypothesis fl_one : (1 <= fl 1)%Q.

Lemma halved_threshold_floor c : (2 <= value (py_max c (PyInt 2)))%Q.
Proof. apply (py_max_lower_r c (PyInt 2)). Qed.

Lemma update_cwnd_floors algorithm p :
  window_floors p -> window_floors (update_cwnd fl algorithm p).
Proof.
  intros [Hc Hs]. unfold update_cwnd.
  destruct (String.eqb (phase p) "slow_start").
  { assert (Hm : (1 <= value (py_min (py_mul fl (cwnd p) (PyInt 2))
                                (ssthresh p)))%Q).
    { apply py_min_lower; [|lra].
      apply py_mul_ge_one; trivial. qlit. }
    cbn [cwnd ssthresh set_cwnd].
    destruct (py_ge _ _); split; trivial. }
  destruct (String.eqb (phase p) "congestion_avoidance").
  { split; trivial. cbn [cwnd set_cwnd].
    apply py_add_ge_one; trivial.
    apply py_truediv_nonneg; trivial.
    - simpl. apply fl_nonneg; trivial. qlit.
    - eapply Qle_trans; [|apply py_max_lower_l]. qlit. }
  destruct (String.eqb (phase p) "fast_recovery"); [|now split].
  destruct (String.eqb algorithm "reno"); [|now split].
  split; trivial. cbn [cwnd set_cwnd].
  apply py_add_ge_one; trivial. qlit.
Qed.

Lemma hop_entry_floors p e :
  window_floors p -> window_floors (hop_entry fl time_at random_at p e).
Proof.
  intros [Hc Hs]. destruct e as [s n].
  unfold hop_entry, handle_congestion_control.
  cbn [fst snd time_time].
  destruct (py_gt (congestion n) (PyInt 9)).
  { destruct (String.eqb _ "reno"); cbn; (split; [qlit|]);
      apply halved_threshold_floor. }
  destruct (py_gt (congestion n) (PyInt 7)).
  { destruct (3 <=? _); [|now split].
    destruct (String.eqb _ "reno"); cbn [snd].
    - split; [|apply halved_threshold_floor].
      cbn. apply py_add_ge_one; trivial.
      + eapply Qle_trans; [|apply halved_threshold_floor]. qlit.
      + qlit.
    - split; [cbn; qlit | apply halved_threshold_floor]. }
  destruct (_ && _ && _).
  { cbn. split; trivial. apply py_add_ge_one; trivial. qlit. }
  destruct (_ && _).
  { cbn. split; trivial. qlit. }
  cbn [cwnd ssthresh set_last_ack_time set_dup_ack_count set_rtt].
  match goal with
  | |- context [update_cwnd fl ?a ?q] =>
      pose proof (update_cwnd_floors a q (conj Hc Hs)) as Hu;
      destruct (update_cwnd fl a q) eqn:Eu
  end.
  destruct (_ && _); cbn; exact Hu.
Qed.

End Floors.

(** ** The flow state machine, one hop-entry at a time *)

(** Reads the fields of a packet through the updates made to it. *)
Ltac packet_fields :=
  cbn [cwnd ssthresh phase dup_ack_count rtt last_ack_time lost
       retransmitted color set_cwnd set_ssthresh set_phase
       set_dup_ack_count set_rtt set_last_ack_time set_lost
       set_retransmitted set_total_latency] in *.

Section HopEntry.

Variable fl : Q -> Q.
Variables time_at random_at : nat -> Q.


Lemma hop_entries_app p es1 es2 :
  hop_entries fl time_at random_at p (es1 ++ es2)
  = hop_entries fl time_at random_at
      (hop_entries fl time_at random_at p es1) es2.
Proof. apply fold_left_app. Qed.

Lemma hop_entries_snoc p es e :
  hop_entries fl time_at random_at p (es ++ [e])
  = hop_entry fl time_at random_at (hop_entries fl time_at random_at p es) e.
Proof. now rewrite hop_entries_app. Qed.

(** Severity above 9: the timeout reaction, whatever the algorithm. *)
Lemma timeout_step s p n :
  (9 < value (congestion n))%Q ->
  hop_entry fl time_at random_at p (s, n) =
    set_dup_ack_count 0
      ((if String.eqb (congestion_algorithm s) "reno"
        then handle_timeout_reno fl else handle_timeout_tahoe fl)
         (set_rtt (entry_rtt fl n) p)).
Proof.
  intros H9. unfold hop_entry, handle_congestion_control.
  cbn [fst snd time_time].
  replace (py_gt (congestion n) (PyInt 9)) with true
    by (symmetry; now apply py_gt_true).
  cbn [congestion_algorithm set_clock].
  now destruct (String.eqb _ "reno").
Qed.

(** Severity in (7, 9] with fewer than three signals so far: only the
    counter and the round-trip estimate are written, and the simulator
    only sees a reading of the clock. *)
Lemma duplicate_signal_step s p n :
  (7 < value (congestion n))%Q -> (value (congestion n) <= 9)%Q ->
  dup_ack_count p + 1 < 3 ->
  handle_congestion_control fl time_at random_at s p n =
    (set_clock (S (clock s)) s,
     set_dup_ack_count (dup_ack_count p + 1) (set_rtt (entry_rtt fl n) p)).
Proof.
  intros H7 H9 Hd. unfold handle_congestion_control.
  cbn [fst snd time_time].
  replace (py_gt (congestion n) (PyInt 9)) with false
    by (symmetry; now apply py_gt_false).
  replace (py_gt (congestion n) (PyInt 7)) with true
    by (symmetry; now apply py_gt_true).
  cbn [dup_ack_count set_dup_ack_count set_rtt].
  destruct (Z.leb_spec 3 (dup_ack_count p + 1)); [lia | reflexivity].
Qed.

(** Severity in (7, 9] on the third signal: fast retransmit. *)
Lemma fast_retransmit_step s p n :
  (7 < value (congestion n))%Q -> (value (congestion n) <= 9)%Q ->
  3 <= dup_ack_count p + 1 ->
  hop_entry fl time_at random_at p (s, n) =
    (if String.eqb (congestion_algorithm s) "reno"
     then handle_fast_retransmit_reno fl
     else handle_fast_retransmit_tahoe fl)
      (set_dup_ack_count (dup_ack_count p + 1) (set_rtt (entry_rtt fl n) p)).
Proof.
  intros H7 H9 Hd. unfold hop_entry, handle_congestion_control.
  cbn [fst snd time_time].
  replace (py_gt (congestion n) (PyInt 9)) with false
    by (symmetry; now apply py_gt_false).
  replace (py_gt (congestion n) (PyInt 7)) with true
    by (symmetry; now apply py_gt_true).
  cbn [dup_ack_count set_dup_ack_count set_rtt congestion_algorithm
       set_clock].
  destruct (Z.leb_spec 3 (dup_ack_count p + 1)); [|lia].
  now destruct (String.eqb _ "reno").
Qed.

(** Severity at most 7 on a flow in slow start: the normal
    acknowledgment doubles the window up to the threshold. *)
Lemma slow_start_ack_step s p n :
  (value (congestion n) <= 7)%Q -> phase p = "slow_start" ->
  let grown := py_min (py_mul fl (cwnd p) (PyInt 2)) (ssthresh p) in
  let q := hop_entry fl time_at random_at p (s, n) in
  cwnd q = grown /\ ssthresh q = ssthresh p /\
  phase q = (if py_ge grown (ssthresh p)
             then "congestion_avoidance" else "slow_start") /\
  dup_ack_count q = 0.
Proof.
  intros H7 Hp. unfold hop_entry, handle_congestion_control.
  cbn [fst snd time_time].
  replace (py_gt (congestion n) (PyInt 9)) with false
    by (symmetry; apply py_gt_false; qlit).
  replace (py_gt (congestion n) (PyInt 7)) with false
    by (symmetry; now apply py_gt_false).
  cbn [phase set_rtt set_last_ack_time set_dup_ack_count
       congestion_algorithm set_clock].
  rewrite Hp.
  change (String.eqb "slow_start" "fast_recovery") with false.
  rewrite andb_false_r. cbn [andb].
  unfold update_cwnd.
  cbn [phase cwnd ssthresh set_cwnd set_rtt set_last_ack_time
       set_dup_ack_count].
  rewrite Hp.
  change (String.eqb "slow_start" "slow_start") with true. cbv iota.
  destruct (py_ge _ (ssthresh p)) eqn:Ege.
  - packet_fields. destruct (_ && _); cbn; auto.
  - packet_fields. unfold py_ge in Ege. rewrite Ege.
    rewrite andb_false_r. cbn. auto.
Qed.

End HopEntry.

Lemma py_lt_int x y : py_lt (PyInt x) (PyInt y) = (x <? y).
Proof.
  unfold py_lt, Qle_bool. simpl. rewrite !Z.mul_1_r.
  now rewrite Z.ltb_antisym.
Qed.

Lemma py_le_int x y : py_le (PyInt x) (PyInt y) = (x <=? y).
Proof. unfold py_le, Qle_bool. simpl. now rewrite !Z.mul_1_r. Qed.

Section FlowRuns.

Variable fl : Q -> Q.
Variables time_at random_at : nat -> Q.


(** Growth never names a phase other than the one the flow has or
    [congestion_avoidance]. *)
Lemma update_cwnd_phase algorithm p :
  phase (update_cwnd fl algorithm p) = phase p \/
  phase (update_cwnd fl algorithm p) = "congestion_avoidance".
Proof.
  unfold update_cwnd.
  destruct (String.eqb (phase p) "slow_start").
  { destruct (py_ge _ _); packet_fields; auto. }
  destruct (String.eqb (phase p) "congestion_avoidance"); [now left|].
  destruct (String.eqb (phase p) "fast_recovery"); [|now left].
  destruct (String.eqb algorithm "reno"); now left.
Qed.

Lemma tahoe_hop_entry_phase s p n :
  congestion_algorithm s = "tahoe" ->
  phase p <> "fast_recovery" ->
  phase (hop_entry fl time_at random_at p (s, n)) <> "fast_recovery".
Proof.
  intros Ha Hp. unfold hop_entry, handle_congestion_control.
  cbn [fst snd time_time congestion_algorithm set_clock]. rewrite Ha.
  change (String.eqb "tahoe" "reno") with false.
  rewrite !andb_false_r.
  destruct (py_gt (congestion n) (PyInt 9)); [cbn; discriminate|].
  destruct (py_gt (congestion n) (PyInt 7)).
  { destruct (3 <=? _); [cbn; discriminate | exact Hp]. }
  match goal with
  | |- context [update_cwnd fl ?a ?q] =>
      destruct (update_cwnd_phase a q) as [Hu|Hu];
      destruct (_ && _); cbn [snd]; packet_fields;
      try discriminate; rewrite Hu; packet_fields;
      (exact Hp || discriminate)
  end.
Qed.

Lemma tahoe_run_phase p es :
  Forall (fun e => congestion_algorithm e.1 = "tahoe") es ->
  phase p <> "fast_recovery" ->
  phase (hop_entries fl time_at random_at p es) <> "fast_recovery".
Proof.
  intros Hes. revert p.
  induction Hes as [|[s n] es Ha _ IH]; intros p Hp; [exact Hp|].
  apply IH. now apply tahoe_hop_entry_phase.
Qed.

(** Slow start below the threshold: every normal acknowledgment doubles
    the window. *)
Lemma slow_start_run es : forall p c,
  phase p = "slow_start" -> ssthresh p = PyInt 64 -> cwnd p = PyInt c ->
  c * 2 ^ Z.of_nat (length es) < 64 -> 1 <= c ->
  Forall (fun e => (value (congestion e.2) <= 7)%Q) es ->
  let q := hop_entries fl time_at random_at p es in
  phase q = "slow_start" /\ ssthresh q = PyInt 64 /\
  cwnd q = PyInt (c * 2 ^ Z.of_nat (length es)).
Proof.
  induction es as [|[s n] es IH]; intros p c Hp Hs Hc Hlt H1 Hes.
  { cbn. rewrite Z.mul_1_r. auto. }
  apply Forall_cons in Hes as [Hn Hes].
  cbn [length] in *. rewrite Nat2Z.inj_succ, Z.pow_succ_r in * by lia.
  assert (H2 : 1 <= 2 ^ Z.of_nat (length es))
    by (pose proof (Z.pow_pos_nonneg 2 (Z.of_nat (length es))); lia).
  destruct (slow_start_ack_step fl time_at random_at s p n Hn Hp)
    as (Hc' & Hs' & Hp' & _).
  rewrite Hc, Hs in *. cbn [py_mul] in *.
  unfold py_min, py_ge in *. rewrite py_lt_int in *.
  destruct (Z.ltb_spec 64 (c * 2)); [nia|].
  rewrite py_le_int in Hp'.
  destruct (Z.leb_spec 64 (c * 2)); [nia|].
  cbn [hop_entries fold_left].
  replace (c * (2 * 2 ^ Z.of_nat (length es)))
    with (c * 2 * 2 ^ Z.of_nat (length es)) in * by ring.
  apply IH; trivial; lia.
Qed.

End FlowRuns.

(** ** The flow state machine over whole runs *)

Section FlowClaims.

Variable fl : Q -> Q.
Variables time_at random_at : nat -> Q.


(** C2: a flow that starts at [cwnd = 1], [ssthresh = 64] has
    [cwnd >= 1] and [ssthresh >= 2] after every run of hop-entry
    evaluations, for every entry node, every simulator state and hence
    either algorithm.  Rounding is only asked to be monotone and not to
    move 0 and 1 the wrong way. *)
Theorem floors_hold_after_every_hop_entry p es :
  (forall x y, (x <= y)%Q -> (fl x <= fl y)%Q) ->
  (0 <= fl 0)%Q -> (1 <= fl 1)%Q ->
  cwnd p = PyInt 1 -> ssthresh p = PyInt 64 ->
  (1 <= value (cwnd (hop_entries fl time_at random_at p es)))%Q /\
  (2 <= value (ssthresh (hop_entries fl time_at random_at p es)))%Q.
Proof.
  intros Hmono H0 H1 Hc Hs.
  change (window_floors (hop_entries fl time_at random_at p es)).
  induction es as [|e es IH] using rev_ind.
  - split; cbn; [rewrite Hc | rewrite Hs]; qlit.
  - rewrite hop_entries_snoc. now apply hop_entry_floors.
Qed.

(** C3: from a duplicate counter of 0, three consecutive hop-entries
    with severity in (7, 9] leave the window untouched twice and fire
    fast retransmit on the third: Reno ends in [fast_recovery] with
    [ssthresh = max(prev_cwnd / 2, 2)] and [cwnd = ssthresh + 3], Tahoe
    in [slow_start] with [cwnd = 1]; both set the retransmitted flag
    and reset the counter. *)
Theorem third_duplicate_signal_fires_fast_retransmit p e1 e2 e3 :
  dup_ack_count p = 0 ->
  Forall (fun e : Simulator * NetworkNode =>
            (7 < value (congestion e.2))%Q /\
            (value (congestion e.2) <= 9)%Q) [e1; e2; e3] ->
  let before := hop_entries fl time_at random_at p [e1; e2] in
  let q := hop_entries fl time_at random_at p [e1; e2; e3] in
  let halved := py_max (py_truediv fl (cwnd before) (PyInt 2)) (PyInt 2) in
  cwnd before = cwnd p /\
  retransmitted q = true /\ dup_ack_count q = 0 /\
  (congestion_algorithm e3.1 = "reno" ->
     phase q = "fast_recovery" /\ ssthresh q = halved /\
     cwnd q = py_add fl halved (PyInt 3)) /\
  (congestion_algorithm e3.1 = "tahoe" ->
     phase q = "slow_start" /\ cwnd q = PyInt 1).
Proof.
  intros Hd Hes. destruct e1 as [s1 n1], e2 as [s2 n2], e3 as [s3 n3].
  apply Forall_cons in Hes as [[H1 H1'] Hes].
  apply Forall_cons in Hes as [[H2 H2'] Hes].
  apply Forall_cons in Hes as [[H3 H3'] _].
  cbn [fst snd] in *. cbn zeta.
  assert (Hstep : forall s r n, (7 < value (congestion n))%Q ->
            (value (congestion n) <= 9)%Q -> dup_ack_count r + 1 < 3 ->
            hop_entry fl time_at random_at r (s, n) =
              set_dup_ack_count (dup_ack_count r + 1)
                (set_rtt (entry_rtt fl n) r)).
  { intros s r n G7 G9 Gd. unfold hop_entry. cbn [fst snd].
    now rewrite duplicate_signal_step. }
  unfold hop_entries. cbn [fold_left].
  rewrite (Hstep s1 p n1) by (trivial; lia).
  rewrite (Hstep s2 _ n2) by (packet_fields; trivial; lia).
  rewrite (fast_retransmit_step fl time_at random_at s3 _ n3)
    by (packet_fields; trivial; lia).
  split; [reflexivity|].
  destruct (String.eqb_spec (congestion_algorithm s3) "reno") as [E|E].
  - cbn. repeat split; trivial; congruence.
  - cbn. repeat split; trivial; congruence.
Qed.

(** C4: a hop-entry with severity above 9 sets, under any algorithm,
    [ssthresh = max(cwnd / 2, 2)], [cwnd = 1], phase [slow_start], the
    lost flag, and the duplicate counter to 0. *)
Theorem timeout_restarts_slow_start s p n :
  (9 < value (congestion n))%Q ->
  let q := hop_entry fl time_at random_at p (s, n) in
  ssthresh q = py_max (py_truediv fl (cwnd p) (PyInt 2)) (PyInt 2) /\
  cwnd q = PyInt 1 /\ phase q = "slow_start" /\ lost q = true /\
  dup_ack_count q = 0.
Proof.
  intros H9. cbn zeta. rewrite timeout_step by trivial.
  destruct (String.eqb _ "reno"); cbn; auto.
Qed.

(** C5: a flow at [cwnd = 1], [ssthresh = 64] in [slow_start] that
    meets six normal acknowledgments (severity at most 7) has window
    [2 ^ k] and is still in [slow_start] after [k < 6] of them, and has
    window 64 and phase [congestion_avoidance] after the sixth. *)
Theorem slow_start_reaches_threshold_on_sixth_entry p es :
  cwnd p = PyInt 1 -> ssthresh p = PyInt 64 -> phase p = "slow_start" ->
  length es = 6%nat ->
  Forall (fun e : Simulator * NetworkNode =>
            (value (congestion e.2) <= 7)%Q) es ->
  (forall k, (k < 6)%nat ->
     cwnd (hop_entries fl time_at random_at p (take k es))
       = PyInt (2 ^ Z.of_nat k) /\
     phase (hop_entries fl time_at random_at p (take k es)) = "slow_start") /\
  cwnd (hop_entries fl time_at random_at p es) = PyInt 64 /\
  phase (hop_entries fl time_at random_at p es) = "congestion_avoidance".
Proof.
  intros Hc Hs Hp Hlen Hes.
  assert (Hrun : forall k, (k < 6)%nat ->
    let q := hop_entries fl time_at random_at p (take k es) in
    phase q = "slow_start" /\ ssthresh q = PyInt 64 /\
    cwnd q = PyInt (2 ^ Z.of_nat k)).
  { intros k Hk.
    assert (Hl : length (take k es) = k) by (rewrite length_take; lia).
    assert (Hpow : 2 ^ Z.of_nat k < 64).
    { change 64 with (2 ^ 6). apply Z.pow_lt_mono_r; lia. }
    pose proof (slow_start_run fl time_at random_at (take k es) p 1
                  Hp Hs Hc) as R.
    rewrite Hl, Z.mul_1_l in R.
    apply R; [trivial | lia | now apply Forall_take]. }
  split; [intros k Hk; destruct (Hrun k Hk) as (? & ? & ?); auto|].
  destruct (Hrun 5%nat ltac:(lia)) as (Hp5 & Hs5 & Hc5).
  rewrite <- (take_drop 5 es).
  destruct (drop 5 es) as [|[s n] rest] eqn:Ed.
  { apply (f_equal length) in Ed. rewrite length_drop in Ed.
    cbn in Ed. lia. }
  assert (rest = []) as ->.
  { apply (f_equal length) in Ed. rewrite length_drop in Ed.
    cbn in Ed. destruct rest; [trivial | cbn in Ed; lia]. }
  assert (Hn : (value (congestion n) <= 7)%Q).
  { assert (Hin : (s, n) ∈ es).
    { rewrite <- (take_drop 5 es), Ed. apply elem_of_app. right.
      constructor. }
    rewrite Forall_forall in Hes. exact (Hes _ Hin). }
  rewrite hop_entries_snoc.
  destruct (slow_start_ack_step fl time_at random_at s _ n Hn Hp5)
    as (Hc' & _ & Hp' & _).
  rewrite Hc5, Hs5 in Hc', Hp'.
  split; [exact Hc' | exact Hp'].
Qed.

(** C6: while the algorithm is Tahoe at every hop-entry, a flow that
    starts in [slow_start] is never in [fast_recovery]. *)
Theorem tahoe_never_enters_fast_recovery p es :
  phase p = "slow_start" ->
  Forall (fun e : Simulator * NetworkNode =>
            congestion_algorithm e.1 = "tahoe") es ->
  phase (hop_entries fl time_at random_at p es) <> "fast_recovery".
Proof.
  intros Hp Hes. apply tahoe_run_phase; trivial.
  rewrite Hp. discriminate.
Qed.

(** C8, amended: on a hop-entry with severity in (7, 9] whose
    incremented duplicate counter is still below 3, the window, the
    threshold, the phase and the lost and retransmitted flags keep
    their values and no event is recorded; the counter grows by one and
    the round-trip estimate is rewritten to
    [latency + congestion * 5].  Nothing else of the flow is written:
    endpoints, route, position on the route, progress, hop count, total
    latency, creation time, completion flag, id, time of the last
    acknowledgment and colour are as before, and the simulator has only
    taken one reading of the clock. *)
Theorem duplicate_signal_below_three_frame s p n :
  (7 < value (congestion n))%Q -> (value (congestion n) <= 9)%Q ->
  dup_ack_count p + 1 < 3 ->
  let s' := (handle_congestion_control fl time_at random_at s p n).1 in
  let q := (handle_congestion_control fl time_at random_at s p n).2 in
  cwnd q = cwnd p /\ ssthresh q = ssthresh p /\ phase q = phase p /\
  lost q = lost p /\ retransmitted q = retransmitted p /\
  packet_events s' = packet_events s /\
  dup_ack_count q = dup_ack_count p + 1 /\
  rtt q = py_add fl (PyInt (latency n))
            (py_mul fl (congestion n) (PyInt 5)) /\
  source q = source p /\ destination q = destination p /\
  path q = path p /\ current_index q = current_index p /\
  progress q = progress p /\ hop_count q = hop_count p /\
  total_latency q = total_latency p /\ timestamp q = timestamp p /\
  completed q = completed p /\ packet_id q = packet_id p /\
  last_ack_time q = last_ack_time p /\ color q = color p /\
  s' = set_clock (S (clock s)) s.
Proof.
  intros H7 H9 Hd. cbn zeta.
  rewrite duplicate_signal_step by trivial.
  cbn. repeat split.
Qed.

End FlowClaims.

(** ** Concrete runs of the flow state machine *)

Lemma floors_hold_after_every_hop_entry_witness :
  let es := [(sample_simulator "reno", sample_node 10 (PyInt 8));
             (sample_simulator "reno", sample_node 10 (PyInt 8));
             (sample_simulator "reno", sample_node 10 (PyInt 8));
             (sample_simulator "tahoe", sample_node 10 (PyInt 10));
             (sample_simulator "reno", sample_node 10 (PyInt 0))] in
  (forall x y, (x <= y)%Q -> (exact x <= exact y)%Q) /\
  (0 <= exact 0)%Q /\ (1 <= exact 1)%Q /\
  cwnd sample_packet = PyInt 1 /\ ssthresh sample_packet = PyInt 64 /\
  (1 <= value (cwnd (hop_entries exact still still sample_packet es)))%Q /\
  (2 <= value (ssthresh (hop_entries exact still still sample_packet es)))%Q.
Proof.
  intros es.
  assert (Hm : forall x y, (x <= y)%Q -> (exact x <= exact y)%Q)
    by (intros x y H; exact H).
  assert (H0 : (0 <= exact 0)%Q) by (unfold exact; lra).
  assert (H1 : (1 <= exact 1)%Q) by (unfold exact; lra).
  repeat (split; [trivial; reflexivity|]).
  exact (floors_hold_after_every_hop_entry exact still still sample_packet es
           Hm H0 H1 eq_refl eq_refl).
Defined.

Lemma third_duplicate_signal_fires_fast_retransmit_witness :
  let e := (sample_simulator "reno", sample_node 10 (PyInt 8)) in
  let q := hop_entries exact still still sample_packet [e; e; e] in
  dup_ack_count sample_packet = 0 /\
  phase q = "fast_recovery" /\ cwnd q = PyInt 5 /\ ssthresh q = PyInt 2.
Proof.
  intros e q.
  assert (He : Forall (fun e : Simulator * NetworkNode =>
                         (7 < value (congestion e.2))%Q /\
                         (value (congestion e.2) <= 9)%Q) [e; e; e]).
  { repeat constructor; cbn; unfold inject_Z; lra. }
  destruct (third_duplicate_signal_fires_fast_retransmit exact still still
              sample_packet e e e eq_refl He)
    as (_ & _ & _ & Hreno & _).
  destruct (Hreno eq_refl) as (Hp & Hs & Hc).
  split; [reflexivity|]. split; [exact Hp|].
  split; (etransitivity; [eassumption | reflexivity]).
Defined.

Lemma timeout_restarts_slow_start_witness :
  let n := sample_node 10 (PyInt 10) in
  let q := hop_entry exact still still sample_packet
             (sample_simulator "tahoe", n) in
  (9 < value (congestion n))%Q /\
  cwnd q = PyInt 1 /\ phase q = "slow_start" /\ lost q = true.
Proof.
  intros n q.
  assert (H9 : (9 < value (congestion n))%Q) by reflexivity.
  destruct (timeout_restarts_slow_start exact still still
              (sample_simulator "tahoe") sample_packet n H9)
    as (_ & Hc & Hp & Hl & _).
  auto.
Defined.

Lemma slow_start_reaches_threshold_on_sixth_entry_witness :
  let es := repeat (sample_simulator "reno", sample_node 10 (PyInt 0)) 6 in
  length es = 6%nat /\
  cwnd (hop_entries exact still still sample_packet es) = PyInt 64 /\
  phase (hop_entries exact still still sample_packet es)
    = "congestion_avoidance".
Proof.
  intros es.
  assert (He : Forall (fun e : Simulator * NetworkNode =>
                         (value (congestion e.2) <= 7)%Q) es).
  { repeat constructor; cbn; unfold inject_Z; lra. }
  destruct (slow_start_reaches_threshold_on_sixth_entry exact still still
              sample_packet es eq_refl eq_refl eq_refl eq_refl He)
    as (_ & Hc & Hp).
  auto.
Defined.

Lemma tahoe_never_enters_fast_recovery_witness :
  let e := (sample_simulator "tahoe", sample_node 10 (PyInt 8)) in
  phase sample_packet = "slow_start" /\
  phase (hop_entries exact still still sample_packet [e; e; e; e])
    <> "fast_recovery".
Proof.
  intros e. split; [reflexivity|].
  apply tahoe_never_enters_fast_recovery; [reflexivity|].
  repeat constructor.
Defined.

Lemma duplicate_signal_below_three_frame_witness :
  let n := sample_node 10 (PyInt 8) in
  let s := sample_simulator "reno" in
  let q := (handle_congestion_control exact still still s sample_packet n).2
  in
  (7 < value (congestion n))%Q /\ (value (congestion n) <= 9)%Q /\
  dup_ack_count sample_packet + 1 < 3 /\
  cwnd q = cwnd sample_packet /\ dup_ack_count q = 1 /\
  path q = path sample_packet /\
  current_index q = current_index sample_packet /\
  completed q = completed sample_packet /\
  last_ack_time q = last_ack_time sample_packet.
Proof.
  intros n s q.
  assert (H7 : (7 < value (congestion n))%Q) by reflexivity.
  assert (H9 : (value (congestion n) <= 9)%Q) by (cbn; unfold inject_Z; lra).
  assert (Hd : dup_ack_count sample_packet + 1 < 3) by (cbn; lia).
  destruct (duplicate_signal_below_three_frame exact still still s
              sample_packet n H7 H9 Hd)
    as (Hc & _ & _ & _ & _ & _ & Hk & _ & _ & _ & Hpath & Hci & _ & _ & _ &
        _ & Hco & _ & Hack & _).
  auto 10.
Defined.

(** C8 as stated fails: the hop-entry below has severity 8 and brings the
    duplicate counter to 1, yet it rewrites the round-trip estimate of the
    flow from 0 to 50. *)
Lemma duplicate_signal_rewrites_rtt :
  let n := sample_node 10 (PyInt 8) in
  let q := hop_entry exact still still sample_packet
             (sample_simulator "reno", n) in
  (7 < value (congestion n))%Q /\
  dup_ack_count q = dup_ack_count sample_packet + 1 /\
  dup_ack_count q < 3 /\
  rtt sample_packet = PyInt 0 /\ rtt q = PyInt 50 /\
  rtt q <> rtt sample_packet.
Proof.
  cbn zeta. repeat split; try reflexivity; try discriminate.
Qed.

(** ** The event log *)

Lemma last_n_length {A} (n : nat) (l : list A) :
  length (last_n n l) = Nat.min n (length l).
Proof. unfold last_n. rewrite length_drop. lia. Qed.

(** At the cap, keeping the last 500 of the log with one more entry drops
    exactly the oldest entry. *)
Lemma last_n_evicts_oldest {A} (l : list A) (x : A) :
  length l = 500%nat -> last_n 500 (l ++ [x]) = drop 1 l ++ [x].
Proof.
  intros Hl. unfold last_n. rewrite length_app, Hl.
  change (500 + length [x] - 500)%nat with 1%nat.
  rewrite drop_app_le by lia. reflexivity.
Qed.

Section EventLog.

Variable fl : Q -> Q.
Variables time_at random_at : nat -> Q.

(** An important event is always recorded, and the log is then cut to
    its last 500 entries. *)
Lemma record_important_event s p event_type :
  is_important event_type = true ->
  packet_events (record_packet_event fl time_at random_at s p event_type) =
    let log := packet_events s ++ [event_of fl time_at s p event_type] in
    if (500 <? length log)%nat then last_n 500 log else log.
Proof.
  intros Hi. unfold record_packet_event. cbn [time_time]. rewrite Hi.
  cbn [performance_start_time set_clock packet_events set_packet_events
       store].
  cbv zeta. fold (event_of fl time_at s p event_type).
  now destruct (500 <? _)%nat.
Qed.

(** Whatever the kind of event and the draw, [record_packet_event]
    leaves a log within the cap if it found one within the cap. *)
Lemma record_packet_event_cap s p event_type :
  (length (packet_events s) <= 500)%nat ->
  (length (packet_events
             (record_packet_event fl time_at random_at s p event_type))
     <= 500)%nat.
Proof.
  intros Hl. unfold record_packet_event. cbn [time_time].
  assert (Hcut : forall (s' : Simulator) (log : list Event),
            (length
               (packet_events
                  (if (500 <? length (packet_events
                                    (set_packet_events log s')))%nat
                   then set_packet_events
                          (last_n 500
                             (packet_events (set_packet_events log s')))
                          (set_packet_events log s')
                   else set_packet_events log s')) <= 500)%nat).
  { intros s' log. cbn [packet_events set_packet_events].
    destruct (Nat.ltb_spec 500 (length log));
      cbn [packet_events set_packet_events];
      [rewrite last_n_length|]; lia. }
  destruct (is_important event_type).
  - apply Hcut.
  - cbn [random_random]. destruct (py_gt _ _); [exact Hl | apply Hcut].
Qed.

(** At the cap, recording an important event evicts the oldest entry
    and appends the new one. *)
Lemma record_important_event_fifo s p event_type :
  is_important event_type = true ->
  length (packet_events s) = 500%nat ->
  packet_events (record_packet_event fl time_at random_at s p event_type) =
    drop 1 (packet_events s) ++ [event_of fl time_at s p event_type].
Proof.
  intros Hi Hl. rewrite record_important_event by trivial. cbv zeta.
  rewrite length_app, Hl. cbn [length Nat.add Nat.ltb Nat.leb].
  replace (500 <? 500 + 1)%nat with true by reflexivity.
  now apply last_n_evicts_oldest.
Qed.

(** [record_packet_event_dropped] appends and never cuts. *)
Lemma record_dropped_appends s pid :
  exists event,
    ev_event_type event = "dropped" /\ ev_packet_id event = pid /\
    packet_events (record_packet_event_dropped fl time_at s pid) =
      packet_events s ++ [event].
Proof.
  unfold record_packet_event_dropped.
  cbn [time_time packet_events set_packet_events set_clock
       performance_start_time].
  eexists. split; [|split; [|reflexivity]]; reflexivity.
Qed.

(** C7 fails on the code: at the cap of 500 entries, recording a
    dropped packet keeps every old entry and leaves 501 entries in the
    log. *)
Theorem dropped_event_exceeds_cap s pid :
  length (packet_events s) = 500%nat ->
  length (packet_events (record_packet_event_dropped fl time_at s pid))
    = 501%nat /\
  take 500 (packet_events (record_packet_event_dropped fl time_at s pid))
    = packet_events s.
Proof.
  intros Hl. destruct (record_dropped_appends s pid) as (ev & _ & _ & ->).
  rewrite length_app, Hl. split; [reflexivity|].
  rewrite take_app_le by lia. apply take_ge. lia.
Qed.

End EventLog.

Lemma dropped_event_exceeds_cap_witness :
  let full :=
    set_packet_events
      (repeat (event_of exact still (sample_simulator "reno") sample_packet
                 "created") 500)
      (sample_simulator "reno") in
  length (packet_events full) = 500%nat /\
  length (packet_events (record_packet_event_dropped exact still full 7))
    = 501%nat.
Proof.
  intros full.
  assert (Hl : length (packet_events full) = 500%nat)
    by (apply repeat_length).
  split; [exact Hl|].
  exact (proj1 (dropped_event_exceeds_cap exact still full 7 Hl)).
Defined.

(** ** PathFinder: the distance order and the minimum *)

Lemma dist_lt_irrefl a : dist_lt a a = false.
Proof. destruct a; simpl; [apply Z.ltb_irrefl | reflexivity]. Qed.

Lemma dist_lt_asym a b : dist_lt a b = true -> dist_lt b a = false.
Proof. destruct a, b; simpl; try easy. rewrite !Z.ltb_lt, Z.ltb_ge. lia. Qed.

(** [dist_lt b a = false] reads [a <= b]; the order is transitive. *)
Lemma dist_le_trans a b c :
  dist_lt b a = false -> dist_lt c b = false -> dist_lt c a = false.
Proof.
  destruct a, b, c; simpl; try easy. rewrite !Z.ltb_ge. lia.
Qed.

Lemma dist_below_infinity a : dist_lt a Infinity = false -> a = Infinity.
Proof. now destruct a. Qed.

(** Runs the binds of a computation whose first step has returned. *)
Ltac run_bind := cbn [mbind result_bind mret result_ret].

Lemma getitem_lookup {V} (d : gmap node V) k v :
  d !! k = Some v -> getitem d k = Ok v.
Proof. unfold getitem. now intros ->. Qed.

(** [min] returns an element of the set whose distance no other element
    undercuts. *)
Lemma min_by_distance_spec (D : gmap node dist) rest : forall best bk,
  D !! best = Some bk ->
  (forall x, x ∈ rest -> is_Some (D !! x)) ->
  exists m km,
    min_by_distance D best bk rest = Ok m /\
    m ∈ best :: rest /\ D !! m = Some km /\
    dist_lt bk km = false /\
    (forall x kx, x ∈ rest -> D !! x = Some kx -> dist_lt kx km = false).
Proof.
  induction rest as [|x rest IH]; intros best bk Hb Hk.
  { exists best, bk. cbn. repeat split; trivial.
    - constructor.
    - apply dist_lt_irrefl.
    - intros ? ? H. inversion H. }
  destruct (Hk x ltac:(constructor)) as [k Hx].
  cbn [min_by_distance]. rewrite (getitem_lookup _ _ _ Hx). cbn.
  destruct (dist_lt k bk) eqn:Elt.
  - destruct (IH x k Hx) as (m & km & Hm & Hin & Hkm & Hle & Hall).
    { intros y Hy. apply Hk. now constructor. }
    exists m, km. repeat split; trivial.
    + apply elem_of_cons. right. exact Hin.
    + apply dist_lt_asym in Elt.
      exact (dist_le_trans km k bk Hle Elt).
    + intros y ky Hy Hky. apply elem_of_cons in Hy as [->|Hy].
      * rewrite Hx in Hky. injection Hky as <-. exact Hle.
      * eauto.
  - destruct (IH best bk Hb) as (m & km & Hm & Hin & Hkm & Hle & Hall).
    { intros y Hy. apply Hk. now constructor. }
    exists m, km. repeat split; trivial.
    + apply elem_of_cons in Hin as [->|Hin].
      * constructor.
      * apply elem_of_cons. right. apply elem_of_cons. now right.
    + intros y ky Hy Hky. apply elem_of_cons in Hy as [->|Hy].
      * rewrite Hx in Hky. injection Hky as <-.
        exact (dist_le_trans km bk k Hle Elt).
      * eauto.
Qed.

(** ** PathFinder: routes and walks along [previous] *)

Lemma latency_sum_app objects l1 l2 :
  latency_sum objects (l1 ++ l2)
  = latency_sum objects l1 + latency_sum objects l2.
Proof.
  induction l1 as [|x l1 IH]; [reflexivity|].
  change (latency_sum objects ((x :: l1) ++ l2))
    with (latency (objects x) + latency_sum objects (l1 ++ l2)).
  change (latency_sum objects (x :: l1))
    with (latency (objects x) + latency_sum objects l1).
  lia.
Qed.

Lemma latency_sum_reverse objects l :
  latency_sum objects (reverse l) = latency_sum objects l.
Proof.
  induction l as [|x l IH]; [reflexivity|].
  rewrite reverse_cons, latency_sum_app, IH.
  change (latency_sum objects [x]) with (latency (objects x) + 0).
  change (latency_sum objects (x :: l))
    with (latency (objects x) + latency_sum objects l).
  lia.
Qed.

Lemma is_route_snoc objects l v :
  is_route objects l ->
  (forall u, last l = Some u -> v ∈ connections (objects u)) ->
  is_route objects (l ++ [v]).
Proof.
  induction l as [|a l IH]; intros Hr Hl; [cbn; auto|].
  destruct Hr as [Ha Hr]. cbn [app is_route]. split.
  - destruct l as [|b l]; cbn in *; [|exact Ha].
    apply Hl. reflexivity.
  - apply IH; [exact Hr|]. intros u Hu. apply Hl.
    destruct l; [discriminate|]. now rewrite last_cons_cons.
Qed.

Lemma linked_back_reverse objects bw :
  linked_back objects bw -> is_route objects (reverse bw).
Proof.
  induction bw as [|x bw IH]; intros Hb; [exact I|].
  destruct Hb as [Hx Hb]. rewrite reverse_cons.
  apply is_route_snoc; [now apply IH|].
  intros u Hu. rewrite last_reverse in Hu. now rewrite Hu in Hx.
Qed.

Lemma back_walk_head P n bw : back_walk P n bw -> exists t, bw = n :: t.
Proof. destruct 1; eauto. Qed.

Lemma back_walk_keys P n bw :
  back_walk P n bw -> forall x, x ∈ bw -> is_Some (P !! x).
Proof.
  induction 1 as [n Hn|n u bw Hn _ IH]; intros x Hx.
  - apply list_elem_of_singleton in Hx as ->. eauto.
  - apply elem_of_cons in Hx as [->|Hx]; eauto.
Qed.

Lemma back_walk_ext P P' n bw :
  back_walk P n bw -> (forall x, x ∈ bw -> P' !! x = P !! x) ->
  back_walk P' n bw.
Proof.
  induction 1 as [n Hn|n u bw Hn _ IH]; intros Hx.
  - apply back_walk_end. rewrite Hx; [exact Hn | constructor].
  - apply back_walk_step with u.
    + rewrite Hx; [exact Hn | constructor].
    + apply IH. intros x Hin. apply Hx. now constructor.
Qed.

(** Walking back with enough budget collects the walk. *)
Lemma reconstruct_path_walk P n bw :
  back_walk P n bw -> forall fuel acc, (length bw <= fuel)%nat ->
  reconstruct_path fuel P (Some n) acc = Ok (acc ++ bw).
Proof.
  induction 1 as [n Hn|n u bw Hn _ IH]; intros fuel acc Hf.
  - destruct fuel; [cbn in Hf; lia|]. cbn.
    rewrite (getitem_lookup _ _ _ Hn). cbn. now destruct fuel.
  - destruct fuel; [cbn in Hf; lia|]. cbn.
    rewrite (getitem_lookup _ _ _ Hn). cbn.
    rewrite IH by (cbn in Hf; lia). now rewrite <- app_assoc.
Qed.

(** A walk without repetition is no longer than the table it follows. *)
Lemma walk_length_bound (P : gmap node (option node)) (bw : list node) :
  NoDup bw -> (forall x, x ∈ bw -> is_Some (P !! x)) ->
  (length bw <= size P)%nat.
Proof.
  intros Hnd Hk.
  rewrite <- (size_dom (D := gset node)).
  rewrite <- (size_list_to_set (C := gset node) bw) by exact Hnd.
  apply subseteq_size. intros x Hx.
  apply elem_of_list_to_set in Hx. apply elem_of_dom. now apply Hk.
Qed.

(** ** PathFinder: relaxing the neighbours of the current node *)

Section PathFinderFacts.

Variable objects : node -> NetworkNode.
Variable V : list node.
Variable source : node.

Lemma settled_route_avoids P U n c bw v :
  settled_route objects V source P U n c bw ->
  v ∈ U -> v <> n -> v ∉ bw.
Proof.
  intros R Hv Hn Hin.
  destruct (back_walk_head _ _ _ (route_walk _ _ _ _ _ _ _ _ R)) as [t ->].
  apply elem_of_cons in Hin as [->|Hin]; [congruence|].
  exact (route_settled _ _ _ _ _ _ _ _ R v Hin Hv).
Qed.

Lemma settled_route_ext P P' U n c bw :
  settled_route objects V source P U n c bw ->
  (forall x, x ∈ bw -> P' !! x = P !! x) ->
  settled_route objects V source P' U n c bw.
Proof.
  intros [Hw Hs Hd Hl Ht Hv Hn] Hx. split; trivial.
  now apply back_walk_ext with P.
Qed.

Lemma settled_route_shrink P U U' n c bw :
  settled_route objects V source P U n c bw ->
  (forall x, x ∈ U' -> x ∈ U) ->
  settled_route objects V source P U' n c bw.
Proof.
  intros [Hw Hs Hd Hl Ht Hv Hn] Hsub. split; trivial.
  intros x Hx Hin. exact (Hv x Hx (Hsub x Hin)).
Qed.

(** The route to a neighbour that has just been relaxed: the route to
    the current node, extended by the link that was followed. *)
Lemma settled_route_extend P U current c0 bwc v :
  settled_route objects V source P U current c0 bwc ->
  current ∉ U -> v ∈ U -> v ∈ V -> v ∈ connections (objects current) ->
  settled_route objects V source (<[v := Some current]> P) U v
    (c0 + latency (objects current)) (v :: bwc).
Proof.
  intros R Hc Hv HvV Hconn.
  assert (Hvc : v <> current) by (intros ->; contradiction).
  pose proof (settled_route_avoids _ _ _ _ _ v R Hv Hvc) as Hout.
  destruct R as [Hw Hs Hd Hl Ht Hset Hn].
  destruct (back_walk_head _ _ _ Hw) as [t ->].
  split.
  - apply back_walk_step with current; [apply lookup_insert_eq|].
    apply back_walk_ext with P; [exact Hw|].
    intros x Hx. apply lookup_insert_ne. intros ->. contradiction.
  - now rewrite last_cons_cons.
  - now apply NoDup_cons.
  - split; [exact Hconn | exact Hl].
  - cbn [tail] in *. subst c0.
    change (latency_sum objects (current :: t))
      with (latency (objects current) + latency_sum objects t).
    lia.
  - cbn [tail]. intros x Hx. apply elem_of_cons in Hx as [->|Hx]; auto.
  - intros x Hx. apply elem_of_cons in Hx as [->|Hx]; auto.
Qed.

Lemma relax_neighbors_spec current c0 U nbrs :
  current ∈ V -> current ∉ U -> (forall n, n ∈ U -> n ∈ V) ->
  (forall v, v ∈ nbrs -> v ∈ connections (objects current)) ->
  forall D P,
  (forall n, n ∈ V -> is_Some (D !! n) /\ is_Some (P !! n)) ->
  D !! current = Some (Dist c0) ->
  (forall n c, D !! n = Some (Dist c) ->
     exists bw, settled_route objects V source P U n c bw) ->
  exists D' P',
    relax_neighbors current (latency (objects current)) U nbrs D P
      = Ok (D', P') /\
    (forall n, n ∈ V -> is_Some (D' !! n) /\ is_Some (P' !! n)) /\
    D' !! current = Some (Dist c0) /\
    (forall n c, D' !! n = Some (Dist c) ->
       exists bw, settled_route objects V source P' U n c bw) /\
    (forall n c, D !! n = Some (Dist c) ->
       exists c', D' !! n = Some (Dist c')) /\
    (forall v, v ∈ nbrs -> v ∈ U -> exists c, D' !! v = Some (Dist c)).
Proof.
  intros HcV HcU HU. induction nbrs as [|v rest IH];
    intros Hconn D P Hkeys Hcur Hroutes.
  { exists D, P. do 4 (split; [trivial|]). split; [eauto|].
    intros v Hv. inversion Hv. }
  assert (Hrest : forall x, x ∈ rest -> x ∈ connections (objects current))
    by (intros x Hx; apply Hconn; now constructor).
  cbn [relax_neighbors]. destruct (bool_decide_reflect (v ∈ U)) as [Hv|Hv].
  - rewrite (getitem_lookup _ _ _ Hcur). run_bind.
    destruct (proj1 (Hkeys v (HU v Hv))) as [dn Hdn].
    rewrite (getitem_lookup _ _ _ Hdn). run_bind. cbn [dist_add].
    assert (Hvc : v <> current) by (intros ->; contradiction).
    destruct (dist_lt (Dist (c0 + latency (objects current))) dn) eqn:Elt.
    + destruct (IH Hrest
                  (<[v := Dist (c0 + latency (objects current))]> D)
                  (<[v := Some current]> P))
        as (D' & P' & Hrun & Hk' & Hc' & Hr' & Hfin & Hdone).
      * intros n Hn. destruct (Hkeys n Hn) as [? ?].
        split; (destruct (decide (v = n)) as [->|];
                [rewrite lookup_insert_eq | rewrite lookup_insert_ne];
                eauto).
      * now rewrite lookup_insert_ne.
      * intros n c Hn. destruct (decide (v = n)) as [<-|Hne].
        -- rewrite lookup_insert_eq in Hn. injection Hn as <-.
           destruct (Hroutes current c0 Hcur) as [bwc R].
           exists (v :: bwc).
           apply settled_route_extend; auto.
           apply Hconn. constructor.
        -- rewrite lookup_insert_ne in Hn by trivial.
           destruct (Hroutes n c Hn) as [bw R]. exists bw.
           apply settled_route_ext with P; [exact R|].
           intros x Hx. apply lookup_insert_ne. intros ->.
           exact (settled_route_avoids _ _ _ _ _ x R Hv Hne Hx).
      * exists D', P'. do 4 (split; [assumption|]). split.
        -- intros n c Hn. destruct (decide (v = n)) as [<-|Hne].
           ++ apply (Hfin v (c0 + latency (objects current))).
              apply lookup_insert_eq.
           ++ apply (Hfin n c). now rewrite lookup_insert_ne.
        -- intros x Hx HxU. apply elem_of_cons in Hx as [->|Hx]; auto.
           apply (Hfin v (c0 + latency (objects current))).
           apply lookup_insert_eq.
    + destruct (IH Hrest D P Hkeys Hcur Hroutes)
        as (D' & P' & Hrun & Hk' & Hc' & Hr' & Hfin & Hdone).
      exists D', P'. do 4 (split; [assumption|]). split; [exact Hfin|].
      intros x Hx HxU. apply elem_of_cons in Hx as [->|Hx]; auto.
      destruct dn as [c|]; [|discriminate]. eauto.
  - destruct (IH Hrest D P Hkeys Hcur Hroutes)
      as (D' & P' & Hrun & Hk' & Hc' & Hr' & Hfin & Hdone).
    exists D', P'. do 4 (split; [assumption|]). split; [exact Hfin|].
    intros x Hx HxU. apply elem_of_cons in Hx as [->|Hx]; auto.
    contradiction.
Qed.

End PathFinderFacts.

(** ** PathFinder: the main loop *)

Section PathFinderLoop.

Variable objects : node -> NetworkNode.
Variable V : list node.
Variables source destination : node.

(** Once every unvisited node is at distance infinity, no route that
    starts at a settled node ever leaves the settled nodes. *)
Lemma settled_nodes_closed (D : gmap node dist) (U : list node) :
  (forall x, x ∈ U -> D !! x = Some Infinity) ->
  (forall u v, u ∈ V -> u ∉ U -> v ∈ connections (objects u) -> v ∈ U ->
     exists c, D !! v = Some (Dist c)) ->
  forall fw a, is_route objects fw -> (forall x, x ∈ fw -> x ∈ V) ->
  head fw = Some a -> a ∉ U -> forall x, x ∈ fw -> x ∉ U.
Proof.
  intros Hinf Hfront. induction fw as [|a' fw IH]; intros a Hr HV Hh Ha x Hx.
  { inversion Hx. }
  injection Hh as ->. destruct Hr as [Hlink Hr].
  apply elem_of_cons in Hx as [->|Hx]; [exact Ha|].
  destruct fw as [|b fw]; [inversion Hx|]. cbn [head] in Hlink.
  apply (IH b); trivial.
  - intros y Hy. apply HV. now constructor.
  - intros Hb.
    destruct (Hfront a b) as [c Hc]; trivial.
    + apply HV. constructor.
    + rewrite (Hinf b Hb) in Hc. discriminate.
Qed.

(** The loop ends for want of a route, or with a route and its cost. *)
Lemma dijkstra_loop_decides fuel : forall D P U,
  loop_invariant objects V source D P U ->
  destination ∈ U -> (length U < fuel)%nat ->
  (dijkstra_loop fuel objects destination D P U = Ok (None, Infinity) /\
   ~ exists fw, head fw = Some source /\ last fw = Some destination /\
                is_route objects fw /\ forall x, x ∈ fw -> x ∈ V) \/
  exists fw c,
    dijkstra_loop fuel objects destination D P U = Ok (Some fw, Dist c) /\
    head fw = Some source /\ last fw = Some destination /\
    is_route objects fw /\ c = route_cost objects fw /\
    NoDup fw /\ forall x, x ∈ fw -> x ∈ V.
Proof.
  induction fuel as [|fuel IH]; intros D P U Inv Hd Hfuel; [lia|].
  destruct U as [|first rest]; [inversion Hd|].
  cbn [dijkstra_loop].
  destruct (proj1 (inv_keys _ _ _ _ _ _ Inv first
                     (inv_unvisited _ _ _ _ _ _ Inv first ltac:(constructor))))
    as [k Hk].
  rewrite (getitem_lookup _ _ _ Hk). run_bind.
  destruct (min_by_distance_spec D rest first k Hk)
    as (m & km & Hmin & Hm & Hkm & Hle & Hall).
  { intros x Hx. apply (inv_keys _ _ _ _ _ _ Inv).
    apply (inv_unvisited _ _ _ _ _ _ Inv). now constructor. }
  rewrite Hmin. run_bind. rewrite (getitem_lookup _ _ _ Hkm). run_bind.
  destruct km as [c0|]; cbn [is_infinity].
  2:{ left. split; [reflexivity|]. intros connected.
      assert (Hinf : forall x, x ∈ first :: rest -> D !! x = Some Infinity).
      { intros x Hx. apply elem_of_cons in Hx as [->|Hx].
        - rewrite Hk. f_equal. now apply dist_below_infinity.
        - destruct (proj1 (inv_keys _ _ _ _ _ _ Inv x
                             (inv_unvisited _ _ _ _ _ _ Inv x
                                ltac:(now constructor)))) as [kx Hkx].
          rewrite Hkx. f_equal. apply dist_below_infinity. eauto. }
      assert (Hs : source ∉ first :: rest).
      { intros Hs. destruct (inv_source _ _ _ _ _ _ Inv Hs) as [H0 _].
        rewrite (Hinf source Hs) in H0. discriminate. }
      destruct connected as (fw & Hh & Hl & Hr & HV).
      apply (settled_nodes_closed D (first :: rest) Hinf
               (inv_frontier _ _ _ _ _ _ Inv) fw source Hr HV Hh Hs
               destination); [|exact Hd].
      destruct fw as [|a fw] using rev_ind; [discriminate|].
      rewrite last_snoc in Hl. injection Hl as ->.
      apply elem_of_app. right. constructor. }
  destruct (bool_decide_reflect (m = destination)) as [->|Hne].
  - destruct (inv_routes _ _ _ _ _ _ Inv destination c0 Hkm) as [bw R].
    destruct R as [Hw Hs Hnd Hl Ht Hset HV].
    rewrite (reconstruct_path_walk P destination bw Hw (S (size P)) []).
    2:{ pose proof (walk_length_bound P bw Hnd (back_walk_keys _ _ _ Hw)).
        lia. }
    run_bind. rewrite (getitem_lookup _ _ _ Hkm). run_bind.
    right. exists (reverse bw), c0. split; [reflexivity|].
    destruct (back_walk_head _ _ _ Hw) as [t ->].
    split; [now rewrite head_reverse|].
    split; [now rewrite last_reverse|].
    split; [now apply linked_back_reverse|].
    split.
    { unfold route_cost. rewrite reverse_cons, removelast_last.
      now rewrite latency_sum_reverse. }
    split; [now rewrite reverse_Permutation|].
    intros x Hx. apply HV. now apply elem_of_reverse.
  - set (U' := filter (fun n => n <> m) (first :: rest)).
    assert (HU' : forall x, x ∈ U' <-> x <> m /\ x ∈ first :: rest)
      by (intros x; exact (list_elem_of_filter (fun n => n <> m) _ x)).
    assert (HmV : m ∈ V) by (apply (inv_unvisited _ _ _ _ _ _ Inv); exact Hm).
    destruct (relax_neighbors_spec objects V source m c0 U'
                (connections (objects m))) with (D := D) (P := P)
      as (D' & P' & Hrun & Hk' & Hc' & Hr' & Hfin & Hdone); trivial.
    { intros Hin. apply HU' in Hin. now destruct Hin. }
    { intros n Hn. apply HU' in Hn as [_ Hn].
      now apply (inv_unvisited _ _ _ _ _ _ Inv). }
    { apply (inv_keys _ _ _ _ _ _ Inv). }
    { intros n c Hn. destruct (inv_routes _ _ _ _ _ _ Inv n c Hn) as [bw R].
      exists bw. apply settled_route_shrink with (first :: rest); trivial.
      intros x Hx. now apply HU' in Hx. }
    rewrite Hrun. run_bind. apply IH.
    + split; trivial.
      * intros n Hn. apply HU' in Hn as [_ Hn].
        now apply (inv_unvisited _ _ _ _ _ _ Inv).
      * intros u v Hu HuU Hv HvU. destruct (decide (u = m)) as [->|Hum].
        { now apply Hdone. }
        assert (HuU0 : u ∉ first :: rest).
        { intros Hin. apply HuU. apply HU'. now split. }
        apply HU' in HvU as [_ HvU].
        destruct (inv_frontier _ _ _ _ _ _ Inv u v Hu HuU0 Hv HvU) as [c Hc].
        eauto.
      * intros Hs. exfalso. apply HU' in Hs as [Hsm Hs].
        destruct (inv_source _ _ _ _ _ _ Inv Hs) as [_ Hothers].
        rewrite (Hothers m Hm ltac:(congruence)) in Hkm. discriminate.
    + apply HU'. split; [congruence | exact Hd].
    + pose proof (length_filter_lt (fun n => n <> m) (first :: rest) m Hm
                    ltac:(tauto)).
      fold U' in H. lia.
Qed.

End PathFinderLoop.

(** ** PathFinder: the whole search *)

Lemma const_table_lookup {A} (a : A) (V : list node) (n : node) :
  (list_to_map ((fun n => (n, a)) <$> V) : gmap node A) !! n
  = if decide (n ∈ V) then Some a else None.
Proof.
  induction V as [|x V IH]; cbn.
  - rewrite lookup_empty. destruct (decide (n ∈ [])) as [H|]; [|reflexivity].
    inversion H.
  - destruct (decide (x = n)) as [->|Hne].
    + rewrite lookup_insert_eq. destruct (decide (n ∈ n :: V)) as [|H];
        [reflexivity|]. exfalso. apply H. constructor.
    + rewrite lookup_insert_ne by trivial. rewrite IH.
      destruct (decide (n ∈ V)) as [Hin|Hin],
               (decide (n ∈ x :: V)) as [Hin'|Hin']; try reflexivity.
      * exfalso. apply Hin'. now constructor.
      * exfalso. apply elem_of_cons in Hin' as [->|]; contradiction.
Qed.

Section PathFinderSearch.

Variable set_order : list node -> list node.
Variable s : Simulator.
Hypothesis set_order_elements :
  forall x, x ∈ set_order (nodes s) <-> x ∈ nodes s.

Lemma initial_loop_invariant source :
  source ∈ nodes s ->
  loop_invariant (store s) (nodes s) source
    (<[source := Dist 0]>
       (list_to_map ((fun n => (n, Infinity)) <$> nodes s)))
    (list_to_map ((fun n => (n, None)) <$> nodes s))
    (set_order (nodes s)).
Proof.
  intros Hs. split.
  - intros n Hn. split.
    + destruct (decide (source = n)) as [->|Hne].
      * rewrite lookup_insert_eq. eauto.
      * rewrite lookup_insert_ne, const_table_lookup by trivial.
        destruct (decide (n ∈ nodes s)); [eauto | contradiction].
    + rewrite const_table_lookup.
      destruct (decide (n ∈ nodes s)); [eauto | contradiction].
  - intros n. apply set_order_elements.
  - intros n c Hn. destruct (decide (source = n)) as [<-|Hne].
    + rewrite lookup_insert_eq in Hn. injection Hn as <-.
      exists [source]. split.
      * apply back_walk_end. rewrite const_table_lookup.
        destruct (decide (source ∈ nodes s)); [reflexivity | contradiction].
      * reflexivity.
      * apply NoDup_singleton.
      * split; exact I.
      * reflexivity.
      * intros x Hx. inversion Hx.
      * intros x Hx. apply list_elem_of_singleton in Hx as ->. exact Hs.
    + rewrite lookup_insert_ne, const_table_lookup in Hn by trivial.
      destruct (decide (n ∈ nodes s)); discriminate.
  - intros u v Hu Hnu. exfalso. apply Hnu. now apply set_order_elements.
  - intros _. split; [apply lookup_insert_eq|].
    intros n Hn Hne. rewrite lookup_insert_ne, const_table_lookup by auto.
    apply set_order_elements in Hn.
    destruct (decide (n ∈ nodes s)); [reflexivity | contradiction].
Qed.

(** Between two nodes of the topology the search reports that there is
    no route exactly when there is none, and otherwise returns a route
    without repetition through nodes of the topology, with its cost. *)
Lemma dijkstra_shortest_path_decides source destination :
  source ∈ nodes s -> destination ∈ nodes s ->
  (dijkstra_shortest_path set_order s source destination
     = Ok (None, Infinity) /\
   ~ reachable s source destination) \/
  exists fw c,
    dijkstra_shortest_path set_order s source destination
      = Ok (Some fw, Dist c) /\
    head fw = Some source /\ last fw = Some destination /\
    is_route (store s) fw /\ c = route_cost (store s) fw /\
    NoDup fw /\ forall x, x ∈ fw -> x ∈ nodes s.
Proof.
  intros Hs Hd. unfold dijkstra_shortest_path, reachable.
  apply dijkstra_loop_decides with (V := nodes s) (source := source).
  - now apply initial_loop_invariant.
  - now apply set_order_elements.
  - lia.
Qed.

Lemma reachable_endpoints source destination :
  reachable s source destination ->
  source ∈ nodes s /\ destination ∈ nodes s.
Proof.
  intros (fw & Hh & Hl & Hr & HV). split; apply HV.
  - destruct fw; [discriminate|]. injection Hh as ->. constructor.
  - destruct fw as [|a fw] using rev_ind; [discriminate|].
    rewrite last_snoc in Hl. injection Hl as ->.
    apply elem_of_app. right. constructor.
Qed.

Lemma dijkstra_shortest_path_finds source destination :
  reachable s source destination ->
  exists fw c,
    dijkstra_shortest_path set_order s source destination
      = Ok (Some fw, Dist c) /\
    head fw = Some source /\ last fw = Some destination /\
    is_route (store s) fw /\ c = route_cost (store s) fw /\
    NoDup fw /\ forall x, x ∈ fw -> x ∈ nodes s.
Proof.
  intros Hreach. destruct (reachable_endpoints _ _ Hreach) as [Hs Hd].
  destruct (dijkstra_shortest_path_decides source destination Hs Hd)
    as [[_ Hno]|Hyes]; [contradiction | exact Hyes].
Qed.

Lemma dijkstra_shortest_path_none source destination :
  source ∈ nodes s -> destination ∈ nodes s ->
  ~ reachable s source destination ->
  dijkstra_shortest_path set_order s source destination
    = Ok (None, Infinity).
Proof.
  intros Hs Hd Hno.
  destruct (dijkstra_shortest_path_decides source destination Hs Hd)
    as [[Hrun _]|(fw & c & _ & Hh & Hl & Hr & _ & _ & HV)]; [exact Hrun|].
  exfalso. apply Hno. exists fw. auto.
Qed.

End PathFinderSearch.

(** In the linear topology the only route without repetition from A to C
    is A, B, C. *)
Lemma linear_route_unique latency_C fw :
  head fw = Some 0%nat -> last fw = Some 2%nat ->
  is_route (linear_objects latency_C) fw -> NoDup fw ->
  fw = [0%nat; 1%nat; 2%nat].
Proof.
  intros Hh Hl Hr Hnd.
  destruct fw as [|x0 fw]; [discriminate|]. injection Hh as ->.
  destruct fw as [|x1 fw]; [discriminate|].
  destruct Hr as [H01 Hr]. cbn in H01.
  apply list_elem_of_singleton in H01 as ->.
  destruct fw as [|x2 fw]; [discriminate|].
  destruct Hr as [H12 Hr]. cbn in H12.
  apply elem_of_cons in H12 as [->|H12].
  { exfalso. apply NoDup_cons in Hnd as [Hin _]. apply Hin.
    right. left. }
  apply list_elem_of_singleton in H12 as ->.
  destruct fw as [|x3 fw]; [reflexivity|].
  destruct Hr as [H23 _]. cbn in H23.
  apply list_elem_of_singleton in H23 as ->.
  exfalso. apply NoDup_cons in Hnd as [_ Hnd].
  apply NoDup_cons in Hnd as [Hin _]. apply Hin. right. left.
Qed.

(** C1: between any two nodes with a route through the topology,
    [dijkstra_shortest_path] returns a route from the source to the
    destination whose cost is the sum of the latencies of all its nodes
    but the destination, whatever the iteration order of the unvisited
    set; on the linear topology A - B - C with latencies 10 and 20 it
    returns A, B, C with cost 30. *)
Theorem dijkstra_route_costs_latencies_left :
  (forall set_order s source destination,
     (forall x, x ∈ set_order (nodes s) <-> x ∈ nodes s) ->
     reachable s source destination ->
     exists fw c,
       dijkstra_shortest_path set_order s source destination
         = Ok (Some fw, Dist c) /\
       head fw = Some source /\ last fw = Some destination /\
       is_route (store s) fw /\ c = route_cost (store s) fw) /\
  (forall set_order latency_C,
     (forall x, x ∈ set_order [0%nat; 1%nat; 2%nat]
                <-> x ∈ [0%nat; 1%nat; 2%nat]) ->
     dijkstra_shortest_path set_order (linear_topology latency_C) 0%nat 2%nat
       = Ok (Some [0%nat; 1%nat; 2%nat], Dist 30)).
Proof.
  split.
  - intros set_order s source destination Hord Hreach.
    destruct (dijkstra_shortest_path_finds set_order s Hord
                source destination Hreach)
      as (fw & c & Hrun & Hh & Hl & Hr & Hc & _).
    exists fw, c. auto.
  - intros set_order latency_C Hord.
    destruct (dijkstra_shortest_path_finds set_order
                (linear_topology latency_C) Hord 0%nat 2%nat)
      as (fw & c & Hrun & Hh & Hl & Hr & Hc & Hnd & _).
    { exists [0%nat; 1%nat; 2%nat]. repeat split; trivial.
      - cbn. left.
      - cbn. right. left. }
    rewrite Hrun.
    rewrite (linear_route_unique latency_C fw Hh Hl Hr Hnd) in *.
    now subst c.
Qed.

Lemma dijkstra_route_costs_latencies_left_witness :
  (forall x, x ∈ list_order (nodes (linear_topology 5))
             <-> x ∈ nodes (linear_topology 5)) /\
  reachable (linear_topology 5) 0%nat 2%nat /\
  exists fw c,
    dijkstra_shortest_path list_order (linear_topology 5) 0%nat 2%nat
      = Ok (Some fw, Dist c) /\
    head fw = Some 0%nat /\ last fw = Some 2%nat /\
    is_route (store (linear_topology 5)) fw /\
    c = route_cost (store (linear_topology 5)) fw.
Proof.
  assert (Hord : forall x, x ∈ list_order (nodes (linear_topology 5))
                           <-> x ∈ nodes (linear_topology 5))
    by (intros x; reflexivity).
  assert (Hreach : reachable (linear_topology 5) 0%nat 2%nat).
  { exists [0%nat; 1%nat; 2%nat]. repeat split; trivial.
    - cbn. left.
    - cbn. right. left. }
  split; [exact Hord|]. split; [exact Hreach|].
  exact (proj1 dijkstra_route_costs_latencies_left list_order
           (linear_topology 5) 0%nat 2%nat Hord Hreach).
Defined.

(** C10: for a node of the topology taken as both endpoints,
    [dijkstra_shortest_path] returns the single-node path and cost 0. *)
Theorem dijkstra_same_endpoints set_order s a :
  (forall x, x ∈ set_order (nodes s) <-> x ∈ nodes s) ->
  a ∈ nodes s ->
  dijkstra_shortest_path set_order s a a = Ok (Some [a], Dist 0).
Proof.
  intros Hord Ha.
  destruct (dijkstra_shortest_path_finds set_order s Hord a a)
    as (fw & c & Hrun & Hh & Hl & Hr & Hc & Hnd & _).
  { exists [a]. repeat split; trivial.
    intros x Hx. apply list_elem_of_singleton in Hx as ->. exact Ha. }
  rewrite Hrun.
  destruct fw as [|x fw]; [discriminate|]. injection Hh as ->.
  destruct fw as [|y fw].
  - now subst c.
  - exfalso. apply NoDup_cons in Hnd as [Hin _]. apply Hin.
    rewrite last_cons_cons in Hl.
    destruct (y :: fw) as [|z l] using rev_ind; [discriminate|].
    rewrite last_snoc in Hl. injection Hl as ->.
    apply elem_of_app. right. constructor.
Qed.

Lemma dijkstra_same_endpoints_witness :
  (forall x, x ∈ list_order (nodes (linear_topology 5))
             <-> x ∈ nodes (linear_topology 5)) /\
  1%nat ∈ nodes (linear_topology 5) /\
  dijkstra_shortest_path list_order (linear_topology 5) 1%nat 1%nat
    = Ok (Some [1%nat], Dist 0).
Proof.
  assert (Hord : forall x, x ∈ list_order (nodes (linear_topology 5))
                           <-> x ∈ nodes (linear_topology 5))
    by (intros x; reflexivity).
  assert (Hin : 1%nat ∈ nodes (linear_topology 5)) by (right; left).
  split; [exact Hord|]. split; [exact Hin|].
  exact (dijkstra_same_endpoints list_order (linear_topology 5) 1%nat
           Hord Hin).
Defined.

(** ** Traffic generation: manual sends *)

(** Reads the fields of the simulator through the updates made to it. *)
Ltac simulator_fields :=
  cbn [nodes store packets simulation_running traffic_load
       manual_packet_mode active_manual_packet_ids congestion_algorithm
       packet_loss_rate packet_counter packet_events clock rng dialogs
       set_nodes set_store set_packets set_simulation_running
       set_manual_packet_mode set_active_manual_packet_ids
       set_congestion_algorithm set_packet_counter set_packet_events
       set_clock set_rng set_dialogs open_dialog] in *.

Section ManualSend.

Variable fl : Q -> Q.
Variables time_at random_at : nat -> Q.
Variable randint_at : nat -> Z.
Variable set_order : list node -> list node.

(** Recording an event writes the log, the clock and the generator
    only. *)
Lemma record_packet_event_frame s p event_type :
  let s' := record_packet_event fl time_at random_at s p event_type in
  nodes s' = nodes s /\ store s' = store s /\ packets s' = packets s /\
  packet_counter s' = packet_counter s /\ dialogs s' = dialogs s.
Proof.
  cbn zeta. unfold record_packet_event. cbn [time_time].
  destruct (is_important event_type).
  - match goal with
    | |- context [if ?c then _ else _] => destruct c
    end; cbn; auto.
  - cbn [random_random]. destruct (py_gt _ _); [cbn; auto|].
    match goal with
    | |- context [if ?c then _ else _] => destruct c
    end; cbn; auto.
Qed.

(** Creating the packet object reads the clock and, for a zero id,
    the generator; the simulator is otherwise unchanged. *)
Lemma new_packet_frame s a b pth pid :
  let made := new_packet time_at randint_at s a b pth pid in
  source made.1 = a /\ destination made.1 = b /\ path made.1 = pth /\
  nodes made.2 = nodes s /\ packets made.2 = packets s /\
  packet_counter made.2 = packet_counter s /\ dialogs made.2 = dialogs s.
Proof.
  cbn zeta. unfold new_packet. cbn [time_time].
  destruct (pid =? 0); cbn; auto 10.
Qed.

(** A manual request between nodes without a route: a warning and
    nothing else. *)
Lemma spawn_manual_no_route s a b :
  dijkstra_shortest_path set_order s a b = Ok (None, Infinity) ->
  spawn_packet fl time_at random_at randint_at set_order s a b true =
    Ok (false,
        open_dialog
          (showwarning "No Path" "Selected nodes are not connected.") s).
Proof. intros H. unfold spawn_packet. rewrite H. reflexivity. Qed.

(** A manual request between nodes with a route is admitted without any
    loss draw: the flow joins the active set and the counter advances. *)
Lemma spawn_manual_route s a b x fw c :
  dijkstra_shortest_path set_order s a b = Ok (Some (x :: fw), Dist c) ->
  exists s' p,
    spawn_packet fl time_at random_at randint_at set_order s a b true
      = Ok (true, s') /\
    packets s' = packets s ++ [p] /\
    source p = a /\ destination p = b /\ path p = x :: fw /\
    total_latency p = Dist c /\
    packet_counter s' = packet_counter s + 1 /\
    dialogs s' = dialogs s /\ nodes s' = nodes s.
Proof.
  intros H. unfold spawn_packet. rewrite H. run_bind. cbv beta iota.
  pose proof (new_packet_frame (set_packet_counter (packet_counter s + 1) s)
                a b (x :: fw)
                (packet_counter
                   (set_packet_counter (packet_counter s + 1) s))) as Hnew.
  destruct (new_packet _ _ _ _ _ _ _) as [packet s0].
  cbn [fst snd] in Hnew.
  destruct Hnew as (Hsrc & Hdst & Hpath & Hn0 & Hp0 & Hc0 & Hd0).
  match goal with
  | |- context [record_packet_event fl time_at random_at ?t ?q ?e] =>
      destruct (record_packet_event_frame t q e) as (Hn & Hs & Hp & Hc & Hd)
  end.
  eexists. exists (set_total_latency (Dist c) packet).
  split; [reflexivity|].
  cbn [packets packet_counter dialogs nodes set_store].
  rewrite Hp, Hc, Hd, Hn.
  cbn [packets packet_counter dialogs nodes set_packets].
  rewrite Hn0, Hp0, Hc0, Hd0. cbn. auto 10.
Qed.

Lemma rejected_with_dialog d s : rejected_with d s (open_dialog d s).
Proof. repeat split. Qed.

Lemma node_named_in s wanted a : node_named s wanted = Some a -> a ∈ nodes s.
Proof.
  unfold node_named. intros H. apply find_some in H as [H _].
  now apply list_elem_of_In.
Qed.

Lemma paused_for_manual_frame s :
  nodes (paused_for_manual s) = nodes s /\
  store (paused_for_manual s) = store s /\
  packets (paused_for_manual s) = packets s /\
  packet_counter (paused_for_manual s) = packet_counter s /\
  packet_events (paused_for_manual s) = packet_events s /\
  dialogs (paused_for_manual s) = dialogs s.
Proof.
  unfold paused_for_manual. destruct (simulation_running s); cbn; auto 10.
Qed.

Lemma send_manual_packet_selected s a b :
  endpoints_selected s ->
  node_named s (manual_source_var s) = Some a ->
  node_named s (manual_dest_var s) = Some b ->
  send_manual_packet fl time_at random_at randint_at set_order s =
    (spawned ← spawn_packet fl time_at random_at randint_at set_order
                 (paused_for_manual s) a b true;
     let '(sent, s) := (spawned : bool * Simulator) in
     if sent then
       match last (packets s) with
       | Some manual_packet =>
           Ok (set_active_manual_packet_ids
                 ({[packet_id manual_packet]} ∪ active_manual_packet_ids s) s)
       | None => Ok s
       end
     else Ok (set_manual_packet_mode false s)).
Proof.
  intros (Hlen & Hsrc & Hdst & Hne) Ha Hb. unfold send_manual_packet.
  destruct (Nat.ltb_spec (length (nodes s)) 2); [lia|].
  destruct (String.eqb_spec (manual_source_var s) ""); [contradiction|].
  destruct (String.eqb_spec (manual_dest_var s) ""); [contradiction|].
  destruct (String.eqb_spec (manual_source_var s) (manual_dest_var s));
    [contradiction|].
  cbn [orb]. rewrite Ha, Hb. reflexivity.
Qed.

Lemma reachable_paused s a b :
  reachable (paused_for_manual s) a b <-> reachable s a b.
Proof.
  unfold reachable.
  destruct (paused_for_manual_frame s) as (-> & -> & _). reflexivity.
Qed.

(** C9: what a manual send does in each of its outcomes.  The
    rejections on the selection (fewer than two nodes, an empty or
    repeated selection, a selected name that no node bears) open their
    message box and leave the rest of the simulator as it was.  The
    rejection for want of a route opens its message box and leaves the
    active flows, the packet counter, the congestion of every node and
    the event log as they were, but it is reached after the automatic
    simulation has been paused and only manual mode is reset on the way
    out: the simulator comes back with [simulation_running] false,
    whatever it was.  When a route exists the request is admitted
    whatever the loss rate and the random draws: the flow joins the
    active set and the counter advances by one. *)
Theorem manual_send_rejections_and_admission s :
  (forall x, x ∈ set_order (nodes s) <-> x ∈ nodes s) ->
  let sent := send_manual_packet fl time_at random_at randint_at set_order s
  in
  ((length (nodes s) < 2)%nat ->
     sent = Ok (open_dialog
                  (showwarning "No Nodes" "Create a topology first.") s)) /\
  ((2 <= length (nodes s))%nat ->
   manual_source_var s = "" \/ manual_dest_var s = "" \/
   manual_source_var s = manual_dest_var s ->
     sent = Ok (open_dialog
                  (showwarning "Invalid" "Select two different nodes.") s)) /\
  (endpoints_selected s ->
   node_named s (manual_source_var s) = None \/
   node_named s (manual_dest_var s) = None ->
     sent = Ok (open_dialog (showerror "Error" "Nodes not found.") s)) /\
  (forall a b, endpoints_selected s ->
     node_named s (manual_source_var s) = Some a ->
     node_named s (manual_dest_var s) = Some b ->
     ~ reachable s a b ->
     exists s', sent = Ok s' /\
       rejected_with
         (showwarning "No Path" "Selected nodes are not connected.") s s' /\
       simulation_running s' = false /\ manual_packet_mode s' = false /\
       s' = set_manual_packet_mode false
              (set_simulation_running false
                 (open_dialog
                    (showwarning "No Path"
                       "Selected nodes are not connected.") s))) /\
  (forall a b, endpoints_selected s ->
     node_named s (manual_source_var s) = Some a ->
     node_named s (manual_dest_var s) = Some b ->
     reachable s a b ->
     exists s' p, sent = Ok s' /\
       dialogs s' = dialogs s /\ packets s' = packets s ++ [p] /\
       source p = a /\ destination p = b /\
       head (path p) = Some a /\ last (path p) = Some b /\
       packet_counter s' = packet_counter s + 1).
Proof.
  intros Hord sent. subst sent.
  split; [|split; [|split; [|split]]].
  - intros Hlen. unfold send_manual_packet.
    destruct (Nat.ltb_spec (length (nodes s)) 2); [reflexivity | lia].
  - intros Hlen Hsel. unfold send_manual_packet.
    destruct (Nat.ltb_spec (length (nodes s)) 2); [lia|].
    destruct (String.eqb_spec (manual_source_var s) ""); [reflexivity|].
    destruct (String.eqb_spec (manual_dest_var s) ""); [reflexivity|].
    destruct (String.eqb_spec (manual_source_var s) (manual_dest_var s));
      [reflexivity|].
    exfalso. tauto.
  - intros (Hlen & Hsrc & Hdst & Hne) Hnone. unfold send_manual_packet.
    destruct (Nat.ltb_spec (length (nodes s)) 2); [lia|].
    destruct (String.eqb_spec (manual_source_var s) ""); [contradiction|].
    destruct (String.eqb_spec (manual_dest_var s) ""); [contradiction|].
    destruct (String.eqb_spec (manual_source_var s) (manual_dest_var s));
      [contradiction|].
    cbn [orb].
    destruct Hnone as [-> | ->]; [reflexivity|].
    now destruct (node_named s (manual_source_var s)).
  - intros a b Hsel Ha Hb Hno.
    rewrite (send_manual_packet_selected s a b Hsel Ha Hb).
    destruct (paused_for_manual_frame s) as (Hn & Hst & Hp & Hc & He & Hd).
    rewrite spawn_manual_no_route.
    2:{ apply dijkstra_shortest_path_none.
        - now rewrite Hn.
        - rewrite Hn. now apply node_named_in with (manual_source_var s).
        - rewrite Hn. now apply node_named_in with (manual_dest_var s).
        - now rewrite reachable_paused. }
    run_bind. cbv beta iota. eexists. split; [reflexivity|].
    split.
    { unfold rejected_with, untouched. simulator_fields.
      rewrite Hd, Hp, Hc, He, Hst. auto 10. }
    unfold paused_for_manual.
    destruct s as [ns st ps running tl mode ids src dst alg rate counter
                   events started clk gen boxes].
    destruct running; cbn; auto.
  - intros a b Hsel Ha Hb Hyes.
    rewrite (send_manual_packet_selected s a b Hsel Ha Hb).
    destruct (paused_for_manual_frame s) as (Hn & Hst & Hp & Hc & He & Hd).
    destruct (dijkstra_shortest_path_finds set_order (paused_for_manual s))
      with (source := a) (destination := b)
      as (fw & c & Hrun & Hh & Hl & _).
    { now rewrite Hn. }
    { now rewrite reachable_paused. }
    destruct fw as [|x fw]; [discriminate|].
    destruct (spawn_manual_route (paused_for_manual s) a b x fw c Hrun)
      as (s' & p & Hspawn & Hp' & Hsrc & Hdst & Hpath & _ & Hc' & Hd' & _).
    rewrite Hspawn. run_bind. cbv beta iota.
    rewrite Hp', last_snoc.
    eexists. exists p. split; [reflexivity|].
    simulator_fields.
    rewrite Hd', Hd, Hp', Hp, Hc', Hc, Hpath. auto 10.
Qed.

End ManualSend.

Lemma manual_send_rejections_and_admission_witness :
  let s := select_endpoints "A" "B" unlinked_pair in
  (forall x, x ∈ list_order (nodes s) <-> x ∈ nodes s) /\
  endpoints_selected s /\
  node_named s (manual_source_var s) = Some 0%nat /\
  node_named s (manual_dest_var s) = Some 1%nat /\
  ~ reachable s 0%nat 1%nat /\
  simulation_running s = true /\
  exists s',
    send_manual_packet exact still still zero_draw list_order s = Ok s' /\
    packets s' = packets s /\ packet_counter s' = packet_counter s /\
    packet_events s' = packet_events s /\
    simulation_running s' = false.
Proof.
  intros s.
  assert (Hord : forall x, x ∈ list_order (nodes s) <-> x ∈ nodes s)
    by (intros x; reflexivity).
  assert (Hsel : endpoints_selected s).
  { repeat split; [cbn; lia | discriminate ..]. }
  assert (Hno : ~ reachable s 0%nat 1%nat).
  { intros (fw & Hh & Hl & Hr & _).
    destruct fw as [|x [|y fw]]; [discriminate | |].
    - cbn in Hh, Hl. congruence.
    - cbn in Hh. injection Hh as ->. destruct Hr as [Hr _].
      cbn in Hr. now apply elem_of_nil in Hr. }
  repeat (split; [assumption || reflexivity|]).
  destruct (manual_send_rejections_and_admission exact still still zero_draw
              list_order s Hord) as (_ & _ & _ & Hreject & _).
  destruct (Hreject 0%nat 1%nat Hsel eq_refl eq_refl Hno)
    as (s' & Hrun & (_ & Hp & Hc & _ & He) & Hpaused & _).
  exists s'. auto.
Defined.

(** ** Further invariants of the flow state machine *)

Section FlowInvariants.

Variable fl : Q -> Q.
Variables time_at random_at : nat -> Q.

Lemma hop_entries_cons p e es :
  hop_entries fl time_at random_at p (e :: es)
  = hop_entries fl time_at random_at (hop_entry fl time_at random_at p e) es.
Proof. reflexivity. Qed.

(** A property kept by every hop-entry is kept by every run. *)
Lemma hop_entries_invariant (I : Packet -> Prop) :
  (forall p e, I p -> I (hop_entry fl time_at random_at p e)) ->
  forall es p, I p -> I (hop_entries fl time_at random_at p es).
Proof.
  intros Hstep. induction es as [|e es IH]; intros p Hp; [exact Hp|].
  rewrite hop_entries_cons. apply IH. now apply Hstep.
Qed.

Lemma update_cwnd_stable_phase algorithm p :
  stable_phase (phase p) -> stable_phase (phase (update_cwnd fl algorithm p)).
Proof.
  intros Hp. destruct (update_cwnd_phase fl algorithm p) as [-> | ->];
    [exact Hp | right; now left].
Qed.

Lemma hop_entry_stable_phase p e :
  stable_phase (phase p) ->
  stable_phase (phase (hop_entry fl time_at random_at p e)).
Proof.
  intros Hp. destruct e as [s n].
  unfold hop_entry, handle_congestion_control. cbn [fst snd time_time].
  destruct (py_gt (congestion n) (PyInt 9)).
  { destruct (String.eqb _ "reno"); cbn; now left. }
  destruct (py_gt (congestion n) (PyInt 7)).
  { destruct (3 <=? _); [|exact Hp].
    destruct (String.eqb _ "reno"); cbn; [right; now right | now left]. }
  destruct (_ && _ && _); [exact Hp|].
  destruct (_ && _); [cbn; right; now left|].
  match goal with
  | |- context [update_cwnd fl ?a ?q] =>
      pose proof (update_cwnd_stable_phase a q Hp) as Hu;
      destruct (_ && _); cbn [snd]; packet_fields;
      [right; now left | exact Hu]
  end.
Qed.

(** X1: a flow found in [slow_start], [congestion_avoidance] or
    [fast_recovery] is found in one of these three after every run of
    hop-entries: the transient [fast_retransmit] phase is never left
    standing by an evaluation. *)
Theorem phase_stays_stable p es :
  stable_phase (phase p) ->
  stable_phase (phase (hop_entries fl time_at random_at p es)) /\
  phase (hop_entries fl time_at random_at p es) <> "fast_retransmit".
Proof.
  intros Hp.
  assert (Hq : stable_phase (phase (hop_entries fl time_at random_at p es))).
  { revert p Hp.
    apply (hop_entries_invariant (fun p => stable_phase (phase p))).
    intros q e. apply hop_entry_stable_phase. }
  split; [exact Hq|].
  destruct Hq as [-> | [-> | ->]]; discriminate.
Qed.

Lemma hop_entry_dup_ack_count p e :
  0 <= dup_ack_count p < 3 ->
  0 <= dup_ack_count (hop_entry fl time_at random_at p e) < 3.
Proof.
  intros Hd. destruct e as [s n].
  unfold hop_entry, handle_congestion_control. cbn [fst snd time_time].
  destruct (py_gt (congestion n) (PyInt 9)).
  { destruct (String.eqb _ "reno"); cbn; lia. }
  destruct (py_gt (congestion n) (PyInt 7)).
  { packet_fields.
    destruct (Z.leb_spec 3 (dup_ack_count p + 1)).
    - destruct (String.eqb _ "reno"); cbn; lia.
    - cbn. lia. }
  destruct (_ && _ && _); [exact Hd|].
  destruct (_ && _); [cbn; lia|].
  match goal with
  | |- context [update_cwnd fl ?a ?q] =>
      assert (Hu : dup_ack_count (update_cwnd fl a q) = 0)
  end.
  { unfold update_cwnd. packet_fields.
    repeat match goal with
           | |- context [if ?c then _ else _] => destruct c
           end; reflexivity. }
  destruct (_ && _); cbn [snd]; packet_fields; rewrite Hu; lia.
Qed.

(** X2: the duplicate-signal counter of a flow stays in 0..2 between
    hop-entries: the third signal is consumed by fast retransmit in the
    evaluation that counts it. *)
Theorem dup_ack_count_stays_below_three p es :
  0 <= dup_ack_count p < 3 ->
  0 <= dup_ack_count (hop_entries fl time_at random_at p es) < 3.
Proof.
  revert p.
  apply (hop_entries_invariant (fun p => 0 <= dup_ack_count p < 3)).
  intros q e. apply hop_entry_dup_ack_count.
Qed.

Lemma hop_entry_slow_start_below_threshold p e :
  (phase p = "slow_start" -> (value (cwnd p) < value (ssthresh p))%Q) ->
  let q := hop_entry fl time_at random_at p e in
  phase q = "slow_start" -> (value (cwnd q) < value (ssthresh q))%Q.
Proof.
  intros Hp. destruct e as [s n]. cbn zeta.
  assert (Hreset : forall c, (value (PyInt 1)
                              < value (py_max c (PyInt 2)))%Q).
  { intros c. eapply Qlt_le_trans; [|apply halved_threshold_floor].
    reflexivity. }
  unfold hop_entry, handle_congestion_control. cbn [fst snd time_time].
  destruct (py_gt (congestion n) (PyInt 9)).
  { destruct (String.eqb _ "reno"); cbn; intros _; apply Hreset. }
  destruct (py_gt (congestion n) (PyInt 7)).
  { destruct (3 <=? _); [|exact Hp].
    destruct (String.eqb _ "reno"); cbn; [discriminate|].
    intros _; apply Hreset. }
  destruct (_ && _ && _) eqn:E3.
  { apply andb_prop in E3 as [E3 _]. apply andb_prop in E3 as [_ E3].
    apply String.eqb_eq in E3. cbn [snd]. packet_fields.
    rewrite E3. discriminate. }
  clear E3. destruct (_ && _); [cbn; discriminate|].
  match goal with
  | |- context [update_cwnd fl ?a ?q] =>
      assert (Hu : phase (update_cwnd fl a q) = "slow_start" ->
                   (value (cwnd (update_cwnd fl a q))
                    < value (ssthresh (update_cwnd fl a q)))%Q)
  end.
  { unfold update_cwnd. packet_fields.
    destruct (String.eqb_spec (phase p) "slow_start") as [Es|Es].
    - destruct (py_ge _ _) eqn:Ege; packet_fields; [discriminate|].
      intros _. unfold py_ge in Ege.
      apply not_true_iff_false in Ege. rewrite py_le_true in Ege.
      now apply Qnot_le_lt.
    - destruct (String.eqb_spec (phase p) "congestion_avoidance") as [Ec|Ec].
      { packet_fields. rewrite Ec. discriminate. }
      destruct (String.eqb (phase p) "fast_recovery");
        [destruct (String.eqb _ "reno")|]; packet_fields; contradiction. }
  destruct (_ && _); cbn [snd]; packet_fields; [discriminate | exact Hu].
Qed.

(** X3: a flow in [slow_start] always has its window strictly below its
    threshold; reaching the threshold moves it to
    [congestion_avoidance] within the same evaluation. *)
Theorem slow_start_window_below_threshold p es :
  (phase p = "slow_start" -> (value (cwnd p) < value (ssthresh p))%Q) ->
  let q := hop_entries fl time_at random_at p es in
  phase q = "slow_start" -> (value (cwnd q) < value (ssthresh q))%Q.
Proof.
  cbn zeta. revert p.
  apply (hop_entries_invariant
           (fun p => phase p = "slow_start" ->
                     (value (cwnd p) < value (ssthresh p))%Q)).
  intros q e. apply hop_entry_slow_start_below_threshold.
Qed.

End FlowInvariants.

(** ** Loss flags and recovery *)

Section FlowRecovery.

Variable fl : Q -> Q.
Variables time_at random_at : nat -> Q.

Lemma update_cwnd_lost algorithm p :
  lost (update_cwnd fl algorithm p) = lost p.
Proof.
  unfold update_cwnd.
  repeat match goal with
         | |- context [if ?c then _ else _] => destruct c
         end; reflexivity.
Qed.

Lemma hop_entry_lost p e :
  lost (hop_entry fl time_at random_at p e)
  = lost p || py_gt (congestion e.2) (PyInt 9).
Proof.
  destruct e as [s n].
  unfold hop_entry, handle_congestion_control. cbn [fst snd time_time].
  destruct (py_gt (congestion n) (PyInt 9)).
  { rewrite orb_true_r. destruct (String.eqb _ "reno"); reflexivity. }
  rewrite orb_false_r.
  destruct (py_gt (congestion n) (PyInt 7)).
  { destruct (3 <=? _); [|reflexivity].
    destruct (String.eqb _ "reno"); reflexivity. }
  destruct (_ && _ && _); [reflexivity|].
  destruct (_ && _); [reflexivity|].
  destruct (_ && _); cbn [snd]; packet_fields;
    now rewrite update_cwnd_lost.
Qed.

(** X4: after a run of hop-entries a flow is marked lost exactly when it
    was marked lost before or some entry node had severity above 9: the
    flag is never cleared, and nothing but a timeout sets it. *)
Theorem lost_iff_some_timeout p es :
  lost (hop_entries fl time_at random_at p es)
  = lost p || existsb (fun e : Simulator * NetworkNode =>
                         py_gt (congestion e.2) (PyInt 9)) es.
Proof.
  revert p. induction es as [|e es IH]; intros p.
  - cbn. now rewrite orb_false_r.
  - change (hop_entries fl time_at random_at p (e :: es))
      with (hop_entries fl time_at random_at
              (hop_entry fl time_at random_at p e) es).
    rewrite IH, hop_entry_lost. cbn [existsb]. now rewrite orb_assoc.
Qed.

(** In fast recovery under Reno, severity in (5, 7] inflates the window
    by one and changes nothing else of the window state. *)
Lemma inflation_step s p n :
  phase p = "fast_recovery" -> congestion_algorithm s = "reno" ->
  (5 < value (congestion n))%Q -> (value (congestion n) <= 7)%Q ->
  hop_entry fl time_at random_at p (s, n) =
    set_cwnd (py_add fl (cwnd p) (PyInt 1)) (set_rtt (entry_rtt fl n) p).
Proof.
  intros Hp Ha H5 H7.
  unfold hop_entry, handle_congestion_control. cbn [fst snd time_time].
  replace (py_gt (congestion n) (PyInt 9)) with false
    by (symmetry; apply py_gt_false; qlit).
  replace (py_gt (congestion n) (PyInt 7)) with false
    by (symmetry; now apply py_gt_false).
  replace (py_gt (congestion n) (PyInt 5)) with true
    by (symmetry; now apply py_gt_true).
  packet_fields. simulator_fields. rewrite Hp, Ha. reflexivity.
Qed.

(** In fast recovery under Reno, severity at most 5 ends the recovery:
    the window falls back to the threshold. *)
Lemma recovery_exit_step s p n :
  phase p = "fast_recovery" -> congestion_algorithm s = "reno" ->
  (value (congestion n) <= 5)%Q ->
  hop_entry fl time_at random_at p (s, n) =
    set_phase "congestion_avoidance"
      (set_cwnd (ssthresh p)
         (set_dup_ack_count 0
            (set_last_ack_time (time_at (clock s))
               (set_rtt (entry_rtt fl n) p)))).
Proof.
  intros Hp Ha H5.
  unfold hop_entry, handle_congestion_control. cbn [fst snd time_time].
  replace (py_gt (congestion n) (PyInt 9)) with false
    by (symmetry; apply py_gt_false; qlit).
  replace (py_gt (congestion n) (PyInt 7)) with false
    by (symmetry; apply py_gt_false; qlit).
  replace (py_gt (congestion n) (PyInt 5)) with false
    by (symmetry; now apply py_gt_false).
  packet_fields. simulator_fields. rewrite Hp, Ha. reflexivity.
Qed.

Lemma inflation_run infl : forall p,
  phase p = "fast_recovery" ->
  Forall (fun e : Simulator * NetworkNode =>
            congestion_algorithm e.1 = "reno" /\
            (5 < value (congestion e.2))%Q /\
            (value (congestion e.2) <= 7)%Q) infl ->
  let q := hop_entries fl time_at random_at p infl in
  phase q = "fast_recovery" /\ ssthresh q = ssthresh p /\
  cwnd q = inflated fl (length infl) (cwnd p).
Proof.
  induction infl as [|[s n] infl IH]; intros p Hp Hes; [now cbn|].
  apply Forall_cons in Hes as [(Ha & H5 & H7) Hes]. cbn [fst snd] in *.
  cbn zeta.
  change (hop_entries fl time_at random_at p ((s, n) :: infl))
    with (hop_entries fl time_at random_at
            (hop_entry fl time_at random_at p (s, n)) infl).
  rewrite inflation_step by trivial.
  destruct (IH (set_cwnd (py_add fl (cwnd p) (PyInt 1))
                  (set_rtt (entry_rtt fl n) p)) Hp Hes)
    as (Hq & Hs & Hc).
  split; [exact Hq|]. split; [exact Hs|].
  rewrite Hc. packet_fields. unfold inflated. cbn [length].
  now rewrite Nat.iter_succ_r.
Qed.

(** X5: a Reno flow in [fast_recovery] that meets any number of
    inflating entries (severity in (5, 7]) and then an entry of
    severity at most 5 grows its window by one per inflation and then
    leaves recovery with the window equal to the threshold it entered
    with, in [congestion_avoidance]. *)
Theorem reno_recovery_deflates_to_threshold p infl e :
  phase p = "fast_recovery" ->
  Forall (fun e : Simulator * NetworkNode =>
            congestion_algorithm e.1 = "reno" /\
            (5 < value (congestion e.2))%Q /\
            (value (congestion e.2) <= 7)%Q) infl ->
  congestion_algorithm e.1 = "reno" ->
  (value (congestion e.2) <= 5)%Q ->
  let inflating := hop_entries fl time_at random_at p infl in
  let q := hop_entries fl time_at random_at p (infl ++ [e]) in
  phase inflating = "fast_recovery" /\
  cwnd inflating = inflated fl (length infl) (cwnd p) /\
  cwnd q = ssthresh p /\ ssthresh q = ssthresh p /\
  phase q = "congestion_avoidance".
Proof.
  intros Hp Hes Ha H5. cbn zeta.
  destruct (inflation_run infl p Hp Hes) as (Hq & Hs & Hc).
  split; [exact Hq|]. split; [exact Hc|].
  rewrite hop_entries_snoc. destruct e as [s n]. cbn [fst snd] in *.
  rewrite recovery_exit_step by trivial.
  packet_fields. auto.
Qed.

End FlowRecovery.

(** ** The event log under recording and hop-entries *)

Section EventLogFacts.

Variable fl : Q -> Q.
Variables time_at random_at : nat -> Q.

(** What is left of a log after one more entry and the cut to the cap:
    the newest old entries, in order, then the new entry. *)
Lemma cut_log_shape {A} (log : list A) (x : A) :
  let log' := if (500 <? length (log ++ [x]))%nat
              then last_n 500 (log ++ [x]) else log ++ [x] in
  exists kept, kept `suffix_of` log /\ log' = kept ++ [x] /\
               length log' = Nat.min 500 (S (length log)).
Proof.
  cbn zeta. rewrite length_app. cbn [length].
  destruct (Nat.ltb_spec 500 (length log + 1)).
  - exists (drop (length log + 1 - 500) log). split; [|split].
    + exists (take (length log + 1 - 500) log). now rewrite take_drop.
    + unfold last_n. rewrite length_app. cbn [length].
      now rewrite drop_app_le by lia.
    + rewrite last_n_length, length_app. cbn [length]. lia.
  - exists log. split; [reflexivity|]. split; [reflexivity|].
    rewrite length_app. cbn [length]. lia.
Qed.

(** X6: an important event is recorded whatever the length of the log,
    even above the cap: afterwards the log ends with the event, what
    precedes it is a suffix of the old log (eviction is oldest first),
    and the log holds [min 500 (old length + 1)] entries. *)
Theorem important_event_is_appended_and_cut s p event_type :
  is_important event_type = true ->
  let log := packet_events s in
  let log' := packet_events
                (record_packet_event fl time_at random_at s p event_type) in
  exists kept,
    kept `suffix_of` log /\
    log' = kept ++ [event_of fl time_at s p event_type] /\
    length log' = Nat.min 500 (S (length log)).
Proof.
  intros Hi. cbn zeta. rewrite record_important_event by trivial.
  apply cut_log_shape.
Qed.

Lemma record_packet_event_growth s p event_type :
  (length (packet_events
             (record_packet_event fl time_at random_at s p event_type))
     <= S (length (packet_events s)))%nat.
Proof.
  unfold record_packet_event. cbn [time_time].
  assert (Hcut : forall (s' : Simulator) (log : list Event),
            (length
               (packet_events
                  (if (500 <? length (packet_events
                                    (set_packet_events log s')))%nat
                   then set_packet_events
                          (last_n 500
                             (packet_events (set_packet_events log s')))
                          (set_packet_events log s')
                   else set_packet_events log s')) <= length log)%nat).
  { intros s' log. cbn [packet_events set_packet_events].
    destruct (Nat.ltb_spec 500 (length log));
      cbn [packet_events set_packet_events];
      [rewrite last_n_length|]; lia. }
  destruct (is_important event_type).
  - etransitivity; [apply Hcut|]. rewrite length_app. cbn. lia.
  - cbn [random_random]. destruct (py_gt _ _); [cbn; lia|].
    etransitivity; [apply Hcut|]. rewrite length_app. cbn. lia.
Qed.

(** X7: recording events through [record_packet_event], for any
    packets, any event kinds and any sampling draws, never takes a log
    that is within the cap of 500 entries above it. *)
Theorem recorded_events_stay_within_cap (es : list (Packet * string)) s :
  (length (packet_events s) <= 500)%nat ->
  (length (packet_events
             (fold_left
                (fun s (e : Packet * string) =>
                   record_packet_event fl time_at random_at s e.1 e.2)
                es s)) <= 500)%nat.
Proof.
  revert s. induction es as [|e es IH]; intros s Hs; [exact Hs|].
  cbn [fold_left]. apply IH. now apply record_packet_event_cap.
Qed.

Lemma last_cut_log {A} (log : list A) (x : A) :
  last (if (500 <? length (log ++ [x]))%nat
        then last_n 500 (log ++ [x]) else log ++ [x]) = Some x.
Proof.
  destruct (cut_log_shape log x) as (kept & _ & -> & _). apply last_snoc.
Qed.

Lemma record_important_event_last s p event_type :
  is_important event_type = true ->
  last (packet_events
          (record_packet_event fl time_at random_at s p event_type))
  = Some (event_of fl time_at s p event_type).
Proof.
  intros Hi. rewrite record_important_event by trivial. apply last_cut_log.
Qed.

(** A hop-entry that reacts to loss returns the simulator with that
    reaction recorded. *)
Lemma loss_reaction_entry s p n :
  (9 < value (congestion n))%Q \/
  ((7 < value (congestion n))%Q /\ 3 <= dup_ack_count p + 1) ->
  handle_congestion_control fl time_at random_at s p n =
    (record_packet_event fl time_at random_at (set_clock (S (clock s)) s)
       (hop_entry fl time_at random_at p (s, n))
       (if py_gt (congestion n) (PyInt 9)
        then "timeout" else "fast_retransmit"),
     hop_entry fl time_at random_at p (s, n)).
Proof.
  intros H. unfold hop_entry, handle_congestion_control.
  cbn [fst snd time_time].
  destruct (py_gt (congestion n) (PyInt 9)) eqn:E9; [reflexivity|].
  destruct H as [H|[H7 Hd]].
  { assert (py_gt (congestion n) (PyInt 9) = true)
      by (now apply py_gt_true).
    congruence. }
  replace (py_gt (congestion n) (PyInt 7)) with true
    by (symmetry; now apply py_gt_true).
  packet_fields.
  destruct (Z.leb_spec 3 (dup_ack_count p + 1)); [reflexivity | lia].
Qed.

Lemma hop_entry_packet_id p e :
  packet_id (hop_entry fl time_at random_at p e) = packet_id p.
Proof.
  destruct e as [s n].
  unfold hop_entry, handle_congestion_control. cbn [fst snd time_time].
  assert (Hu : forall a q, packet_id (update_cwnd fl a q) = packet_id q).
  { intros a q. unfold update_cwnd.
    repeat match goal with
           | |- context [if ?c then _ else _] => destruct c
           end; reflexivity. }
  destruct (py_gt (congestion n) (PyInt 9)).
  { destruct (String.eqb _ "reno"); reflexivity. }
  destruct (py_gt (congestion n) (PyInt 7)).
  { destruct (3 <=? _); [|reflexivity].
    destruct (String.eqb _ "reno"); reflexivity. }
  destruct (_ && _ && _); [reflexivity|].
  destruct (_ && _); [reflexivity|].
  destruct (_ && _); cbn [snd]; cbn [packet_id set_phase]; now rewrite Hu.
Qed.

(** X8: a hop-entry that times out (severity above 9) or fires fast
    retransmit (severity above 7 on the third duplicate signal) always
    leaves its event as the newest entry of the log, carrying the id of
    the flow and the window, phase and round-trip estimate the flow has
    after the reaction; it is never sampled out. *)
Theorem loss_reactions_are_always_logged s p n :
  (9 < value (congestion n))%Q \/
  ((7 < value (congestion n))%Q /\ 3 <= dup_ack_count p + 1) ->
  let s' := (handle_congestion_control fl time_at random_at s p n).1 in
  let q := (handle_congestion_control fl time_at random_at s p n).2 in
  exists ev,
    last (packet_events s') = Some ev /\
    ev_event_type ev = (if py_gt (congestion n) (PyInt 9)
                        then "timeout" else "fast_retransmit") /\
    ev_packet_id ev = packet_id p /\ ev_cwnd ev = cwnd q /\
    ev_phase ev = phase q /\ ev_rtt ev = rtt q.
Proof.
  intros H. cbn zeta. rewrite (loss_reaction_entry s p n H). cbn [fst snd].
  eexists. split.
  - apply record_important_event_last.
    now destruct (py_gt (congestion n) (PyInt 9)).
  - cbn [ev_event_type ev_packet_id ev_cwnd ev_phase ev_rtt event_of].
    rewrite hop_entry_packet_id. auto.
Qed.

(** X9: one hop-entry evaluation adds at most two entries to the event
    log and never takes a log that is within the cap above it. *)
Theorem hop_entry_log_growth s p n :
  let log := packet_events s in
  let log' := packet_events
                (handle_congestion_control fl time_at random_at s p n).1 in
  (length log' <= length log + 2)%nat /\
  ((length log <= 500)%nat -> (length log' <= 500)%nat).
Proof.
  cbn zeta.
  assert (Hrec : forall s1 q t,
            let s2 := record_packet_event fl time_at random_at s1 q t in
            (length (packet_events s2) <= S (length (packet_events s1)))%nat
            /\ ((length (packet_events s1) <= 500)%nat ->
                (length (packet_events s2) <= 500)%nat)).
  { intros s1 q t. split;
      [apply record_packet_event_growth | apply record_packet_event_cap]. }
  unfold handle_congestion_control. cbn [time_time].
  set (s0 := set_clock (S (clock s)) s).
  assert (H0 : packet_events s0 = packet_events s) by reflexivity.
  destruct (py_gt (congestion n) (PyInt 9)).
  { cbn [fst]. match goal with
    | |- context [record_packet_event fl time_at random_at ?a ?b ?c] =>
        destruct (Hrec a b c) as [G1 G2]
    end. rewrite H0 in *. split; [lia | exact G2]. }
  destruct (py_gt (congestion n) (PyInt 7)).
  { destruct (3 <=? _); cbn [fst].
    - match goal with
      | |- context [record_packet_event fl time_at random_at ?a ?b ?c] =>
          destruct (Hrec a b c) as [G1 G2]
      end. rewrite H0 in *. split; [lia | exact G2].
    - rewrite H0. split; [lia | trivial]. }
  destruct (_ && _ && _).
  { cbn [fst]. match goal with
    | |- context [record_packet_event fl time_at random_at ?a ?b ?c] =>
        destruct (Hrec a b c) as [G1 G2]
    end. rewrite H0 in *. split; [lia | exact G2]. }
  destruct (_ && _); [|destruct (_ && _)]; cbn [fst].
  - match goal with
    | |- context [record_packet_event fl time_at random_at
                    (record_packet_event fl time_at random_at ?a ?b ?c)
                    ?b' ?c'] =>
        destruct (Hrec a b c) as [G1 G2];
        destruct (Hrec (record_packet_event fl time_at random_at a b c)
                       b' c') as [G3 G4]
    end. rewrite H0 in *. split; [lia | auto].
  - match goal with
    | |- context [record_packet_event fl time_at random_at
                    (record_packet_event fl time_at random_at ?a ?b ?c)
                    ?b' ?c'] =>
        destruct (Hrec a b c) as [G1 G2];
        destruct (Hrec (record_packet_event fl time_at random_at a b c)
                       b' c') as [G3 G4]
    end. rewrite H0 in *. split; [lia | auto].
  - match goal with
    | |- context [record_packet_event fl time_at random_at ?a ?b ?c] =>
        destruct (Hrec a b c) as [G1 G2]
    end. rewrite H0 in *. split; [lia | exact G2].
Qed.

End EventLogFacts.

(** ** The congestion accumulators *)

Lemma set_congestion_same n v objects :
  congestion (set_congestion n v objects n) = v.
Proof. unfold set_congestion. now destruct (decide (n = n)). Qed.

Lemma set_congestion_other n v objects m :
  m <> n -> set_congestion n v objects m = objects m.
Proof. intros H. unfold set_congestion. now destruct (decide (m = n)). Qed.

Lemma set_congestion_topology n v objects :
  same_topology objects (set_congestion n v objects).
Proof.
  intros m. unfold set_congestion. destruct (decide (m = n)); cbn; auto.
Qed.

Lemma same_topology_refl objects : same_topology objects objects.
Proof. intros n. auto. Qed.

Lemma same_topology_trans o1 o2 o3 :
  same_topology o1 o2 -> same_topology o2 o3 -> same_topology o1 o3.
Proof.
  intros H12 H23 n.
  destruct (H12 n) as (? & ? & ? & ? & ?), (H23 n) as (? & ? & ? & ? & ?).
  repeat split; congruence.
Qed.

Lemma set_congestion_range n v objects :
  (0 <= value v)%Q -> (value v <= 10)%Q ->
  congestion_in_range objects ->
  congestion_in_range (set_congestion n v objects).
Proof.
  intros H0 H10 Hr m. unfold set_congestion.
  destruct (decide (m = n)); cbn; [auto | apply Hr].
Qed.

Lemma py_min_upper_l a b : (value (py_min a b) <= value a)%Q.
Proof.
  unfold py_min. destruct (py_lt b a) eqn:E.
  - apply py_lt_true in E. now apply Qlt_le_weak.
  - apply Qle_refl.
Qed.

Section CongestionFacts.

Variable fl : Q -> Q.
Hypothesis fl_mono : forall x y, (x <= y)%Q -> (fl x <= fl y)%Q.
Hypothesis fl_zero : (0 <= fl 0)%Q.

Lemma py_add_nonneg a b :
  (0 <= value a)%Q -> (0 <= value b)%Q -> (0 <= value (py_add fl a b))%Q.
Proof.
  intros Ha Hb.
  assert (Hs : (0 <= to_float fl a + to_float fl b)%Q).
  { pose proof (to_float_nonneg fl fl_mono fl_zero a Ha).
    pose proof (to_float_nonneg fl fl_mono fl_zero b Hb). lra. }
  destruct a as [x|x], b as [y|y]; simpl;
    try (now apply (fl_nonneg fl fl_mono fl_zero)).
  simpl in Ha, Hb. rewrite inject_Z_plus. lra.
Qed.

Lemma add_congestion_range factor pth : forall objects,
  (0 <= value factor)%Q ->
  congestion_in_range objects ->
  congestion_in_range (add_congestion fl factor pth objects).
Proof.
  induction pth as [|n pth IH]; intros objects Hf Hr; [exact Hr|].
  unfold add_congestion. cbn [fold_left]. apply IH; [exact Hf|].
  apply set_congestion_range; [|apply (py_min_upper_l (PyInt 10))|exact Hr].
  apply py_min_lower; [qlit|].
  apply py_add_nonneg; [apply Hr | exact Hf].
Qed.

End CongestionFacts.

Lemma add_congestion_topology fl factor pth : forall objects,
  same_topology objects (add_congestion fl factor pth objects).
Proof.
  induction pth as [|n pth IH]; intros objects; [apply same_topology_refl|].
  unfold add_congestion. cbn [fold_left].
  eapply same_topology_trans; [apply set_congestion_topology | apply IH].
Qed.

Lemma add_congestion_off_route fl factor pth : forall objects m,
  m ∉ pth -> add_congestion fl factor pth objects m = objects m.
Proof.
  induction pth as [|n pth IH]; intros objects m Hm; [reflexivity|].
  unfold add_congestion. cbn [fold_left].
  apply not_elem_of_cons in Hm as [Hne Hm].
  etransitivity; [apply IH; exact Hm|].
  now apply set_congestion_other.
Qed.

(** ** Traffic generation: what [spawn_packet] leaves behind *)

Section SpawnFacts.

Variable fl : Q -> Q.
Variables time_at random_at : nat -> Q.
Variable randint_at : nat -> Z.
Variable set_order : list node -> list node.

Lemma record_packet_event_dropped_frame s pid :
  let s' := record_packet_event_dropped fl time_at s pid in
  nodes s' = nodes s /\ store s' = store s /\ packets s' = packets s /\
  packet_counter s' = packet_counter s /\ dialogs s' = dialogs s /\
  rng s' = rng s.
Proof. cbn. auto 10. Qed.

Lemma new_packet_store s a b pth pid :
  store (new_packet time_at randint_at s a b pth pid).2 = store s /\
  packet_events (new_packet time_at randint_at s a b pth pid).2
    = packet_events s /\
  traffic_load (new_packet time_at randint_at s a b pth pid).2
    = traffic_load s.
Proof.
  unfold new_packet. cbn [time_time]. destruct (pid =? 0); cbn; auto.
Qed.

Lemma record_packet_event_traffic_load s p event_type :
  traffic_load (record_packet_event fl time_at random_at s p event_type)
  = traffic_load s.
Proof.
  unfold record_packet_event. cbn [time_time].
  destruct (is_important event_type).
  - match goal with
    | |- context [if ?c then _ else _] => destruct c
    end; reflexivity.
  - cbn [random_random]. destruct (py_gt _ _); [reflexivity|].
    match goal with
    | |- context [if ?c then _ else _] => destruct c
    end; reflexivity.
Qed.

(** Every way [spawn_packet] can return. *)
Lemma spawn_packet_outcome s a b manual r s' :
  spawn_packet fl time_at random_at randint_at set_order s a b manual
    = Ok (r, s') ->
  nodes s' = nodes s /\
  ((r = false /\ packets s' = packets s /\ store s' = store s) \/
   (r = true /\
    exists p, packets s' = packets s ++ [p] /\
              source p = a /\ destination p = b /\ path p <> [] /\
              packet_counter s' = packet_counter s + 1 /\
              store s' = add_congestion fl (load_factor fl (traffic_load s))
                           (path p) (store s))).
Proof.
  unfold spawn_packet.
  destruct (dijkstra_shortest_path set_order s a b) as [[found total]| |];
    [|discriminate ..].
  run_bind. cbv beta iota.
  destruct found as [[|x fw]|].
  1,3: intros [= <- <-]; split;
       [now destruct manual | left; now destruct manual].
  set (dropped :=
         if manual then (false, s)
         else let '(r0, s0) := random_random random_at s in
              (py_lt (PyFloat r0)
                 (py_truediv fl (packet_loss_rate s0) (py_float fl 100)),
               s0)).
  assert (Hd : nodes dropped.2 = nodes s /\ store dropped.2 = store s /\
               packets dropped.2 = packets s /\
               packet_counter dropped.2 = packet_counter s /\
               traffic_load dropped.2 = traffic_load s).
  { subst dropped. destruct manual; cbn; auto. }
  destruct dropped as [[|] s1]; cbn [fst snd] in Hd;
    destruct Hd as (Hn1 & Hs1 & Hp1 & Hc1 & Ht1).
  - intros [= <- <-]. simulator_fields.
    destruct (record_packet_event_dropped_frame s1 (packet_counter s + 1))
      as (Hn & Hs & Hp & _).
    rewrite Hn, Hs, Hp, Hn1, Hs1, Hp1. auto.
  - pose proof (new_packet_frame time_at randint_at
                  (set_packet_counter (packet_counter s + 1) s1) a b
                  (x :: fw)
                  (packet_counter
                     (set_packet_counter (packet_counter s + 1) s1)))
      as Hnew.
    pose proof (new_packet_store
                  (set_packet_counter (packet_counter s + 1) s1) a b
                  (x :: fw)
                  (packet_counter
                     (set_packet_counter (packet_counter s + 1) s1)))
      as Hnew'.
    destruct (new_packet _ _ _ _ _ _ _) as [packet s2].
    cbn [fst snd] in Hnew, Hnew'.
    destruct Hnew as (Hsrc & Hdst & Hpath & Hn2 & Hp2 & Hc2 & _).
    destruct Hnew' as (Hs2 & _ & Ht2).
    match goal with
    | |- context [record_packet_event fl time_at random_at ?t ?q ?e] =>
        destruct (record_packet_event_frame fl time_at random_at t q e)
          as (Hn & Hs & Hp & Hc & _);
        pose proof (record_packet_event_traffic_load t q e) as Ht
    end.
    intros [= <- <-]. simulator_fields.
    rewrite Hn, Hn2, Hn1. split; [reflexivity|]. right.
    split; [reflexivity|].
    exists (set_total_latency total packet).
    rewrite Hp, Hc, Hs, Ht. simulator_fields.
    rewrite Hp2, Hc2, Hs2, Ht2. simulator_fields.
    rewrite Hp1, Hs1, Ht1. packet_fields.
    cbn [source destination path set_total_latency].
    rewrite Hsrc, Hdst, Hpath. unfold load_factor.
    repeat split; trivial. discriminate.
Qed.

End SpawnFacts.

Section SpawnProperties.

Variable fl : Q -> Q.
Variables time_at random_at : nat -> Q.
Variable randint_at : nat -> Z.
Variable set_order : list node -> list node.

(** X10: [spawn_packet] keeps the congestion of every node within
    [0, 10], whether the request is manual or random and whether it is
    admitted, dropped or without a route. *)
Theorem spawn_keeps_congestion_in_range s a b manual r s' :
  (forall x y, (x <= y)%Q -> (fl x <= fl y)%Q) -> (0 <= fl 0)%Q ->
  spawn_packet fl time_at random_at randint_at set_order s a b manual
    = Ok (r, s') ->
  congestion_in_range (store s) -> congestion_in_range (store s').
Proof.
  intros Hmono H0 Hrun Hr.
  destruct (spawn_packet_outcome fl time_at random_at randint_at set_order
              s a b manual r s' Hrun)
    as (_ & [(_ & _ & ->) | (_ & p & _ & _ & _ & _ & _ & ->)]);
    [exact Hr|].
  apply add_congestion_range; trivial.
  unfold load_factor.
  destruct (String.eqb _ "light");
    [|destruct (String.eqb _ "heavy"); qlit].
  apply fl_nonneg; trivial. lra.
Qed.

(** X11: the value [spawn_packet] returns tells whether a flow was
    admitted.  On [False] the active set and every node are as before;
    on [True] exactly one flow between the requested endpoints has
    joined the active set, the packet counter has advanced by one, and
    only nodes on the route of that flow have changed, and only in their
    congestion. *)
Theorem spawn_result_tells_admission s a b manual r s' :
  spawn_packet fl time_at random_at randint_at set_order s a b manual
    = Ok (r, s') ->
  nodes s' = nodes s /\ same_topology (store s) (store s') /\
  (r = false -> packets s' = packets s /\ store s' = store s) /\
  (r = true ->
     exists p, packets s' = packets s ++ [p] /\
               source p = a /\ destination p = b /\
               packet_counter s' = packet_counter s + 1 /\
               forall n, n ∉ path p -> store s' n = store s n).
Proof.
  intros Hrun.
  destruct (spawn_packet_outcome fl time_at random_at randint_at set_order
              s a b manual r s' Hrun)
    as (Hn & [(-> & Hp & Hs) | (-> & p & Hp & Hsrc & Hdst & _ & Hc & Hs)]).
  - split; [exact Hn|]. rewrite Hs.
    split; [apply same_topology_refl|]. split; [auto | discriminate].
  - split; [exact Hn|]. rewrite Hs.
    split; [apply add_congestion_topology|]. split; [discriminate|].
    intros _. exists p. repeat split; trivial.
    intros n Hout. now apply add_congestion_off_route.
Qed.

(** X12: loss injection on a random request that has a route.  The
    request is dropped exactly when the draw is below
    [packet_loss_rate / 100]; a number is consumed from the packet
    counter either way; a dropped request leaves the active set and all
    nodes as they were and appends one [dropped] event bearing the
    consumed number. *)
Theorem random_send_loss_injection s a b x fw c :
  dijkstra_shortest_path set_order s a b = Ok (Some (x :: fw), Dist c) ->
  let drop := py_lt (PyFloat (random_at (rng s)))
                (py_truediv fl (packet_loss_rate s) (py_float fl 100)) in
  exists s',
    spawn_packet fl time_at random_at randint_at set_order s a b false
      = Ok (negb drop, s') /\
    packet_counter s' = packet_counter s + 1 /\
    (drop = true ->
       packets s' = packets s /\ store s' = store s /\
       exists ev, packet_events s' = packet_events s ++ [ev] /\
                  ev_event_type ev = "dropped" /\
                  ev_packet_id ev = packet_counter s + 1) /\
    (drop = false -> exists p, packets s' = packets s ++ [p]).
Proof.
  intros Hrun. cbn zeta.
  assert (Hsome : exists s',
    spawn_packet fl time_at random_at randint_at set_order s a b false
      = Ok (negb (py_lt (PyFloat (random_at (rng s)))
                    (py_truediv fl (packet_loss_rate s) (py_float fl 100))),
            s') /\
    (py_lt (PyFloat (random_at (rng s)))
       (py_truediv fl (packet_loss_rate s) (py_float fl 100)) = true ->
     packet_counter s' = packet_counter s + 1 /\
     exists ev, packet_events s' = packet_events s ++ [ev] /\
                ev_event_type ev = "dropped" /\
                ev_packet_id ev = packet_counter s + 1)).
  { unfold spawn_packet. rewrite Hrun. run_bind. cbv beta iota.
    cbn [random_random]. simulator_fields.
    destruct (py_lt _ _).
    - eexists. split; [reflexivity|]. intros _.
      destruct (record_dropped_appends fl time_at
                  (set_rng (S (rng s)) s) (packet_counter s + 1))
        as (ev & Ht & Hid & Hlog).
      simulator_fields. split; [reflexivity|].
      exists ev. rewrite Hlog. auto.
    - destruct (new_packet _ _ _ _ _ _ _) as [packet s2].
      eexists. split; [reflexivity | discriminate]. }
  destruct Hsome as (s' & Hspawn & Hdrop). exists s'.
  split; [exact Hspawn|].
  destruct (spawn_packet_outcome fl time_at random_at randint_at set_order
              s a b false _ s' Hspawn)
    as (_ & [(Hneg & Hp & Hs) | (Hneg & p & Hp & _ & _ & _ & Hc & _)]).
  - apply negb_false_iff in Hneg. destruct (Hdrop Hneg) as (Hc & Hev).
    split; [exact Hc|]. split; [auto|]. rewrite Hneg. discriminate.
  - apply negb_true_iff in Hneg. split; [exact Hc|].
    split; [rewrite Hneg; discriminate|]. intros _. now exists p.
Qed.

End SpawnProperties.

(** ** Decay and the congestion bands *)


Section DecayFacts.

Variable fl : Q -> Q.

(** The loop of [decay_congestion] over a list of nodes. *)
Lemma decay_loop_topology load (l : list node) : forall objects,
  same_topology objects
    (fold_left
       (fun objects n =>
          if py_gt (congestion (objects n)) (PyInt 0) then
            set_congestion n
              (py_max (PyInt 0)
                 (py_sub fl (congestion (objects n))
                    (if String.eqb load "heavy"
                     then py_float fl (1 # 10) else py_float fl (2 # 10))))
              objects
          else objects)
       l objects).
Proof.
  induction l as [|n l IH]; intros objects; [apply same_topology_refl|].
  cbn [fold_left].
  eapply same_topology_trans; [|apply IH].
  destruct (py_gt _ _);
    [apply set_congestion_topology | apply same_topology_refl].
Qed.

Lemma decay_loop_untouched load (l : list node) : forall objects m,
  m ∉ l \/ (value (congestion (objects m)) <= 0)%Q ->
  fold_left
    (fun objects n =>
       if py_gt (congestion (objects n)) (PyInt 0) then
         set_congestion n
           (py_max (PyInt 0)
              (py_sub fl (congestion (objects n))
                 (if String.eqb load "heavy"
                  then py_float fl (1 # 10) else py_float fl (2 # 10))))
           objects
       else objects)
    l objects m = objects m.
Proof.
  induction l as [|n l IH]; intros objects m Hm; [reflexivity|].
  cbn [fold_left].
  destruct (decide (m = n)) as [->|Hne].
  - destruct Hm as [Hm|Hm]; [exfalso; apply Hm; constructor|].
    replace (py_gt (congestion (objects n)) (PyInt 0)) with false
      by (symmetry; now apply py_gt_false).
    apply IH. now right.
  - etransitivity.
    + apply IH. destruct Hm as [Hm|Hm].
      * left. intros Hin. apply Hm. now constructor.
      * right. destruct (py_gt _ _); [|exact Hm].
        now rewrite set_congestion_other.
    + destruct (py_gt _ _); [now apply set_congestion_other | reflexivity].
Qed.

(** X13: [decay_congestion] changes nothing while the simulation is
    paused, and otherwise touches only the congestion of nodes of the
    topology that carry load: flows, counter, event log, links and
    latencies are as before, and so is every node that is idle or not
    in the node list. *)
Theorem decay_touches_only_loaded_nodes s :
  let s' := decay_congestion fl s in
  (simulation_running s = false -> s' = s) /\
  packets s' = packets s /\ packet_counter s' = packet_counter s /\
  packet_events s' = packet_events s /\ nodes s' = nodes s /\
  same_topology (store s) (store s') /\
  forall n, n ∉ nodes s \/ (value (congestion (store s n)) <= 0)%Q ->
            store s' n = store s n.
Proof.
  cbn zeta. unfold decay_congestion.
  destruct (simulation_running s).
  - split; [discriminate|]. simulator_fields.
    do 4 (split; [reflexivity|]).
    split; [apply decay_loop_topology | apply decay_loop_untouched].
  - split; [reflexivity|]. do 4 (split; [reflexivity|]).
    split; [apply same_topology_refl | reflexivity].
Qed.

Hypothesis fl_mono : forall x y, (x <= y)%Q -> (fl x <= fl y)%Q.
Hypothesis fl_zero : (0 <= fl 0)%Q.
Hypothesis fl_ten : (fl 10 <= 10)%Q.




End DecayFacts.

Section CongestionBands.

Variable fl : Q -> Q.
Variables time_at random_at : nat -> Q.

Lemma get_congestion_level_critical n :
  get_congestion_level n = "critical" <-> (5 < value (congestion n))%Q.
Proof.
  unfold get_congestion_level.
  destruct (py_le (congestion n) (PyInt 1)) eqn:E1.
  { apply py_le_true in E1. cbn in E1. split; [discriminate|].
    intros H. exfalso. qlit. }
  destruct (py_le (congestion n) (PyInt 3)) eqn:E3.
  { apply py_le_true in E3. cbn in E3. split; [discriminate|].
    intros H. exfalso. qlit. }
  destruct (py_le (congestion n) (PyInt 5)) eqn:E5.
  { apply py_le_true in E5. cbn in E5. split; [discriminate|].
    intros H. exfalso. qlit. }
  split; [intros _|reflexivity].
  apply not_true_iff_false in E5. rewrite py_le_true in E5.
  now apply Qnot_le_lt.
Qed.

Lemma update_cwnd_frame algorithm p :
  let q := update_cwnd fl algorithm p in
  dup_ack_count q = dup_ack_count p /\ lost q = lost p /\
  retransmitted q = retransmitted p /\ last_ack_time q = last_ack_time p /\
  rtt q = rtt p /\ ssthresh q = ssthresh p.
Proof.
  cbn zeta. unfold update_cwnd.
  repeat match goal with
         | |- context [if ?c then _ else _] => destruct c
         end; cbn; auto 10.
Qed.

(** X15: the severity bands and the flow state machine.  A node reports
    [critical] exactly when its congestion is above 5; at a node that
    reports [low], [medium] or [high] a hop-entry is always a normal
    acknowledgment: the duplicate counter is reset, the time of the
    last acknowledgment is the reading of the clock, and neither the
    lost nor the retransmitted flag changes. *)
Theorem calm_nodes_only_acknowledge s p n :
  (get_congestion_level n = "critical" <-> (5 < value (congestion n))%Q) /\
  (get_congestion_level n <> "critical" ->
   let q := hop_entry fl time_at random_at p (s, n) in
   dup_ack_count q = 0 /\ last_ack_time q = time_at (clock s) /\
   lost q = lost p /\ retransmitted q = retransmitted p).
Proof.
  split; [apply get_congestion_level_critical|].
  intros Hcalm. cbn zeta.
  assert (H5 : (value (congestion n) <= 5)%Q).
  { apply Qnot_lt_le. intros H. apply Hcalm.
    now apply get_congestion_level_critical. }
  unfold hop_entry, handle_congestion_control. cbn [fst snd time_time].
  replace (py_gt (congestion n) (PyInt 9)) with false
    by (symmetry; apply py_gt_false; qlit).
  replace (py_gt (congestion n) (PyInt 7)) with false
    by (symmetry; apply py_gt_false; qlit).
  replace (py_gt (congestion n) (PyInt 5)) with false
    by (symmetry; now apply py_gt_false).
  cbn [andb].
  destruct (_ && _); [cbn; auto|].
  match goal with
  | |- context [update_cwnd fl ?a ?q] =>
      destruct (update_cwnd_frame a q) as (Hd & Hl & Hr & Ht & _)
  end.
  destruct (_ && _); cbn [snd]; packet_fields;
    rewrite Hd, Hl, Hr, Ht; packet_fields; auto.
Qed.

End CongestionBands.

(** ** PathFinder: least cost *)

Lemma getitem_Ok {V} (d : gmap node V) k v :
  getitem d k = Ok v -> d !! k = Some v.
Proof.
  unfold getitem. destruct (d !! k); [now intros [= ->] | discriminate].
Qed.

(** Relaxing never raises a distance, never touches a node outside the
    unvisited set, and leaves every unvisited neighbour at most one link
    away from the current node. *)
Lemma relax_neighbors_bounds current lat c0 U nbrs : forall D P D' P',
  relax_neighbors current lat U nbrs D P = Ok (D', P') ->
  D !! current = Some (Dist c0) -> current ∉ U ->
  (forall n, n ∉ U -> D' !! n = D !! n) /\
  (forall n c, D !! n = Some (Dist c) ->
     exists c', D' !! n = Some (Dist c') /\ c' <= c) /\
  (forall v, v ∈ nbrs -> v ∈ U ->
     exists cv, D' !! v = Some (Dist cv) /\ cv <= c0 + lat).
Proof.
  induction nbrs as [|v rest IH]; intros D P D' P' Hrun Hcur HcU.
  { injection Hrun as <- <-. split; [auto|]. split.
    - intros n c Hn. exists c. split; [exact Hn | lia].
    - intros v Hv. inversion Hv. }
  cbn [relax_neighbors] in Hrun.
  destruct (bool_decide_reflect (v ∈ U)) as [Hv|Hv].
  2:{ destruct (IH D P D' P' Hrun Hcur HcU) as (R1 & R2 & R3).
      split; [exact R1|]. split; [exact R2|].
      intros x Hx HxU. apply elem_of_cons in Hx as [->|Hx];
        [contradiction | auto]. }
  rewrite (getitem_lookup _ _ _ Hcur) in Hrun. run_bind.
  cbn [mbind result_bind dist_add] in Hrun.
  destruct (getitem D v) as [dn| |] eqn:Ev; [|discriminate ..].
  apply getitem_Ok in Ev. cbn [mbind result_bind] in Hrun.
  assert (Hvc : v <> current) by (intros ->; contradiction).
  destruct (dist_lt (Dist (c0 + lat)) dn) eqn:Elt.
  - destruct (IH _ _ D' P' Hrun) as (R1 & R2 & R3); trivial.
    { now rewrite lookup_insert_ne. }
    assert (Hnew : exists c', D' !! v = Some (Dist c') /\ c' <= c0 + lat).
    { apply R2. apply lookup_insert_eq. }
    split; [|split].
    + intros n Hn. rewrite R1 by trivial. apply lookup_insert_ne.
      intros ->. contradiction.
    + intros n c Hn. destruct (decide (v = n)) as [<-|Hne].
      * rewrite Ev in Hn. injection Hn as ->. cbn in Elt.
        apply Z.ltb_lt in Elt.
        destruct Hnew as (c' & Hc' & Hle). exists c'. split; [exact Hc'|lia].
      * apply R2. now rewrite lookup_insert_ne.
    + intros x Hx HxU. apply elem_of_cons in Hx as [->|Hx]; auto.
  - destruct (IH D P D' P' Hrun Hcur HcU) as (R1 & R2 & R3).
    split; [exact R1|]. split; [exact R2|].
    intros x Hx HxU. apply elem_of_cons in Hx as [->|Hx]; auto.
    destruct dn as [cv|]; [|discriminate]. cbn in Elt.
    apply Z.ltb_ge in Elt.
    destruct (R2 v cv Ev) as (c' & Hc' & Hle). exists c'.
    split; [exact Hc' | lia].
Qed.

Section PathFinderOptimality.

Variable objects : node -> NetworkNode.
Variable V : list node.
Variable source : node.

(** One turn of the loop keeps the loop invariant. *)
Lemma loop_invariant_step D P U m c0 D' P' :
  loop_invariant objects V source D P U ->
  m ∈ U -> D !! m = Some (Dist c0) ->
  relax_neighbors m (latency (objects m)) (filter (fun n => n <> m) U)
    (connections (objects m)) D P = Ok (D', P') ->
  loop_invariant objects V source D' P' (filter (fun n => n <> m) U).
Proof.
  intros Inv Hm Hkm Hrelax.
  set (U' := filter (fun n => n <> m) U) in *.
  assert (HU' : forall x, x ∈ U' <-> x <> m /\ x ∈ U)
    by (intros x; exact (list_elem_of_filter (fun n => n <> m) _ x)).
  assert (HmV : m ∈ V) by (apply (inv_unvisited _ _ _ _ _ _ Inv); exact Hm).
  destruct (relax_neighbors_spec objects V source m c0 U'
              (connections (objects m))) with (D := D) (P := P)
    as (D1 & P1 & Hrun & Hk' & Hc' & Hr' & Hfin & Hdone); trivial.
  { intros Hin. apply HU' in Hin. now destruct Hin. }
  { intros n Hn. apply HU' in Hn as [_ Hn].
    now apply (inv_unvisited _ _ _ _ _ _ Inv). }
  { apply (inv_keys _ _ _ _ _ _ Inv). }
  { intros n c Hn. destruct (inv_routes _ _ _ _ _ _ Inv n c Hn) as [bw R].
    exists bw. apply settled_route_shrink with U; trivial.
    intros x Hx. now apply HU' in Hx. }
  rewrite Hrun in Hrelax. injection Hrelax as -> ->.
  split; trivial.
  - intros n Hn. apply HU' in Hn as [_ Hn].
    now apply (inv_unvisited _ _ _ _ _ _ Inv).
  - intros u v Hu HuU Hv HvU. destruct (decide (u = m)) as [->|Hum].
    { now apply Hdone. }
    assert (HuU0 : u ∉ U).
    { intros Hin. apply HuU. apply HU'. now split. }
    apply HU' in HvU as [_ HvU].
    destruct (inv_frontier _ _ _ _ _ _ Inv u v Hu HuU0 Hv HvU) as [c Hc].
    eauto.
  - intros Hs. exfalso. apply HU' in Hs as [Hsm Hs].
    destruct (inv_source _ _ _ _ _ _ Inv Hs) as [_ Hothers].
    rewrite (Hothers m Hm ltac:(congruence)) in Hkm. discriminate.
Qed.

Lemma route_cost_cons a b rest :
  route_cost objects (a :: b :: rest)
  = latency (objects a) + route_cost objects (b :: rest).
Proof. reflexivity. Qed.

Lemma route_cost_snoc fw a b :
  last fw = Some a ->
  route_cost objects (fw ++ [b]) = route_cost objects fw + latency (objects a).
Proof.
  intros Hl. unfold route_cost. rewrite removelast_last.
  destruct fw as [|x fw] using rev_ind; [discriminate|].
  rewrite last_snoc in Hl. injection Hl as ->.
  rewrite removelast_last, latency_sum_app.
  change (latency_sum objects [a]) with (latency (objects a) + 0). lia.
Qed.

(** The route that a settled walk stands for, read forwards. *)
Lemma settled_route_forward P U n c bw :
  settled_route objects V source P U n c bw ->
  head (reverse bw) = Some source /\ last (reverse bw) = Some n /\
  is_route objects (reverse bw) /\ route_cost objects (reverse bw) = c /\
  forall x, x ∈ reverse bw -> x ∈ V.
Proof.
  intros [Hw Hs Hnd Hl Ht Hset HV].
  destruct (back_walk_head _ _ _ Hw) as [t ->].
  split; [now rewrite head_reverse|].
  split; [now rewrite last_reverse|].
  split; [now apply linked_back_reverse|].
  split.
  - unfold route_cost. rewrite reverse_cons, removelast_last.
    now rewrite latency_sum_reverse.
  - intros x Hx. apply HV. now apply elem_of_reverse.
Qed.

Hypothesis latency_nonneg : forall n, n ∈ V -> 0 <= latency (objects n).

Lemma latency_sum_nonneg l :
  (forall x, x ∈ l -> x ∈ V) -> 0 <= latency_sum objects l.
Proof.
  induction l as [|x l IH]; intros Hl; [cbn; lia|].
  change (latency_sum objects (x :: l))
    with (latency (objects x) + latency_sum objects l).
  pose proof (latency_nonneg x (Hl x ltac:(constructor))).
  assert (0 <= latency_sum objects l)
    by (apply IH; intros y Hy; apply Hl; now constructor).
  lia.
Qed.

Lemma route_cost_nonneg fw :
  (forall x, x ∈ fw -> x ∈ V) -> 0 <= route_cost objects fw.
Proof.
  intros Hfw. unfold route_cost. apply latency_sum_nonneg.
  intros x Hx. apply Hfw.
  destruct fw as [|y fw] using rev_ind; [inversion Hx|].
  rewrite removelast_last in Hx. apply elem_of_app. now left.
Qed.

(** A route that starts at a settled node and ends at an unvisited one
    costs at least the least unvisited distance, on top of the distance
    of its first node. *)
Lemma crossing_bound D P U m c0 :
  loop_invariant objects V source D P U ->
  optimal_invariant objects V source D U ->
  (forall x kx, x ∈ U -> D !! x = Some kx -> dist_lt kx (Dist c0) = false) ->
  m ∈ U ->
  forall fw a ca,
    head fw = Some a -> last fw = Some m -> is_route objects fw ->
    (forall x, x ∈ fw -> x ∈ V) -> a ∉ U -> D !! a = Some (Dist ca) ->
    c0 <= ca + route_cost objects fw.
Proof.
  intros Inv Opt Hmin Hm.
  induction fw as [|a' fw IH]; intros a ca Hh Hl Hr HV Ha Hca;
    [discriminate|].
  injection Hh as ->.
  destruct fw as [|b rest].
  { injection Hl as ->. contradiction. }
  destruct Hr as [Hlink Hr]. cbn [head] in Hlink.
  rewrite route_cost_cons. rewrite last_cons_cons in Hl.
  assert (HaV : a ∈ V) by (apply HV; constructor).
  assert (HbV : forall x, x ∈ b :: rest -> x ∈ V)
    by (intros x Hx; apply HV; now constructor).
  destruct (decide (b ∈ U)) as [Hb|Hb].
  - destruct (opt_frontier _ _ _ _ _ Opt a b ca HaV Ha Hlink Hb Hca)
      as (cv & Hcv & Hle).
    pose proof (Hmin b (Dist cv) Hb Hcv) as Hge. cbn in Hge.
    apply Z.ltb_ge in Hge.
    pose proof (route_cost_nonneg (b :: rest) HbV). lia.
  - assert (HbV' : b ∈ V) by (apply HbV; constructor).
    destruct (opt_settled _ _ _ _ _ Opt b HbV' Hb) as (cb & Hcb & Hopt).
    destruct (inv_routes _ _ _ _ _ _ Inv a ca Hca) as [bw R].
    destruct (settled_route_forward _ _ _ _ _ R)
      as (Fh & Fl & Fr & Fc & FV).
    assert (Hcb_le : cb <= ca + latency (objects a)).
    { rewrite <- Fc, <- (route_cost_snoc (reverse bw) a b Fl).
      apply Hopt.
      - destruct (reverse bw); [discriminate | exact Fh].
      - apply last_snoc.
      - apply is_route_snoc; [exact Fr|].
        intros u Hu. rewrite Fl in Hu. now injection Hu as <-.
      - intros x Hx. apply elem_of_app in Hx as [Hx|Hx]; [now apply FV|].
        apply list_elem_of_singleton in Hx as ->. exact HbV'. }
    pose proof (IH b cb eq_refl Hl Hr HbV Hb Hcb). lia.
Qed.

(** The node taken out of the unvisited set is at its least cost. *)
Lemma extracted_distance_is_least D P U m c0 :
  loop_invariant objects V source D P U ->
  optimal_invariant objects V source D U ->
  (forall x kx, x ∈ U -> D !! x = Some kx -> dist_lt kx (Dist c0) = false) ->
  m ∈ U -> D !! m = Some (Dist c0) ->
  forall fw, head fw = Some source -> last fw = Some m ->
    is_route objects fw -> (forall x, x ∈ fw -> x ∈ V) ->
    c0 <= route_cost objects fw.
Proof.
  intros Inv Opt Hmin Hm Hkm fw Hh Hl Hr HV.
  destruct (decide (source ∈ U)) as [Hs|Hs].
  - destruct (inv_source _ _ _ _ _ _ Inv Hs) as [_ Hothers].
    destruct (decide (m = source)) as [->|Hne].
    + rewrite (opt_source _ _ _ _ _ Opt) in Hkm. injection Hkm as <-.
      now apply route_cost_nonneg.
    + rewrite (Hothers m Hm Hne) in Hkm. discriminate.
  - pose proof (crossing_bound D P U m c0 Inv Opt Hmin Hm fw source 0
                  Hh Hl Hr HV Hs (opt_source _ _ _ _ _ Opt)). lia.
Qed.

(** One turn of the loop keeps the optimality invariant. *)
Lemma optimal_invariant_step D P U m c0 D' P' :
  loop_invariant objects V source D P U ->
  optimal_invariant objects V source D U ->
  (forall x kx, x ∈ U -> D !! x = Some kx -> dist_lt kx (Dist c0) = false) ->
  m ∈ U -> D !! m = Some (Dist c0) ->
  relax_neighbors m (latency (objects m)) (filter (fun n => n <> m) U)
    (connections (objects m)) D P = Ok (D', P') ->
  optimal_invariant objects V source D' (filter (fun n => n <> m) U).
Proof.
  intros Inv Opt Hmin Hm Hkm Hrelax.
  set (U' := filter (fun n => n <> m) U) in *.
  assert (HU' : forall x, x ∈ U' <-> x <> m /\ x ∈ U)
    by (intros x; exact (list_elem_of_filter (fun n => n <> m) _ x)).
  assert (HmU' : m ∉ U') by (intros Hin; apply HU' in Hin; now destruct Hin).
  destruct (relax_neighbors_bounds m (latency (objects m)) c0 U'
              (connections (objects m)) D P D' P' Hrelax Hkm HmU')
    as (R1 & R2 & R3).
  assert (Hsettled : forall u, u ∉ U' -> u = m \/ u ∉ U).
  { intros u Hu. destruct (decide (u = m)); [now left|right].
    intros Hin. apply Hu. apply HU'. now split. }
  split.
  - destruct (R2 source 0 (opt_source _ _ _ _ _ Opt)) as (c' & Hc' & Hle).
    destruct (decide (source ∈ U')) as [Hs|Hs].
    + exfalso. apply HU' in Hs as [Hne Hs].
      destruct (inv_source _ _ _ _ _ _ Inv Hs) as [_ Hothers].
      rewrite (Hothers m Hm ltac:(congruence)) in Hkm. discriminate.
    + rewrite R1 by trivial. apply (opt_source _ _ _ _ _ Opt).
  - intros u Hu HuU. rewrite R1 by trivial.
    destruct (Hsettled u HuU) as [->|HuU0].
    + exists c0. split; [exact Hkm|].
      now apply (extracted_distance_is_least D P U m c0).
    + now apply (opt_settled _ _ _ _ _ Opt).
  - intros u v cu Hu HuU Hv HvU Hcu. rewrite R1 in Hcu by trivial.
    destruct (Hsettled u HuU) as [->|HuU0].
    + rewrite Hkm in Hcu. injection Hcu as <-. now apply R3.
    + apply HU' in HvU as [_ HvU].
      destruct (opt_frontier _ _ _ _ _ Opt u v cu Hu HuU0 Hv HvU Hcu)
        as (cv & Hcv & Hle).
      destruct (R2 v cv Hcv) as (c' & Hc' & Hle').
      exists c'. split; [exact Hc' | lia].
Qed.

(** Whatever the loop returns as a cost is the least cost of a route to
    the destination. *)
Lemma dijkstra_loop_optimal destination fuel : forall D P U fw c,
  loop_invariant objects V source D P U ->
  optimal_invariant objects V source D U ->
  dijkstra_loop fuel objects destination D P U = Ok (Some fw, Dist c) ->
  forall r, head r = Some source -> last r = Some destination ->
    is_route objects r -> (forall x, x ∈ r -> x ∈ V) ->
    c <= route_cost objects r.
Proof.
  induction fuel as [|fuel IH]; intros D P U fw c Inv Opt Hrun;
    [discriminate|].
  destruct U as [|first rest]; [discriminate|].
  cbn [dijkstra_loop] in Hrun.
  destruct (proj1 (inv_keys _ _ _ _ _ _ Inv first
                     (inv_unvisited _ _ _ _ _ _ Inv first ltac:(constructor))))
    as [k Hk].
  rewrite (getitem_lookup _ _ _ Hk) in Hrun.
  cbn [mbind result_bind] in Hrun.
  destruct (min_by_distance_spec D rest first k Hk)
    as (m & km & Hmin & Hm & Hkm & Hle & Hall).
  { intros x Hx. apply (inv_keys _ _ _ _ _ _ Inv).
    apply (inv_unvisited _ _ _ _ _ _ Inv). now constructor. }
  rewrite Hmin in Hrun. cbn [mbind result_bind] in Hrun.
  rewrite (getitem_lookup _ _ _ Hkm) in Hrun.
  cbn [mbind result_bind] in Hrun.
  destruct km as [c0|]; cbn [is_infinity] in Hrun; [|discriminate].
  assert (Hleast : forall x kx, x ∈ first :: rest -> D !! x = Some kx ->
                                dist_lt kx (Dist c0) = false).
  { intros x kx Hx Hkx. apply elem_of_cons in Hx as [->|Hx].
    - rewrite Hk in Hkx. now injection Hkx as <-.
    - eauto. }
  destruct (bool_decide_reflect (m = destination)) as [->|Hne].
  - destruct (reconstruct_path _ _ _ _) as [pth| |];
      cbn [mbind result_bind] in Hrun; [|discriminate ..].
    rewrite (getitem_lookup _ _ _ Hkm) in Hrun.
    cbn [mbind result_bind] in Hrun. injection Hrun as _ <-.
    now apply (extracted_distance_is_least D P (first :: rest)
                 destination c0).
  - destruct (relax_neighbors _ _ _ _ _ _) as [[D' P']| |] eqn:Erelax;
      cbn [mbind result_bind] in Hrun; [|discriminate ..].
    apply (IH D' P' (filter (fun n => n <> m) (first :: rest)) fw c);
      [| |exact Hrun].
    + now apply (loop_invariant_step D P (first :: rest) m c0).
    + now apply (optimal_invariant_step D P (first :: rest) m c0 D' P').
Qed.

End PathFinderOptimality.

Section PathFinderTotal.

Variable objects : node -> NetworkNode.
Variable V : list node.
Variables source destination : node.

Lemma relax_step_runs D P U m c0 :
  loop_invariant objects V source D P U ->
  m ∈ U -> D !! m = Some (Dist c0) ->
  exists D' P',
    relax_neighbors m (latency (objects m)) (filter (fun n => n <> m) U)
      (connections (objects m)) D P = Ok (D', P').
Proof.
  intros Inv Hm Hkm.
  set (U' := filter (fun n => n <> m) U) in *.
  assert (HU' : forall x, x ∈ U' <-> x <> m /\ x ∈ U)
    by (intros x; exact (list_elem_of_filter (fun n => n <> m) _ x)).
  destruct (relax_neighbors_spec objects V source m c0 U'
              (connections (objects m))) with (D := D) (P := P)
    as (D1 & P1 & Hrun & _); trivial.
  - apply (inv_unvisited _ _ _ _ _ _ Inv); exact Hm.
  - intros Hin. apply HU' in Hin. now destruct Hin.
  - intros n Hn. apply HU' in Hn as [_ Hn].
    now apply (inv_unvisited _ _ _ _ _ _ Inv).
  - apply (inv_keys _ _ _ _ _ _ Inv).
  - intros n c Hn. destruct (inv_routes _ _ _ _ _ _ Inv n c Hn) as [bw R].
    exists bw. apply settled_route_shrink with U; trivial.
    intros x Hx. now apply HU' in Hx.
  - eauto.
Qed.

(** The loop always returns: no route, or a route to a destination that
    was among the unvisited nodes. *)
Lemma dijkstra_loop_total fuel : forall D P U,
  loop_invariant objects V source D P U -> (length U < fuel)%nat ->
  dijkstra_loop fuel objects destination D P U = Ok (None, Infinity) \/
  exists fw c,
    dijkstra_loop fuel objects destination D P U = Ok (Some fw, Dist c) /\
    destination ∈ V.
Proof.
  induction fuel as [|fuel IH]; intros D P U Inv Hfuel; [lia|].
  destruct U as [|first rest]; [now left|].
  cbn [dijkstra_loop].
  destruct (proj1 (inv_keys _ _ _ _ _ _ Inv first
                     (inv_unvisited _ _ _ _ _ _ Inv first ltac:(constructor))))
    as [k Hk].
  rewrite (getitem_lookup _ _ _ Hk). run_bind.
  destruct (min_by_distance_spec D rest first k Hk)
    as (m & km & Hmin & Hm & Hkm & _).
  { intros x Hx. apply (inv_keys _ _ _ _ _ _ Inv).
    apply (inv_unvisited _ _ _ _ _ _ Inv). now constructor. }
  rewrite Hmin. run_bind. rewrite (getitem_lookup _ _ _ Hkm). run_bind.
  destruct km as [c0|]; cbn [is_infinity]; [|now left].
  destruct (bool_decide_reflect (m = destination)) as [->|Hne].
  - destruct (inv_routes _ _ _ _ _ _ Inv destination c0 Hkm) as [bw R].
    destruct R as [Hw Hs Hnd Hl Ht Hset HV].
    rewrite (reconstruct_path_walk P destination bw Hw (S (size P)) []).
    2:{ pose proof (walk_length_bound P bw Hnd (back_walk_keys _ _ _ Hw)).
        lia. }
    run_bind. rewrite (getitem_lookup _ _ _ Hkm). run_bind.
    right. eexists. eexists. split; [reflexivity|].
    now apply (inv_unvisited _ _ _ _ _ _ Inv).
  - destruct (relax_step_runs D P (first :: rest) m c0 Inv Hm Hkm)
      as (D' & P' & Hrelax).
    rewrite Hrelax. run_bind. apply IH.
    + now apply (loop_invariant_step objects V source D P (first :: rest)
                   m c0).
    + pose proof (length_filter_lt (fun n => n <> m) (first :: rest) m Hm
                    ltac:(tauto)).
      cbn [length] in *. lia.
Qed.

End PathFinderTotal.

Section PathFinderProperties.

Variable set_order : list node -> list node.
Variable s : Simulator.
Hypothesis set_order_elements :
  forall x, x ∈ set_order (nodes s) <-> x ∈ nodes s.

Lemma initial_optimal_invariant source :
  optimal_invariant (store s) (nodes s) source
    (<[source := Dist 0]>
       (list_to_map ((fun n => (n, Infinity)) <$> nodes s)))
    (set_order (nodes s)).
Proof.
  split.
  - apply lookup_insert_eq.
  - intros u Hu Hnu. exfalso. apply Hnu. now apply set_order_elements.
  - intros u v cu Hu Hnu. exfalso. apply Hnu. now apply set_order_elements.
Qed.

Lemma dijkstra_shortest_path_least a b fw c :
  (forall n, n ∈ nodes s -> 0 <= latency (store s n)) ->
  dijkstra_shortest_path set_order s a b = Ok (Some fw, Dist c) ->
  forall r, head r = Some a -> last r = Some b ->
    is_route (store s) r -> (forall x, x ∈ r -> x ∈ nodes s) ->
    c = route_cost (store s) fw /\
    route_cost (store s) fw <= route_cost (store s) r.
Proof.
  intros Hlat Hrun r Hh Hl Hr HV.
  assert (Hreach : reachable s a b) by (exists r; auto).
  destruct (reachable_endpoints s a b Hreach) as [Ha Hb].
  destruct (dijkstra_shortest_path_finds set_order s set_order_elements
              a b Hreach)
    as (fw' & c' & Hrun' & _ & _ & _ & Hc' & _).
  rewrite Hrun in Hrun'. injection Hrun' as <- <-.
  split; [exact Hc'|]. rewrite <- Hc'.
  unfold dijkstra_shortest_path in Hrun.
  apply (dijkstra_loop_optimal (store s) (nodes s) a Hlat b _ _ _ _ fw c
           (initial_loop_invariant set_order s set_order_elements a Ha)
           (initial_optimal_invariant a) Hrun r); trivial.
Qed.

(** X16: with latencies that are not negative, the cost that
    [dijkstra_shortest_path] returns is the cost of the route it
    returns, and no route between the same endpoints through nodes of
    the topology is cheaper. *)
Theorem dijkstra_cost_is_least a b fw c :
  (forall n, n ∈ nodes s -> 0 <= latency (store s n)) ->
  dijkstra_shortest_path set_order s a b = Ok (Some fw, Dist c) ->
  forall r, head r = Some a -> last r = Some b ->
    is_route (store s) r -> (forall x, x ∈ r -> x ∈ nodes s) ->
    c = route_cost (store s) fw /\
    route_cost (store s) fw <= route_cost (store s) r.
Proof. exact (dijkstra_shortest_path_least a b fw c). Qed.

Lemma dijkstra_shortest_path_missing a b :
  a ∉ nodes s \/ b ∉ nodes s ->
  dijkstra_shortest_path set_order s a b = Ok (None, Infinity).
Proof.
  intros Hmiss. unfold dijkstra_shortest_path.
  destruct (decide (a ∈ nodes s)) as [Ha|Ha].
  - destruct Hmiss as [Hmiss|Hb]; [contradiction|].
    destruct (dijkstra_loop_total (store s) (nodes s) a b
                (S (length (set_order (nodes s)))) _ _ _
                (initial_loop_invariant set_order s set_order_elements a Ha)
                ltac:(lia))
      as [Hnone|(fw & c & _ & Hin)]; [exact Hnone | contradiction].
  - destruct (set_order (nodes s)) as [|first rest] eqn:EU; [reflexivity|].
    assert (Hinf : forall x, x ∈ first :: rest ->
              (<[a := Dist 0]>
                 (list_to_map ((fun n => (n, Infinity)) <$> nodes s))
               : gmap node dist) !! x = Some Infinity).
    { intros x Hx. apply set_order_elements in Hx.
      rewrite lookup_insert_ne by (intros ->; contradiction).
      rewrite const_table_lookup.
      destruct (decide (x ∈ nodes s)); [reflexivity | contradiction]. }
    cbn [length dijkstra_loop].
    rewrite (getitem_lookup _ _ _ (Hinf first ltac:(constructor))). run_bind.
    destruct (min_by_distance_spec _ rest first Infinity
                (Hinf first ltac:(constructor)))
      as (m & km & Hmin & Hm & Hkm & _).
    { intros x Hx. rewrite (Hinf x); [eauto | now constructor]. }
    rewrite Hmin. run_bind. rewrite (getitem_lookup _ _ _ Hkm). run_bind.
    rewrite (Hinf m Hm) in Hkm. injection Hkm as <-. reflexivity.
Qed.

(** X17: an endpoint that is not a node of the topology yields the
    no-path answer [(None, infinity)]; no key is missed and neither loop
    overruns. *)
Theorem dijkstra_missing_endpoint a b :
  a ∉ nodes s \/ b ∉ nodes s ->
  dijkstra_shortest_path set_order s a b = Ok (None, Infinity).
Proof. exact (dijkstra_shortest_path_missing a b). Qed.

(** X18: between two nodes of the topology the no-path answer is given
    exactly when no route links them through nodes of the topology, and
    a route that is returned has no repeated node and stays within the
    topology. *)
Theorem dijkstra_decides_reachability a b :
  a ∈ nodes s -> b ∈ nodes s ->
  (dijkstra_shortest_path set_order s a b = Ok (None, Infinity)
   <-> ~ reachable s a b) /\
  (forall fw c,
     dijkstra_shortest_path set_order s a b = Ok (Some fw, c) ->
     NoDup fw /\ (forall x, x ∈ fw -> x ∈ nodes s) /\ c <> Infinity).
Proof.
  intros Ha Hb.
  destruct (dijkstra_shortest_path_decides set_order s set_order_elements
              a b Ha Hb)
    as [[Hnone Hno] | (fw & c & Hrun & Hh & Hl & Hr & _ & Hnd & HV)].
  - split; [tauto|]. intros fw c Hrun. congruence.
  - split.
    + split; [congruence|]. intros Hno. exfalso. apply Hno.
      exists fw. auto.
    + intros fw' c' Hrun'. rewrite Hrun in Hrun'.
      injection Hrun' as <- <-. auto.
Qed.

End PathFinderProperties.

(** ** Routes in both directions *)

Lemma latency_sum_last objects r b :
  last r = Some b ->
  latency_sum objects r = route_cost objects r + latency (objects b).
Proof.
  intros Hl. destruct r as [|x r] using rev_ind; [discriminate|].
  rewrite last_snoc in Hl. injection Hl as ->.
  unfold route_cost. rewrite removelast_last, latency_sum_app.
  change (latency_sum objects [b]) with (latency (objects b) + 0). lia.
Qed.

Lemma is_route_linked_back objects (V : list node) r :
  (forall x y, x ∈ V -> y ∈ V ->
     y ∈ connections (objects x) -> x ∈ connections (objects y)) ->
  (forall x, x ∈ r -> x ∈ V) ->
  is_route objects r -> linked_back objects r.
Proof.
  intros Hsym. induction r as [|a r IH]; [trivial|].
  intros HV [Ha Hr]. split.
  - destruct r as [|y r]; [trivial|]. cbn [head] in *.
    apply Hsym; [apply HV; left | apply HV; right; left | trivial].
  - apply IH; [|trivial]. intros x Hx. apply HV. now right.
Qed.

(** A route walked backwards over links that go both ways. *)
Lemma route_reverse objects (V : list node) r a b :
  (forall x y, x ∈ V -> y ∈ V ->
     y ∈ connections (objects x) -> x ∈ connections (objects y)) ->
  (forall x, x ∈ r -> x ∈ V) ->
  head r = Some a -> last r = Some b -> is_route objects r ->
  head (reverse r) = Some b /\ last (reverse r) = Some a /\
  is_route objects (reverse r) /\
  route_cost objects (reverse r) + latency (objects a)
  = route_cost objects r + latency (objects b).
Proof.
  intros Hsym HV Hh Hl Hr.
  assert (Hh' : head (reverse r) = Some b) by now rewrite head_reverse.
  assert (Hl' : last (reverse r) = Some a) by now rewrite last_reverse.
  repeat split; trivial.
  - apply linked_back_reverse. now apply (is_route_linked_back objects V).
  - rewrite <- (latency_sum_last objects (reverse r) a Hl'),
      <- (latency_sum_last objects r b Hl).
    apply latency_sum_reverse.
Qed.

Section PathFinderReturnTrip.

Variable set_order : list node -> list node.
Variable s : Simulator.
Hypothesis set_order_elements :
  forall x, x ∈ set_order (nodes s) <-> x ∈ nodes s.
Hypothesis latency_nonneg :
  forall n, n ∈ nodes s -> 0 <= latency (store s n).
Hypothesis links_both_ways :
  forall x y, x ∈ nodes s -> y ∈ nodes s ->
    y ∈ connections (store s x) -> x ∈ connections (store s y).

Lemma reachable_back a b : reachable s a b -> reachable s b a.
Proof.
  intros (r & Hh & Hl & Hr & HV).
  destruct (route_reverse (store s) (nodes s) r a b links_both_ways HV
              Hh Hl Hr)
    as (Hh' & Hl' & Hr' & _).
  exists (reverse r). repeat split; trivial.
  intros x Hx. apply HV. now apply elem_of_reverse.
Qed.

Lemma return_cost_bound a b fw c bw c' :
  dijkstra_shortest_path set_order s a b = Ok (Some fw, Dist c) ->
  dijkstra_shortest_path set_order s b a = Ok (Some bw, Dist c') ->
  a ∈ nodes s -> b ∈ nodes s ->
  c + latency (store s b) <= c' + latency (store s a).
Proof.
  intros Hab Hba Ha Hb.
  destruct (dijkstra_shortest_path_decides set_order s set_order_elements
              b a Hb Ha)
    as [[Hnone _] | (bw' & k & Hrun & Hh & Hl & Hr & Hk & _ & HV)];
    [congruence|].
  rewrite Hba in Hrun. injection Hrun as <- <-.
  destruct (route_reverse (store s) (nodes s) bw b a links_both_ways HV
              Hh Hl Hr)
    as (Hh' & Hl' & Hr' & Hcost).
  destruct (dijkstra_shortest_path_least set_order s set_order_elements
              a b fw c latency_nonneg Hab (reverse bw) Hh' Hl' Hr')
    as [Hc Hle].
  { intros x Hx. apply HV. now apply elem_of_reverse. }
  lia.
Qed.

Lemma return_cost_bound_back a b fw c bw c' :
  dijkstra_shortest_path set_order s a b = Ok (Some fw, Dist c) ->
  dijkstra_shortest_path set_order s b a = Ok (Some bw, Dist c') ->
  a ∈ nodes s -> b ∈ nodes s ->
  c' + latency (store s a) <= c + latency (store s b).
Proof.
  intros Hab Hba Ha Hb.
  exact (return_cost_bound b a bw c' fw c Hba Hab Hb Ha).
Qed.

(** X26: over links that go both ways between the nodes of the
    topology and latencies that are not negative, [dijkstra_shortest_path] finds a route from [a] to [b]
    exactly when it finds one from [b] to [a], and the two costs differ
    by the latencies of the endpoints: each direction leaves out the
    latency of its own destination. *)
Theorem dijkstra_return_trip a b :
  a ∈ nodes s -> b ∈ nodes s ->
  (dijkstra_shortest_path set_order s a b = Ok (None, Infinity) <->
   dijkstra_shortest_path set_order s b a = Ok (None, Infinity)) /\
  forall fw c bw c',
    dijkstra_shortest_path set_order s a b = Ok (Some fw, Dist c) ->
    dijkstra_shortest_path set_order s b a = Ok (Some bw, Dist c') ->
    c + latency (store s b) = c' + latency (store s a).
Proof.
  intros Ha Hb. split.
  - destruct (dijkstra_shortest_path_decides set_order s set_order_elements
                a b Ha Hb)
      as [[Hab Hno] | (fw & c & Hab & Hh & Hl & Hr & _ & _ & HV)];
    destruct (dijkstra_shortest_path_decides set_order s set_order_elements
                b a Hb Ha)
      as [[Hba Hno'] | (bw & c' & Hba & Hh' & Hl' & Hr' & _ & _ & HV')].
    + tauto.
    + exfalso. apply Hno. apply reachable_back. exists bw. auto.
    + exfalso. apply Hno'. apply reachable_back. exists fw. auto.
    + split; congruence.
  - intros fw c bw c' Hab Hba.
    pose proof (return_cost_bound a b fw c bw c' Hab Hba Ha Hb).
    pose proof (return_cost_bound_back a b fw c bw c' Hab Hba Ha Hb).
    lia.
Qed.

End PathFinderReturnTrip.

(** ** The flow that an admitted request creates *)

Section SpawnedFlow.

Variable fl : Q -> Q.
Variables time_at random_at : nat -> Q.
Variable randint_at : nat -> Z.
Variable set_order : list node -> list node.

(** What the path finder returns when it returns a route. *)
Lemma dijkstra_found_route s a b fw total :
  (forall x, x ∈ set_order (nodes s) <-> x ∈ nodes s) ->
  dijkstra_shortest_path set_order s a b = Ok (Some fw, total) ->
  head fw = Some a /\ last fw = Some b /\ is_route (store s) fw /\
  total = Dist (route_cost (store s) fw) /\ NoDup fw /\
  forall x, x ∈ fw -> x ∈ nodes s.
Proof.
  intros Hord Hrun.
  destruct (decide (a ∈ nodes s)) as [Ha|Ha].
  2: { rewrite (dijkstra_shortest_path_missing set_order s Hord a b)
         in Hrun by now left.
       discriminate. }
  destruct (decide (b ∈ nodes s)) as [Hb|Hb].
  2: { rewrite (dijkstra_shortest_path_missing set_order s Hord a b)
         in Hrun by now right.
       discriminate. }
  destruct (dijkstra_shortest_path_decides set_order s Hord a b Ha Hb)
    as [[Hnone _] | (fw' & c & Hrun' & Hh & Hl & Hr & Hc & Hnd & HV)];
    [congruence|].
  rewrite Hrun in Hrun'. injection Hrun' as -> ->. subst c. auto 10.
Qed.

(** The packet object as the constructor leaves it. *)
Lemma new_packet_fields s a b pth pid :
  let p := (new_packet time_at randint_at s a b pth pid).1 in
  source p = a /\ destination p = b /\ path p = pth /\
  current_index p = 0%nat /\ progress p = PyInt 0 /\
  completed p = false /\ hop_count p = Z.of_nat (length pth) - 1 /\
  cwnd p = PyInt 1 /\ ssthresh p = PyInt 64 /\ phase p = "slow_start" /\
  dup_ack_count p = 0 /\ lost p = false /\ retransmitted p = false /\
  (pid <> 0 -> packet_id p = pid).
Proof.
  cbn zeta. unfold new_packet. cbn [time_time].
  destruct (pid =? 0) eqn:E; cbn; repeat split; trivial.
  - apply Z.eqb_eq in E. congruence.
  - now rewrite E.
Qed.

(** X30: a request that [spawn_packet] admits puts one fresh flow at the
    end of the active flows: its route is the one the path finder
    returns, from the requested source to the requested destination
    along links and without a repeated node; its [total_latency] is the
    cost of that route; it stands at the start of the first hop, in
    [slow_start] with window 1 and threshold 64, not lost; and its id is
    the packet counter after the increment, unless that is 0. *)
Theorem admitted_flow_starts_fresh_on_its_route s a b manual s' :
  (forall x, x ∈ set_order (nodes s) <-> x ∈ nodes s) ->
  spawn_packet fl time_at random_at randint_at set_order s a b manual
    = Ok (true, s') ->
  exists p,
    packets s' = packets s ++ [p] /\
    source p = a /\ destination p = b /\
    dijkstra_shortest_path set_order s a b
      = Ok (Some (path p), total_latency p) /\
    head (path p) = Some a /\ last (path p) = Some b /\
    is_route (store s) (path p) /\ NoDup (path p) /\
    total_latency p = Dist (route_cost (store s) (path p)) /\
    current_index p = 0%nat /\ progress p = PyInt 0 /\
    completed p = false /\
    cwnd p = PyInt 1 /\ ssthresh p = PyInt 64 /\ phase p = "slow_start" /\
    dup_ack_count p = 0 /\ lost p = false /\
    (packet_counter s + 1 <> 0 -> packet_id p = packet_counter s + 1).
Proof.
  intros Hord. unfold spawn_packet.
  destruct (dijkstra_shortest_path set_order s a b)
    as [[found total]| |] eqn:Hrun; [|discriminate ..].
  run_bind. cbv beta iota.
  destruct found as [[|x fw]|]; [discriminate| |discriminate].
  destruct (dijkstra_found_route s a b (x :: fw) total Hord Hrun)
    as (Hh & Hl & Hr & Htot & Hnd & _).
  set (dropped :=
         if manual then (false, s)
         else let '(r0, s0) := random_random random_at s in
              (py_lt (PyFloat r0)
                 (py_truediv fl (packet_loss_rate s0) (py_float fl 100)),
               s0)).
  assert (Hd : packets dropped.2 = packets s /\
               packet_counter dropped.2 = packet_counter s).
  { subst dropped. destruct manual; cbn; auto. }
  destruct dropped as [[|] s1]; cbn [fst snd] in Hd;
    destruct Hd as (Hp1 & Hc1); [discriminate|].
  pose proof (new_packet_frame time_at randint_at
                (set_packet_counter (packet_counter s + 1) s1) a b
                (x :: fw)
                (packet_counter
                   (set_packet_counter (packet_counter s + 1) s1)))
    as Hnew.
  pose proof (new_packet_fields
                (set_packet_counter (packet_counter s + 1) s1) a b
                (x :: fw)
                (packet_counter
                   (set_packet_counter (packet_counter s + 1) s1)))
    as Hfields.
  destruct (new_packet _ _ _ _ _ _ _) as [packet s2].
  cbn [fst snd] in Hnew, Hfields. cbn zeta in Hfields.
  destruct Hnew as (_ & _ & _ & _ & Hp2 & _).
  destruct Hfields as (Hsrc & Hdst & Hpath & Hci & Hpr & Hco & _ & Hcw &
                       Hss & Hph & Hdup & Hlost & _ & Hid).
  match goal with
  | |- context [record_packet_event fl time_at random_at ?t ?q ?e] =>
      destruct (record_packet_event_frame fl time_at random_at t q e)
        as (_ & _ & Hp & _)
  end.
  intros [= <-]. simulator_fields.
  exists (set_total_latency total packet).
  rewrite Hp. simulator_fields. rewrite Hp2. simulator_fields.
  rewrite Hp1.
  cbn [source destination path current_index progress completed cwnd
       ssthresh phase dup_ack_count lost packet_id total_latency
       set_total_latency].
  rewrite Hsrc, Hdst, Hpath, Hci, Hpr, Hco, Hcw, Hss, Hph, Hdup, Hlost.
  repeat (split; [solve [trivial]|]). exact Hid.
Qed.

End SpawnedFlow.

(** ** The flow-advancement driver *)

Section ClockFacts.

Variable fl : Q -> Q.
Variables time_at random_at : nat -> Q.

Lemma same_network_refl s : same_network s s.
Proof. repeat split. Qed.

Lemma same_network_trans s1 s2 s3 :
  same_network s1 s2 -> same_network s2 s3 -> same_network s1 s3.
Proof.
  intros (A & B & C & D) (A' & B' & C' & D'). repeat split; congruence.
Qed.

Lemma record_packet_event_algorithm s p event_type :
  congestion_algorithm
    (record_packet_event fl time_at random_at s p event_type)
  = congestion_algorithm s.
Proof.
  unfold record_packet_event. cbn [time_time].
  destruct (is_important event_type).
  - match goal with
    | |- context [if ?c then _ else _] => destruct c
    end; reflexivity.
  - cbn [random_random]. destruct (py_gt _ _); [reflexivity|].
    match goal with
    | |- context [if ?c then _ else _] => destruct c
    end; reflexivity.
Qed.

Lemma record_packet_event_network s p event_type :
  same_network s (record_packet_event fl time_at random_at s p event_type).
Proof.
  destruct (record_packet_event_frame fl time_at random_at s p event_type)
    as (A & B & _ & C & _).
  repeat split; trivial. apply record_packet_event_algorithm.
Qed.

Lemma update_cwnd_position algorithm p :
  let q := update_cwnd fl algorithm p in
  path q = path p /\ current_index q = current_index p /\
  progress q = progress p /\ completed q = completed p.
Proof.
  cbn zeta. unfold update_cwnd.
  repeat match goal with
         | |- context [if ?c then _ else _] => destruct c
         end; cbn; auto.
Qed.

(** A hop-entry changes the congestion-control state only: the route of
    the flow and its place on it stay. *)
Lemma hop_entry_position p e :
  let q := hop_entry fl time_at random_at p e in
  path q = path p /\ current_index q = current_index p /\
  progress q = progress p /\ completed q = completed p.
Proof.
  cbn zeta. destruct e as [s n].
  unfold hop_entry, handle_congestion_control. cbn [fst snd time_time].
  destruct (py_gt (congestion n) (PyInt 9)).
  { destruct (String.eqb _ "reno"); cbn; auto. }
  destruct (py_gt (congestion n) (PyInt 7)).
  { destruct (3 <=? _); [|cbn; auto].
    destruct (String.eqb _ "reno"); cbn; auto. }
  destruct (_ && _ && _); [cbn; auto|].
  destruct (_ && _); [cbn; auto|].
  match goal with
  | |- context [update_cwnd fl ?a ?q] =>
      destruct (update_cwnd_position a q) as (A & B & C & D)
  end.
  destruct (_ && _); cbn [snd];
    cbn [path current_index progress completed set_phase];
    rewrite A, B, C, D; cbn; auto.
Qed.

Lemma handle_congestion_control_network s p n :
  same_network s (handle_congestion_control fl time_at random_at s p n).1.
Proof.
  assert (Hc : same_network s (set_clock (S (clock s)) s))
    by (repeat split).
  assert (Hr : forall q ev,
             same_network s
               (record_packet_event fl time_at random_at
                  (set_clock (S (clock s)) s) q ev)).
  { intros q ev. eapply same_network_trans; [apply Hc|].
    apply record_packet_event_network. }
  unfold handle_congestion_control. cbn [time_time].
  destruct (py_gt (congestion n) (PyInt 9)); [apply Hr|].
  destruct (py_gt (congestion n) (PyInt 7)).
  { destruct (3 <=? _); [apply Hr | apply Hc]. }
  destruct (_ && _ && _); [apply Hr|].
  destruct (_ && _).
  { cbn [fst]. eapply same_network_trans; [apply Hr|].
    apply record_packet_event_network. }
  destruct (_ && _); cbn [fst]; [|apply Hr].
  eapply same_network_trans; [apply Hr|].
  apply record_packet_event_network.
Qed.

Lemma same_window_refl p : same_window p p.
Proof. repeat split. Qed.

(** A flow at the last node of its route is marked completed, logged as
    delivered and put on the removal list. *)
Lemma advance_packet_arrived s p :
  in_transit p = false ->
  advance_packet fl time_at random_at s p =
    Some (record_packet_event fl time_at random_at s
            (set_completed true p) "delivered",
          set_completed true p, true).
Proof.
  unfold in_transit, advance_packet.
  destruct (_ <=? _); [reflexivity | discriminate].
Qed.

(** Any other flow stays on the list; its two route lookups succeed, its
    congestion-control state is the one a hop-entry at the current node
    leaves when the flow stands at the start of a hop and is unchanged
    otherwise, and it moves by at most one node. *)
Lemma advance_packet_in_transit s p :
  in_transit p = true ->
  exists n1 s1 q,
    path p !! current_index p = Some n1 /\
    advance_packet fl time_at random_at s p = Some (s1, q, false) /\
    same_network s s1 /\
    same_window
      (if hop_started p
       then hop_entry fl time_at random_at p (s, store s n1) else p) q /\
    path q = path p /\ packet_id q = packet_id p /\
    completed q = completed p /\
    (current_index q = current_index p \/
     current_index q = S (current_index p) /\ progress q = PyInt 0).
Proof.
  unfold in_transit, advance_packet, hop_started. intros Ht.
  destruct (_ <=? _) eqn:E; [discriminate|]. clear Ht.
  apply Z.leb_gt in E.
  destruct (lookup_lt_is_Some_2 (path p) (current_index p)) as [n1 H1];
    [lia|].
  destruct (lookup_lt_is_Some_2 (path p) (S (current_index p)))
    as [n2 H2]; [lia|].
  rewrite H1, H2. cbn [mbind option_bind].
  exists n1.
  assert (Hq : exists s0 p0,
             (if py_eq (progress p) (PyInt 0)
              then handle_congestion_control fl time_at random_at s p
                     (store s n1)
              else (s, p)) = (s0, p0) /\
             same_network s s0 /\
             p0 = (if py_eq (progress p) (PyInt 0)
                   then hop_entry fl time_at random_at p (s, store s n1)
                   else p)).
  { destruct (py_eq _ _).
    - destruct (handle_congestion_control fl time_at random_at s p
                  (store s n1)) as [s0 p0] eqn:Eh.
      exists s0, p0. split; [reflexivity|]. split.
      + pose proof (handle_congestion_control_network s p (store s n1))
          as Hn.
        now rewrite Eh in Hn.
      + unfold hop_entry. cbn [fst snd]. now rewrite Eh.
    - exists s, p. auto using same_network_refl. }
  destruct Hq as (s0 & p0 & -> & Hn & Hp0).
  assert (Hpos : path p0 = path p /\ current_index p0 = current_index p /\
                 packet_id p0 = packet_id p /\ completed p0 = completed p).
  { subst p0. destruct (py_eq _ _); [|auto].
    destruct (hop_entry_position p (s, store s n1)) as (A & B & _ & D).
    pose proof (hop_entry_packet_id fl time_at random_at p (s, store s n1)).
    auto. }
  destruct Hpos as (A & B & C & D).
  rewrite <- Hp0.
  match goal with
  | |- context [if ?c then _ else _] => destruct c
  end.
  - eexists _, _. split; [reflexivity|]. split; [reflexivity|].
    split.
    { eapply same_network_trans; [apply Hn|].
      apply record_packet_event_network. }
    split; [repeat split|].
    cbn. rewrite B. auto 10.
  - eexists _, _. split; [reflexivity|]. split; [reflexivity|].
    split; [apply Hn|]. split; [repeat split|].
    cbn. auto 10.
Qed.

(** The loop of one tick: it runs through, and every flow is advanced
    from a simulator with the network of the first one. *)
Lemma advance_packets_runs : forall todo s,
  exists s' out,
    advance_packets fl time_at random_at s todo = Some (s', out) /\
    same_network s s' /\
    Forall2 (fun p r =>
               r.2 = negb (in_transit p) /\
               exists s0 s1,
                 same_network s s0 /\
                 advance_packet fl time_at random_at s0 p =
                   Some (s1, r.1, r.2))
            todo out.
Proof.
  induction todo as [|p rest IH]; intros s.
  - exists s, []. cbn. auto using same_network_refl.
  - assert (Hp : exists s1 q,
               advance_packet fl time_at random_at s p =
                 Some (s1, q, negb (in_transit p)) /\
               same_network s s1).
    { destruct (in_transit p) eqn:Et.
      - destruct (advance_packet_in_transit s p Et)
          as (n1 & s1 & q & _ & Ha & Hn & _).
        eauto.
      - rewrite (advance_packet_arrived s p Et). eexists _, _.
        split; [reflexivity|]. apply record_packet_event_network. }
    destruct Hp as (s1 & q & Ha & Hn).
    destruct (IH s1) as (s' & out & Hrun & Hn' & Hall).
    exists s', ((q, negb (in_transit p)) :: out).
    cbn [advance_packets]. rewrite Ha. cbn [mbind option_bind].
    rewrite Hrun. cbn [mbind option_bind].
    split; [reflexivity|].
    split; [eapply same_network_trans; eassumption|].
    constructor.
    + cbn [fst snd]. split; [reflexivity|].
      exists s, s1. auto using same_network_refl.
    + eapply Forall2_impl; [apply Hall|].
      intros p' r (Hr & s0 & s2 & Hn0 & Ha0). split; [trivial|].
      exists s0, s2. split; [|trivial].
      eapply same_network_trans; eassumption.
Qed.

Lemma kept_all (out : list (Packet * bool)) :
  filter (fun r => r.2 = true) out = [] ->
  filter (fun r => r.2 = false) out = out.
Proof.
  induction out as [|[q b] out IH]; [reflexivity|].
  rewrite !filter_cons. cbn [snd]. destruct b.
  - destruct (decide (true = true)); [discriminate | congruence].
  - destruct (decide (false = true)); [discriminate|].
    destruct (decide (false = false)); [|congruence].
    intros H. now rewrite IH.
Qed.

(** One tick: the flows left on the list are the images of the flows
    that were in transit, in the same order. *)
Lemma draw_packets_runs s :
  exists s',
    draw_packets fl time_at random_at s = Some s' /\
    same_network s s' /\
    Forall2 (fun p q =>
               exists s0 s1,
                 same_network s s0 /\
                 advance_packet fl time_at random_at s0 p =
                   Some (s1, q, false))
            (filter (fun p => in_transit p = true) (packets s))
            (packets s').
Proof.
  destruct (advance_packets_runs (packets s) s)
    as (s1 & out & Hrun & Hn & Hall).
  assert (Hkept :
            Forall2 (fun p q =>
                       exists s0 s1,
                         same_network s s0 /\
                         advance_packet fl time_at random_at s0 p =
                           Some (s1, q, false))
                    (filter (fun p => in_transit p = true) (packets s))
                    ((filter (fun r => r.2 = false) out).*1)).
  { clear Hrun. induction Hall as [|p [q b] ps rs Hh Hall IH];
      [constructor|].
    rewrite !filter_cons. cbn [fst snd] in *.
    destruct Hh as (-> & s0 & s2 & Hn0 & Ha).
    destruct (in_transit p); cbn [negb] in *.
    - destruct (decide (true = true)); [|congruence].
      destruct (decide (false = false)); [|congruence].
      cbn [fmap list_fmap fst]. constructor; eauto.
    - destruct (decide (false = true)); [discriminate|].
      destruct (decide (true = false)); [discriminate|].
      apply IH. }
  unfold draw_packets. rewrite Hrun. cbn [mbind option_bind].
  destruct (filter (fun r => r.2 = true) out) eqn:Er.
  - eexists. split; [reflexivity|]. split.
    + destruct Hn as (A & B & C & D). repeat split; cbn; trivial.
    + cbn [packets set_packets]. rewrite <- (kept_all out Er) at 1.
      exact Hkept.
  - eexists. split; [reflexivity|]. split.
    + destruct Hn as (A & B & C & D). repeat split; cbn; trivial.
    + cbn [packets set_packets]. exact Hkept.
Qed.

(** X19: one tick of the flow-advancement driver never reads outside a
    route (it always returns), leaves the topology, the node objects and
    the id counter alone, removes exactly the flows standing at the last
    node of their route, and moves every other flow by at most one node,
    to a place that is still on its route; ids, routes and order stay. *)
Theorem tick_delivers_arrived_and_moves_the_rest s :
  exists s',
    draw_packets fl time_at random_at s = Some s' /\
    same_network s s' /\
    Forall2 (fun p q =>
               packet_id q = packet_id p /\ path q = path p /\
               (current_index p <= current_index q <= S (current_index p))%nat /\
               (current_index q < length (path q))%nat)
            (filter (fun p => in_transit p = true) (packets s))
            (packets s').
Proof.
  destruct (draw_packets_runs s) as (s' & Hrun & Hn & Hall).
  exists s'. split; [trivial|]. split; [trivial|].
  assert (Ht : Forall (fun p => in_transit p = true)
                 (filter (fun p => in_transit p = true) (packets s))).
  { apply Forall_forall. intros p Hp.
    now apply list_elem_of_filter in Hp as [Hp _]. }
  revert Ht. induction Hall as [|p q ps qs Hh Hall IH]; [constructor|].
  intros Ht. apply Forall_cons in Ht as [Hp Ht].
  constructor; [|now apply IH].
  destruct Hh as (s0 & s1 & _ & Ha).
  destruct (advance_packet_in_transit s0 p Hp)
    as (n1 & s2 & q' & Hl & Ha' & _ & _ & Hpath & Hid & _ & Hci).
  rewrite Ha in Ha'. injection Ha' as _ <-.
  unfold in_transit in Hp. apply negb_true_iff, Z.leb_gt in Hp.
  rewrite Hpath. repeat split; trivial; destruct Hci as [->|[-> _]]; lia.
Qed.

(** The simulator enters a hop-entry evaluation through the clock, which
    only dates the acknowledgment, and through its algorithm: two
    simulators with the same algorithm leave the same window, threshold,
    phase, duplicate counter, round-trip estimate and loss flags. *)
Lemma hop_entry_window_algorithm s s0 p n :
  congestion_algorithm s0 = congestion_algorithm s ->
  same_window (hop_entry fl time_at random_at p (s, n))
    (hop_entry fl time_at random_at p (s0, n)).
Proof.
  intros Halg. unfold hop_entry, handle_congestion_control.
  cbn [fst snd time_time]. cbn [congestion_algorithm set_clock].
  rewrite Halg.
  destruct (py_gt (congestion n) (PyInt 9));
    [cbn [snd]; apply same_window_refl|].
  destruct (py_gt (congestion n) (PyInt 7)).
  { destruct (3 <=? _); cbn [snd]; apply same_window_refl. }
  unfold update_cwnd. packet_fields.
  repeat (match goal with
          | |- context [if ?c then _ else _] => destruct c eqn:?
          end; packet_fields);
    try congruence; cbn [snd]; repeat split.
Qed.

Lemma same_window_trans p q r :
  same_window p q -> same_window q r -> same_window p r.
Proof.
  intros (A & B & C & D & E & F & G) (A' & B' & C' & D' & E' & F' & G').
  repeat split; congruence.
Qed.

(** X20: within a tick the congestion-control state of a flow changes
    only when the flow stands at the start of a hop, and then by exactly
    one hop-entry evaluation, under the algorithm of the simulator, at
    the node it is leaving, as that node is in the store; a flow in the
    middle of a hop keeps its window, threshold, phase, duplicate
    counter, round-trip estimate and loss flags. *)
Theorem tick_evaluates_congestion_at_hop_start_only s :
  exists s',
    draw_packets fl time_at random_at s = Some s' /\
    Forall2 (fun p q =>
               if hop_started p then
                 exists n,
                   path p !! current_index p = Some n /\
                   same_window
                     (hop_entry fl time_at random_at p (s, store s n)) q
               else same_window p q)
            (filter (fun p => in_transit p = true) (packets s))
            (packets s').
Proof.
  destruct (draw_packets_runs s) as (s' & Hrun & Hn & Hall).
  exists s'. split; [trivial|].
  assert (Ht : Forall (fun p => in_transit p = true)
                 (filter (fun p => in_transit p = true) (packets s))).
  { apply Forall_forall. intros p Hp.
    now apply list_elem_of_filter in Hp as [Hp _]. }
  revert Ht. induction Hall as [|p q ps qs Hh Hall IH]; [constructor|].
  intros Ht. apply Forall_cons in Ht as [Hp Ht].
  constructor; [|now apply IH].
  destruct Hh as (s0 & s1 & Hn0 & Ha).
  destruct (advance_packet_in_transit s0 p Hp)
    as (n1 & s2 & q' & Hl & Ha' & _ & Hw & _).
  rewrite Ha in Ha'. injection Ha' as _ <-.
  destruct (hop_started p); [|exact Hw].
  exists n1. split; [trivial|].
  destruct Hn0 as (_ & Hstore & _ & Halg).
  rewrite Hstore in Hw.
  eapply same_window_trans; [|exact Hw].
  now apply hop_entry_window_algorithm.
Qed.

End ClockFacts.

Section ClockFloors.

Variable fl : Q -> Q.
Variables time_at random_at : nat -> Q.
Hypothesis fl_mono : forall x y, (x <= y)%Q -> (fl x <= fl y)%Q.
Hypothesis fl_zero : (0 <= fl 0)%Q.
Hypothesis fl_one : (1 <= fl 1)%Q.

(** X21: the window floors and the phase vocabulary are invariants of
    the simulation clock: when every active flow has a window of at
    least 1, a threshold of at least 2 and one of the three phases
    before a tick, so has every flow that is active after it. *)
Theorem tick_keeps_floors_and_phases s s' :
  Forall (fun p => window_floors p /\ stable_phase (phase p)) (packets s) ->
  draw_packets fl time_at random_at s = Some s' ->
  Forall (fun q => window_floors q /\ stable_phase (phase q)) (packets s').
Proof.
  intros Hf Hrun.
  destruct (draw_packets_runs fl time_at random_at s)
    as (s2 & Hrun' & _ & Hall).
  rewrite Hrun in Hrun'. injection Hrun' as <-.
  assert (Ht : Forall (fun p => in_transit p = true /\
                                window_floors p /\ stable_phase (phase p))
                 (filter (fun p => in_transit p = true) (packets s))).
  { apply Forall_forall. intros p Hp.
    apply list_elem_of_filter in Hp as [Hp Hin]. split; [trivial|].
    rewrite Forall_forall in Hf. auto. }
  clear Hf Hrun. revert Ht.
  induction Hall as [|p q ps qs Hh Hall IH]; [constructor|].
  intros Ht. apply Forall_cons in Ht as [(Hp & Hw & Hph) Ht].
  constructor; [|now apply IH].
  destruct Hh as (s0 & s1 & _ & Ha).
  destruct (advance_packet_in_transit fl time_at random_at s0 p Hp)
    as (n1 & s3 & q' & _ & Ha' & _ & Hsw & _).
  rewrite Ha in Ha'. injection Ha' as _ <-.
  destruct Hsw as (Hc & Hs & Hphase & _).
  unfold window_floors. rewrite Hc, Hs, Hphase.
  destruct (hop_started p); [|auto].
  split.
  - apply (hop_entry_floors fl time_at random_at fl_mono fl_zero fl_one);
      trivial.
  - now apply hop_entry_stable_phase.
Qed.

End ClockFloors.

(** ** The phase counts of the status bar *)

Lemma flows_in_phase_cons ph p l :
  flows_in_phase ph (p :: l) =
    (if decide (phase p = ph) then 1 else 0) + flows_in_phase ph l.
Proof.
  unfold flows_in_phase. rewrite filter_cons.
  destruct (decide (phase p = ph)); cbn [length]; lia.
Qed.

Lemma count_phases_lookup ph : forall l (counts : gmap string Z),
  fold_left
    (fun counts p =>
       match counts !! phase p with
       | Some c => <[phase p := c + 1]> counts
       | None => counts
       end) l counts !! ph =
  (fun c => c + flows_in_phase ph l) <$> counts !! ph.
Proof.
  induction l as [|p l IH]; intros counts.
  - cbn [fold_left]. unfold flows_in_phase. cbn.
    destruct (counts !! ph); cbn; [f_equal; lia | reflexivity].
  - cbn [fold_left]. rewrite IH, flows_in_phase_cons.
    destruct (decide (phase p = ph)) as [-> | Hne].
    + destruct (counts !! ph) eqn:E; [|now rewrite E].
      rewrite lookup_insert_eq. cbn. f_equal. lia.
    + assert (Hl : (match counts !! phase p with
                    | Some c => <[phase p := c + 1]> counts
                    | None => counts
                    end) !! ph = counts !! ph).
      { destruct (counts !! phase p); [|reflexivity].
        now apply lookup_insert_ne. }
      rewrite Hl. destruct (counts !! ph); cbn; [f_equal; lia | reflexivity].
Qed.

(** X22: the phase counts have exactly the four keys [slow_start],
    [congestion_avoidance], [fast_retransmit] and [fast_recovery], and
    each key counts the active flows that are in that phase; a flow in
    any other phase is counted nowhere. *)
Theorem phase_counts_count_the_flows s ph :
  get_phase_counts s !! ph =
    if decide (ph ∈ phase_names)
    then Some (flows_in_phase ph (packets s))
    else None.
Proof.
  unfold get_phase_counts. rewrite count_phases_lookup.
  unfold phase_names.
  destruct (decide (ph = "fast_recovery")) as [-> | H1].
  { rewrite lookup_insert_eq. cbn. reflexivity. }
  rewrite lookup_insert_ne by congruence.
  destruct (decide (ph = "fast_retransmit")) as [-> | H2].
  { rewrite lookup_insert_eq. cbn. reflexivity. }
  rewrite lookup_insert_ne by congruence.
  destruct (decide (ph = "congestion_avoidance")) as [-> | H3].
  { rewrite lookup_insert_eq. cbn. reflexivity. }
  rewrite lookup_insert_ne by congruence.
  destruct (decide (ph = "slow_start")) as [-> | H4].
  { rewrite lookup_insert_eq. cbn. reflexivity. }
  rewrite lookup_insert_ne by congruence.
  rewrite lookup_empty. cbn.
  destruct (decide _) as [Hin|]; [|reflexivity].
  exfalso. rewrite !elem_of_cons in Hin. rewrite elem_of_nil in Hin.
  tauto.
Qed.

Lemma stable_flows_partition l :
  Forall (fun p => stable_phase (phase p)) l ->
  flows_in_phase "fast_retransmit" l = 0 /\
  flows_in_phase "slow_start" l + flows_in_phase "congestion_avoidance" l +
  flows_in_phase "fast_recovery" l = Z.of_nat (length l).
Proof.
  induction 1 as [|p l Hp _ [IH0 IH]]; [split; reflexivity|].
  rewrite !flows_in_phase_cons, IH0. cbn [length].
  destruct Hp as [-> | [-> | ->]];
    repeat match goal with
           | |- context [decide ?P] =>
               destruct (decide P); try discriminate; try congruence
           end; split; lia.
Qed.

(** X23: when every active flow is in one of the three phases the hop
    entries keep a flow in, the status bar accounts for every flow: the
    counts of [slow_start], [congestion_avoidance] and [fast_recovery]
    add up to the number of active flows, and the count shown for
    [fast_retransmit] is 0. *)
Theorem phase_counts_account_for_every_flow s :
  Forall (fun p => stable_phase (phase p)) (packets s) ->
  exists ss ca fr,
    get_phase_counts s !! "slow_start" = Some ss /\
    get_phase_counts s !! "congestion_avoidance" = Some ca /\
    get_phase_counts s !! "fast_recovery" = Some fr /\
    get_phase_counts s !! "fast_retransmit" = Some 0 /\
    ss + ca + fr = Z.of_nat (length (packets s)).
Proof.
  intros Hs. destruct (stable_flows_partition _ Hs) as [H0 Hsum].
  unfold get_phase_counts. rewrite !count_phases_lookup.
  rewrite H0.
  exists (flows_in_phase "slow_start" (packets s)),
         (flows_in_phase "congestion_avoidance" (packets s)),
         (flows_in_phase "fast_recovery" (packets s)).
  repeat split; trivial.
Qed.

(** ** Editing the topology *)

Lemma append_connection_links a b objects x :
  connections (append_connection a b objects x) =
    if decide (x = a) then connections (objects x) ++ [b]
    else connections (objects x).
Proof. unfold append_connection. now destruct (decide (x = a)). Qed.

Lemma append_connection_attributes a b objects :
  same_attributes objects (append_connection a b objects).
Proof.
  intros n. unfold append_connection.
  destruct (decide (n = a)); cbn; auto.
Qed.

(** Linking [a] and [b]: the two lists gain one entry each. *)
Lemma connect_links a b objects x y :
  a <> b ->
  y ∈ connections
        (append_connection b a (append_connection a b objects) x) <->
  y ∈ connections (objects x) \/ (x = a /\ y = b) \/ (x = b /\ y = a).
Proof.
  intros Hab. rewrite !append_connection_links.
  destruct (decide (x = b)) as [-> | Hxb].
  - destruct (decide (b = a)); [congruence|].
    rewrite elem_of_app, list_elem_of_singleton. intuition congruence.
  - destruct (decide (x = a)) as [-> | Hxa].
    + rewrite elem_of_app, list_elem_of_singleton. intuition congruence.
    + intuition congruence.
Qed.

Lemma simple_links_symmetric objects drawn a b :
  simple_links objects drawn ->
  b ∈ connections (objects a) -> a ∈ connections (objects b).
Proof.
  intros H Hb. apply (links_drawn _ _ H). apply (links_drawn _ _ H) in Hb.
  tauto.
Qed.

Lemma connect_simple_links a b objects drawn :
  a <> b -> b ∉ connections (objects a) ->
  simple_links objects drawn ->
  simple_links (append_connection b a (append_connection a b objects))
    (drawn ++ [(a, b)]).
Proof.
  intros Hab Hnew H.
  assert (Hnew' : a ∉ connections (objects b)).
  { intros Hin. apply Hnew. eapply simple_links_symmetric; eassumption. }
  assert (Hd1 : (a, b) ∉ drawn).
  { intros Hin. apply Hnew. apply (links_drawn _ _ H). now left. }
  assert (Hd2 : (b, a) ∉ drawn).
  { intros Hin. apply Hnew. apply (links_drawn _ _ H). now right. }
  split.
  - intros x Hx. apply connect_links in Hx; [|trivial].
    destruct Hx as [Hx | [[-> ->] | [-> ->]]]; try congruence.
    now apply (links_irreflexive _ _ H) in Hx.
  - intros x. rewrite !append_connection_links.
    pose proof (links_once _ _ H x) as Hx.
    destruct (decide (x = b)) as [-> | Hxb].
    + destruct (decide (b = a)); [congruence|].
      apply NoDup_app. split; [trivial|]. split; [|apply NoDup_singleton].
      intros y Hy Hy'. apply list_elem_of_singleton in Hy'. congruence.
    + destruct (decide (x = a)) as [-> | Hxa]; [|trivial].
      apply NoDup_app. split; [trivial|]. split; [|apply NoDup_singleton].
      intros y Hy Hy'. apply list_elem_of_singleton in Hy'. congruence.
  - intros x y. rewrite connect_links by trivial.
    rewrite !elem_of_app, !list_elem_of_singleton.
    rewrite (links_drawn _ _ H x y).
    split.
    + intros [[Hd | Hd] | [[-> ->] | [-> ->]]]; auto.
    + intros [[Hd | Hd] | [Hd | Hd]]; auto.
      * injection Hd as -> ->. auto.
      * injection Hd as -> ->. auto.
  - apply NoDup_app. split; [apply (drawn_once _ _ H)|].
    split; [|apply NoDup_singleton].
    intros y Hy Hy'. apply list_elem_of_singleton in Hy'. congruence.
  - intros x y. rewrite !elem_of_app, !list_elem_of_singleton.
    intros [Hd | Hd] [Hd' | Hd'].
    + now apply (drawn_one_way _ _ H x y).
    + injection Hd' as -> ->. auto.
    + injection Hd as -> ->. auto.
    + injection Hd as -> ->. injection Hd' as ->. congruence.
Qed.

(** X24: a click never spoils the topology.  If the links form a simple
    undirected graph that is drawn link by link (no self-link, no
    neighbour listed twice, linked exactly when drawn, no pair drawn
    twice or in both orders), they still do after any click, whatever
    the editing state; no link is ever removed and the other attributes
    of the nodes are not written. *)
Theorem click_keeps_links_simple clicked_node c objects :
  simple_links objects (canvas_connections c) ->
  let c' := (on_canvas_click clicked_node c objects).1 in
  let objects' := (on_canvas_click clicked_node c objects).2 in
  simple_links objects' (canvas_connections c') /\
  same_attributes objects objects' /\
  forall a b, b ∈ connections (objects a) -> b ∈ connections (objects' a).
Proof.
  intros H. cbn zeta.
  assert (Hsame : same_attributes objects objects)
    by (intros n; auto).
  unfold on_canvas_click.
  destruct clicked_node as [clicked|]; [|cbn; auto].
  destruct (connection_mode c); [|cbn; auto].
  destruct (selected_node c) as [selected|]; [|cbn; auto].
  destruct (decide (selected <> clicked)) as [Hne|]; [|cbn; auto].
  destruct (decide (clicked ∉ connections (objects selected)))
    as [Hnew|]; [|cbn; auto].
  cbn [fst snd canvas_connections set_selected_node
       set_canvas_connections].
  split; [now apply connect_simple_links|]. split.
  - intros n.
    destruct (append_connection_attributes selected clicked objects n)
      as (A & B & C & D & E).
    destruct (append_connection_attributes clicked selected
                (append_connection selected clicked objects) n)
      as (A' & B' & C' & D' & E').
    repeat split; congruence.
  - intros a b Hb. apply connect_links; auto.
Qed.

(** X25: in connection mode, clicking a second node that differs from
    the selected one links the two in both directions, whether or not
    they were linked before, and clears the selection; no other pair of
    nodes becomes linked.  Clicking the selected node again changes
    nothing. *)
Theorem second_click_links_both_ways a b c objects :
  simple_links objects (canvas_connections c) ->
  connection_mode c = true -> selected_node c = Some a ->
  let c' := (on_canvas_click (Some b) c objects).1 in
  let objects' := (on_canvas_click (Some b) c objects).2 in
  (a = b -> c' = c /\ objects' = objects) /\
  (a <> b ->
   selected_node c' = None /\
   b ∈ connections (objects' a) /\ a ∈ connections (objects' b) /\
   forall x y, y ∈ connections (objects' x) ->
     y ∈ connections (objects x) \/ (x = a /\ y = b) \/ (x = b /\ y = a)).
Proof.
  intros H Hmode Hsel. cbn zeta. unfold on_canvas_click.
  rewrite Hmode, Hsel.
  destruct (decide (a <> b)) as [Hne | Heq].
  - split; [congruence|]. intros _.
    destruct (decide (b ∉ connections (objects a))) as [Hnew | Hold];
      cbn [fst snd selected_node set_selected_node].
    + split; [reflexivity|].
      split; [apply connect_links; auto|].
      split; [apply connect_links; auto|].
      intros x y Hy. now apply connect_links in Hy.
    + assert (Hb : b ∈ connections (objects a)).
      { destruct (decide (b ∈ connections (objects a))); tauto. }
      split; [reflexivity|]. split; [trivial|].
      split; [eapply simple_links_symmetric; eassumption | auto].
  - split; [auto | tauto].
Qed.

(** ** The traffic generator *)

Section GeneratorFacts.

Variable fl : Q -> Q.
Variables time_at random_at : nat -> Q.
Variable randint_at : nat -> Z.
Variable set_order : list node -> list node.
Variable choice_at : nat -> nat.

(** [random.choice] returns an element of a sequence that is not empty
    and takes one reading from the generator. *)
Lemma random_choice_picks {A} (seq : list A) s :
  seq <> [] ->
  exists x, x ∈ seq /\
    random_choice choice_at seq s = Some (x, set_rng (S (rng s)) s).
Proof.
  intros Hne. unfold random_choice.
  destruct (lookup_lt_is_Some_2 seq
              (choice_at (rng s) `mod` length seq)%nat) as [x Hx].
  { apply Nat.mod_upper_bound. destruct seq; [congruence | cbn; lia]. }
  exists x. rewrite Hx. split; [|reflexivity].
  eapply list_elem_of_lookup_2. exact Hx.
Qed.

(** Among two or more different nodes there is one other than [a]. *)
Lemma another_node (l : list node) a :
  (1 < length l)%nat -> NoDup l -> filter (fun n => n <> a) l <> [].
Proof.
  intros Hlen Hnd.
  destruct l as [|x [|y l]]; cbn in Hlen; [lia | lia |].
  assert (Hxy : x <> y).
  { apply NoDup_cons in Hnd as [Hx _]. intros ->. apply Hx. now left. }
  assert (Hin : exists n, n ∈ filter (fun n => n <> a) (x :: y :: l)).
  { destruct (decide (x = a)) as [-> | Hxa].
    - exists y. apply list_elem_of_filter. split; [congruence|].
      right. now left.
    - exists x. apply list_elem_of_filter. split; [trivial | now left]. }
  destruct Hin as [n Hn]. intros Hnil. rewrite Hnil in Hn.
  now apply elem_of_nil in Hn.
Qed.

(** A random request between two nodes of the topology returns. *)
Lemma spawn_random_returns s a b :
  (forall x, x ∈ set_order (nodes s) <-> x ∈ nodes s) ->
  a ∈ nodes s -> b ∈ nodes s ->
  exists r s',
    spawn_packet fl time_at random_at randint_at set_order s a b false
      = Ok (r, s').
Proof.
  intros Hord Ha Hb. unfold spawn_packet.
  destruct (dijkstra_shortest_path_decides set_order s Hord a b Ha Hb)
    as [[Hrun _] | (fw & c & Hrun & Hh & _)]; rewrite Hrun; run_bind;
    cbv beta iota.
  - eexists _, _. reflexivity.
  - destruct fw as [|x fw]; [discriminate|].
    cbn [random_random]. simulator_fields.
    destruct (py_lt _ _); [eexists _, _; reflexivity|].
    destruct (new_packet _ _ _ _ _ _ _) as [packet s2].
    eexists _, _. reflexivity.
Qed.

(** X27: the traffic generator.  Over a topology of different nodes it
    always returns: it reschedules itself exactly while the simulation
    runs with two or more nodes and otherwise changes nothing; it adds at
    most one flow, only below the cap [max_packets], so that it never
    takes the number of active flows above the larger of the cap and the
    number before; and a flow it adds runs between two different nodes
    of the topology. *)
Theorem generator_respects_the_flow_cap max_packets s :
  (forall x, x ∈ set_order (nodes s) <-> x ∈ nodes s) ->
  NoDup (nodes s) ->
  exists again s',
    start_packet_generation fl time_at random_at randint_at set_order
      choice_at max_packets s = Some (Ok (again, s')) /\
    again = simulation_running s && (1 <? length (nodes s))%nat /\
    (again = false -> s' = s) /\
    nodes s' = nodes s /\
    Z.of_nat (length (packets s'))
      <= Z.max (Z.of_nat (length (packets s))) max_packets /\
    (packets s' = packets s \/
     exists p, packets s' = packets s ++ [p] /\
               Z.of_nat (length (packets s)) < max_packets /\
               source p ∈ nodes s /\ destination p ∈ nodes s /\
               source p <> destination p).
Proof.
  intros Hord Hnd. unfold start_packet_generation.
  destruct (simulation_running s && (1 <? length (nodes s))%nat) eqn:Erun.
  2: { exists false, s. repeat split; auto; lia. }
  apply andb_true_iff in Erun as [_ Hlen]. apply Nat.ltb_lt in Hlen.
  destruct (Z.of_nat (length (packets s)) <? max_packets) eqn:Ecap.
  2: { exists true, s. repeat split; auto; try discriminate; lia. }
  apply Z.ltb_lt in Ecap.
  destruct (random_choice_picks (nodes s) s) as (a & Ha & ->).
  { intros Hnil. rewrite Hnil in Hlen. cbn in Hlen. lia. }
  cbn [mbind option_bind]. simulator_fields.
  destruct (random_choice_picks (filter (fun n => n <> a) (nodes s))
              (set_rng (S (rng s)) s)) as (b & Hb & ->).
  { now apply another_node. }
  cbn [mbind option_bind].
  apply list_elem_of_filter in Hb as [Hba Hb].
  set (s2 := set_rng (S (rng (set_rng (S (rng s)) s)))
               (set_rng (S (rng s)) s)).
  destruct (spawn_random_returns s2 a b Hord Ha Hb) as (r & s' & Hrun).
  rewrite Hrun. run_bind. cbn [snd].
  exists true, s'. split; [reflexivity|]. split; [reflexivity|].
  split; [discriminate|].
  destruct (spawn_packet_outcome fl time_at random_at randint_at set_order
              s2 a b false r s' Hrun)
    as (Hn & [(_ & Hp & _) | (_ & p & Hp & Hsrc & Hdst & _)]).
  - split; [exact Hn|]. rewrite Hp. cbn. split; [lia | now left].
  - split; [exact Hn|]. rewrite Hp. cbn [s2 packets set_rng].
    rewrite length_app. cbn [length]. split; [lia|].
    right. exists p. rewrite Hsrc, Hdst. auto 10.
Qed.

End GeneratorFacts.

(** ** Performance tracking *)

Lemma snoc_lookup_newest {A} (l : list A) x :
  (l ++ [x]) !! (length (l ++ [x]) - 1)%nat = Some x.
Proof.
  rewrite length_app. cbn [length].
  replace (length l + 1 - 1)%nat with (length l) by lia.
  apply list_lookup_middle. reflexivity.
Qed.

Lemma snoc_lookup_before {A} (l : list A) x :
  (1 <? length (l ++ [x]))%nat = true ->
  (l ++ [x]) !! (length (l ++ [x]) - 2)%nat = last l.
Proof.
  rewrite length_app. cbn [length]. intros Hlen. apply Nat.ltb_lt in Hlen.
  rewrite lookup_app_l by lia. rewrite last_lookup. f_equal. lia.
Qed.

Lemma pop_first_snoc {A} (l : list A) x :
  pop_first (l ++ [x]) = Some (drop 1 (l ++ [x])).
Proof. now destruct l. Qed.

Section MetricsFacts.

Variable fl : Q -> Q.
Variable time_at : nat -> Q.

(** The exceptions apart, [track_performance] appends one entry to each
    history and then drops the oldest entries of the histories that
    have outgrown their caps. *)
Lemma track_performance_steps s m latency hops :
  let current_time :=
    py_sub fl (PyFloat (time_at (clock s)))
      (PyFloat (performance_start_time s)) in
  let over := (50 <? length (time_stamps m ++ [current_time]))%nat in
  let routes :=
    path_history m ++
    [{| ph_hops := hops - 1; ph_latency := latency;
        ph_time := py_sub fl (PyFloat (time_at (S (clock s))))
                     (PyFloat (performance_start_time s)) |}] in
  track_performance fl time_at s m latency hops =
    throughput ←
      match last (time_stamps m) with
      | None => Some (PyInt 0)
      | Some before =>
          if py_gt (py_sub fl current_time before) (PyInt 0) then
            checked_truediv fl (PyInt (1500 * 8))
              (py_mul fl (py_sub fl current_time before) (PyInt 1000000))
          else
            Some (match last (throughput_history m) with
                  | Some recent => recent
                  | None => PyInt 0
                  end)
      end;
    average ←
      checked_truediv fl
        (py_add fl
           (py_mul fl (avg_hop_count m) (PyInt (total_packets m + 1 - 1)))
           (PyInt (hops - 1)))
        (PyInt (total_packets m + 1));
    Some (set_clock (S (S (clock s))) (set_clock (S (clock s)) s),
          {| time_stamps :=
               if over then drop 1 (time_stamps m ++ [current_time])
               else time_stamps m ++ [current_time];
             latency_history :=
               if over then drop 1 (latency_history m ++ [latency])
               else latency_history m ++ [latency];
             throughput_history :=
               if over then drop 1 (throughput_history m ++ [throughput])
               else throughput_history m ++ [throughput];
             total_packets := total_packets m + 1;
             avg_hop_count := average;
             min_hops :=
               if dist_lt (Dist (hops - 1)) (min_hops m)
               then Dist (hops - 1) else min_hops m;
             max_hops :=
               if max_hops m <? hops - 1 then hops - 1 else max_hops m;
             path_history :=
               if (100 <? length routes)%nat then drop 1 routes
               else routes |}).
Proof.
  cbn zeta. unfold track_performance. cbn [time_time].
  cbn [performance_start_time set_clock clock].
  set (current_time := py_sub fl (PyFloat (time_at (clock s)))
                         (PyFloat (performance_start_time s))).
  assert (Hthr :
    (if (1 <? length (time_stamps m ++ [current_time]))%nat then
       newest ← (time_stamps m ++ [current_time])
                  !! (length (time_stamps m ++ [current_time]) - 1)%nat;
       before ← (time_stamps m ++ [current_time])
                  !! (length (time_stamps m ++ [current_time]) - 2)%nat;
       if py_gt (py_sub fl newest before) (PyInt 0) then
         checked_truediv fl (PyInt (1500 * 8))
           (py_mul fl (py_sub fl newest before) (PyInt 1000000))
       else
         Some (match last (throughput_history m) with
               | Some recent => recent
               | None => PyInt 0
               end)
     else Some (PyInt 0)) =
    match last (time_stamps m) with
    | None => Some (PyInt 0)
    | Some before =>
        if py_gt (py_sub fl current_time before) (PyInt 0) then
          checked_truediv fl (PyInt (1500 * 8))
            (py_mul fl (py_sub fl current_time before) (PyInt 1000000))
        else
          Some (match last (throughput_history m) with
                | Some recent => recent
                | None => PyInt 0
                end)
    end).
  { destruct (1 <? _)%nat eqn:Elen.
    - rewrite snoc_lookup_newest, (snoc_lookup_before _ _ Elen).
      cbn [mbind option_bind].
      destruct (last (time_stamps m)) eqn:El; [reflexivity|].
      apply last_None in El. rewrite El in Elen. discriminate.
    - destruct (time_stamps m) as [|t ts] eqn:Ets; [reflexivity|].
      rewrite length_app in Elen. cbn [length] in Elen.
      apply Nat.ltb_ge in Elen. lia. }
  rewrite Hthr. clear Hthr.
  destruct (last (time_stamps m)) as [before|].
  - destruct (py_gt _ _).
    + destruct (checked_truediv fl (PyInt (1500 * 8)) _) as [throughput|];
        [|reflexivity].
      cbn [mbind option_bind].
      destruct (checked_truediv fl _ (PyInt (total_packets m + 1)))
        as [average|]; [|reflexivity].
      cbn [mbind option_bind]. rewrite !pop_first_snoc.
      destruct (100 <? _)%nat; cbn [mbind option_bind];
        destruct (50 <? _)%nat; reflexivity.
    + cbn [mbind option_bind].
      destruct (checked_truediv fl _ (PyInt (total_packets m + 1)))
        as [average|]; [|reflexivity].
      cbn [mbind option_bind]. rewrite !pop_first_snoc.
      destruct (100 <? _)%nat; cbn [mbind option_bind];
        destruct (50 <? _)%nat; reflexivity.
  - cbn [mbind option_bind].
    destruct (checked_truediv fl _ (PyInt (total_packets m + 1)))
      as [average|]; [|reflexivity].
    cbn [mbind option_bind]. rewrite !pop_first_snoc.
    destruct (100 <? _)%nat; cbn [mbind option_bind];
      destruct (50 <? _)%nat; reflexivity.
Qed.

Lemma py_eq_int_zero z : py_eq (PyInt z) (PyInt 0) = true <-> z = 0.
Proof.
  unfold py_eq. cbn [value]. rewrite Qeq_bool_iff.
  split; [|now intros ->].
  intros H. apply (inject_Z_injective z 0). exact H.
Qed.

(** X28: [track_performance] raises in two cases only, both divisions by
    zero: when the packet count stands at -1, and when the time since
    the newest time stamp is positive but so small that its product
    with 1000000 is rounded to zero; no history is ever popped while
    empty. *)
Theorem track_performance_raises_only_on_zero_division s m latency hops :
  track_performance fl time_at s m latency hops = None <->
  total_packets m + 1 = 0 \/
  exists d, since_last_stamp fl time_at s m = Some d /\
            py_gt d (PyInt 0) = true /\
            py_eq (py_mul fl d (PyInt 1000000)) (PyInt 0) = true.
Proof.
  rewrite track_performance_steps. unfold since_last_stamp.
  assert (Hnone : forall a,
             checked_truediv fl a (PyInt (total_packets m + 1)) = None ->
             total_packets m + 1 = 0).
  { intros a. unfold checked_truediv. rewrite <- py_eq_int_zero.
    destruct (py_eq _ _); congruence. }
  assert (Hsome : forall a average,
             checked_truediv fl a (PyInt (total_packets m + 1))
               = Some average ->
             total_packets m + 1 <> 0).
  { intros a average. unfold checked_truediv. rewrite <- py_eq_int_zero.
    destruct (py_eq _ _); congruence. }
  destruct (last (time_stamps m)) as [before|]; cbn [mbind option_bind].
  - destruct (py_gt _ _) eqn:Egt.
    + destruct (checked_truediv fl (PyInt (1500 * 8)) _)
        as [throughput|] eqn:Ethr; cbn [mbind option_bind].
      * destruct (checked_truediv fl _ (PyInt (total_packets m + 1)))
          as [average|] eqn:Ediv; cbn [mbind option_bind].
        -- split; [discriminate|].
           intros [Hz | (d & Hsd & _ & Hd)]; [now apply Hsome in Ediv|].
           unfold checked_truediv in Ethr.
           destruct (py_eq _ _) eqn:Ezero; [discriminate | congruence].
        -- split; [intros _|reflexivity]. left. now apply Hnone in Ediv.
      * split; [intros _|reflexivity]. right.
        eexists. split; [reflexivity|]. split; [exact Egt|].
        unfold checked_truediv in Ethr.
        destruct (py_eq _ _); [reflexivity | discriminate].
    + destruct (checked_truediv fl _ (PyInt (total_packets m + 1)))
        as [average|] eqn:Ediv; cbn [mbind option_bind].
      * split; [discriminate|].
        intros [Hz | (d & Hsd & Hd & _)]; [|congruence].
        now apply Hsome in Ediv.
      * split; [intros _|reflexivity]. left. now apply Hnone in Ediv.
  - destruct (checked_truediv fl _ (PyInt (total_packets m + 1)))
      as [average|] eqn:Ediv; cbn [mbind option_bind].
    + split; [discriminate|].
      intros [Hz | (d & Hd & _)]; [|discriminate].
      now apply Hsome in Ediv.
    + split; [intros _|reflexivity]. left. now apply Hnone in Ediv.
Qed.

Lemma capped_length {A} (over : bool) (l : list A) x n :
  over = (n <? length (l ++ [x]))%nat -> (length l <= n)%nat ->
  length (if over then drop 1 (l ++ [x]) else l ++ [x])
  = (if over then length l else S (length l)) /\
  (length (if over then drop 1 (l ++ [x]) else l ++ [x]) <= n)%nat.
Proof.
  intros -> Hn. rewrite length_app. cbn [length].
  destruct (n <? _)%nat eqn:E.
  - rewrite length_drop, length_app. cbn [length]. lia.
  - apply Nat.ltb_ge in E. rewrite length_app. cbn [length]. lia.
Qed.

Lemma capped_last {A} (over : bool) (l : list A) x :
  (over = true -> l <> []) ->
  last (if over then drop 1 (l ++ [x]) else l ++ [x]) = Some x.
Proof.
  intros Hne. destruct over; [|apply last_snoc].
  destruct l as [|y l]; [now destruct Hne|].
  cbn [app drop]. apply last_snoc.
Qed.

(** X29: a call of [track_performance] that returns keeps the three
    histories behind the graphs aligned and within 50 entries and the
    path history within 100, counts one more packet, leaves the newest
    latency last in its history, brackets the hop count of the request
    between [min_hops] and [max_hops] without ever raising the first or
    lowering the second, and reads the clock twice. *)
Theorem track_performance_keeps_histories_bounded s m latency hops s' m' :
  histories_bounded m ->
  track_performance fl time_at s m latency hops = Some (s', m') ->
  histories_bounded m' /\
  total_packets m' = total_packets m + 1 /\
  last (latency_history m') = Some latency /\
  dist_le (min_hops m') (Dist (hops - 1)) /\ hops - 1 <= max_hops m' /\
  dist_le (min_hops m') (min_hops m) /\ max_hops m <= max_hops m' /\
  clock s' = S (S (clock s)).
Proof.
  intros (Hlat & Hthr & Hcap & Hroutes).
  rewrite track_performance_steps.
  destruct (match last (time_stamps m) with
            | Some _ => _
            | None => _
            end) as [throughput|]; [|discriminate].
  cbn [mbind option_bind].
  destruct (checked_truediv fl _ (PyInt (total_packets m + 1)))
    as [average|]; [|discriminate].
  cbn [mbind option_bind].
  set (current_time := py_sub fl (PyFloat (time_at (clock s)))
                         (PyFloat (performance_start_time s))).
  set (over := (50 <? length (time_stamps m ++ [current_time]))%nat).
  set (route := {| ph_hops := hops - 1; ph_latency := latency;
                   ph_time := py_sub fl (PyFloat (time_at (S (clock s))))
                                (PyFloat (performance_start_time s)) |}).
  set (least := if dist_lt (Dist (hops - 1)) (min_hops m)
                then Dist (hops - 1) else min_hops m).
  intros [= <- <-].
  assert (Hover : over = true -> (0 < length (time_stamps m))%nat).
  { subst over. rewrite length_app. cbn [length]. intros H.
    apply Nat.ltb_lt in H. lia. }
  assert (Eover : forall {A} (l : list A) x,
             length l = length (time_stamps m) ->
             over = (50 <? length (l ++ [x]))%nat).
  { intros A l x Hl. subst over. rewrite !length_app, Hl. reflexivity. }
  destruct (capped_length over (time_stamps m) current_time 50
              (Eover _ _ _ eq_refl) Hcap) as [Ht Ht'].
  destruct (capped_length over (latency_history m) latency 50
              (Eover _ _ _ Hlat) ltac:(lia)) as [Hl Hl'].
  destruct (capped_length over (throughput_history m) throughput 50
              (Eover _ _ _ Hthr) ltac:(lia)) as [Hp Hp'].
  unfold histories_bounded.
  cbn [time_stamps latency_history throughput_history total_packets
       min_hops max_hops path_history clock set_clock].
  repeat split.
  - rewrite Hl, Ht, Hlat. reflexivity.
  - rewrite Hp, Ht, Hthr. reflexivity.
  - exact Ht'.
  - match goal with
    | |- context [(100 <? length (?l ++ [?x]))%nat] =>
        destruct (capped_length (100 <? length (l ++ [x]))%nat l x 100
                    eq_refl Hroutes) as [_ Hr]
    end.
    exact Hr.
  - apply capped_last. intros Ho Hnil. apply Hover in Ho.
    apply (f_equal length) in Hnil. cbn in Hnil. lia.
  - unfold dist_le. subst least.
    destruct (min_hops m) as [y|]; cbn [dist_lt].
    + destruct (hops - 1 <? y) eqn:E; cbn [dist_lt].
      * apply Z.ltb_irrefl.
      * apply Z.ltb_ge. apply Z.ltb_ge in E. lia.
    + cbn. apply Z.ltb_irrefl.
  - destruct (max_hops m <? hops - 1) eqn:E; [lia|].
    apply Z.ltb_ge in E. lia.
  - unfold dist_le. subst least.
    destruct (min_hops m) as [y|]; cbn [dist_lt].
    + destruct (hops - 1 <? y) eqn:E; cbn [dist_lt].
      * apply Z.ltb_ge. apply Z.ltb_lt in E. lia.
      * apply Z.ltb_irrefl.
    + reflexivity.
  - destruct (max_hops m <? hops - 1) eqn:E; [|lia].
    apply Z.ltb_lt in E. lia.
Qed.

End MetricsFacts.

(** ** Concrete runs of the further properties *)

Lemma phase_stays_stable_witness :
  let e := (sample_simulator "reno", sample_node 10 (PyInt 8)) in
  let q := hop_entries exact still still sample_packet [e; e; e] in
  stable_phase (phase sample_packet) /\
  stable_phase (phase q) /\ phase q <> "fast_retransmit".
Proof.
  intros e q.
  assert (H : stable_phase (phase sample_packet)) by (left; reflexivity).
  split; [exact H|].
  exact (phase_stays_stable exact still still sample_packet [e; e; e] H).
Defined.

Lemma dup_ack_count_stays_below_three_witness :
  let e := (sample_simulator "reno", sample_node 10 (PyInt 8)) in
  0 <= dup_ack_count sample_packet < 3 /\
  0 <= dup_ack_count
         (hop_entries exact still still sample_packet [e; e; e; e]) < 3.
Proof.
  intros e.
  assert (H : 0 <= dup_ack_count sample_packet < 3) by (cbn; lia).
  split; [exact H|].
  exact (dup_ack_count_stays_below_three exact still still sample_packet
           [e; e; e; e] H).
Defined.

Lemma slow_start_window_below_threshold_witness :
  let e := (sample_simulator "reno", sample_node 10 (PyInt 0)) in
  let q := hop_entries exact still still sample_packet [e; e] in
  (phase sample_packet = "slow_start" ->
   (value (cwnd sample_packet) < value (ssthresh sample_packet))%Q) /\
  phase q = "slow_start" /\ (value (cwnd q) < value (ssthresh q))%Q.
Proof.
  intros e q.
  assert (H : phase sample_packet = "slow_start" ->
              (value (cwnd sample_packet)
               < value (ssthresh sample_packet))%Q)
    by (intros _; reflexivity).
  assert (Hq : phase q = "slow_start") by reflexivity.
  split; [exact H|]. split; [exact Hq|].
  exact (slow_start_window_below_threshold exact still still sample_packet
           [e; e] H Hq).
Defined.

Lemma reno_recovery_deflates_to_threshold_witness :
  let p := set_phase "fast_recovery" sample_packet in
  let inflate := (sample_simulator "reno", sample_node 10 (PyInt 6)) in
  let calm := (sample_simulator "reno", sample_node 10 (PyInt 0)) in
  let q := hop_entries exact still still p [inflate; inflate; calm] in
  phase p = "fast_recovery" /\
  cwnd q = PyInt 64 /\ ssthresh q = PyInt 64 /\
  phase q = "congestion_avoidance".
Proof.
  intros p inflate calm q.
  assert (Hp : phase p = "fast_recovery") by reflexivity.
  split; [exact Hp|].
  assert (Hi : Forall (fun e : Simulator * NetworkNode =>
                         congestion_algorithm e.1 = "reno" /\
                         (5 < value (congestion e.2))%Q /\
                         (value (congestion e.2) <= 7)%Q)
                 [inflate; inflate]).
  { repeat constructor; cbn; discriminate. }
  assert (Hc : (value (congestion calm.2) <= 5)%Q) by (cbn; discriminate).
  destruct (reno_recovery_deflates_to_threshold exact still still p
              [inflate; inflate] calm Hp Hi eq_refl Hc)
    as (_ & _ & Hw & Ht & Hph).
  auto.
Defined.

Lemma important_event_is_appended_and_cut_witness :
  let s := sample_simulator "reno" in
  let log' := packet_events
                (record_packet_event exact still still s sample_packet
                   "delivered") in
  is_important "delivered" = true /\
  exists kept,
    kept `suffix_of` packet_events s /\
    log' = kept ++ [event_of exact still s sample_packet "delivered"] /\
    length log' = 1%nat.
Proof.
  intros s log'. split; [reflexivity|].
  exact (important_event_is_appended_and_cut exact still still s
           sample_packet "delivered" eq_refl).
Defined.

Lemma recorded_events_stay_within_cap_witness :
  let s := sample_simulator "reno" in
  let es := [(sample_packet, "delivered"); (sample_packet, "ack_received")] in
  (length (packet_events s) <= 500)%nat /\
  (length (packet_events
             (fold_left
                (fun s (e : Packet * string) =>
                   record_packet_event exact still still s e.1 e.2)
                es s)) <= 500)%nat.
Proof.
  intros s es.
  assert (H : (length (packet_events s) <= 500)%nat) by (cbn; lia).
  split; [exact H|].
  exact (recorded_events_stay_within_cap exact still still es s H).
Defined.

Lemma loss_reactions_are_always_logged_witness :
  let s := sample_simulator "tahoe" in
  let n := sample_node 10 (PyInt 10) in
  let s' := (handle_congestion_control exact still still s sample_packet n).1 in
  let q := (handle_congestion_control exact still still s sample_packet n).2 in
  (9 < value (congestion n))%Q /\
  exists ev,
    last (packet_events s') = Some ev /\
    ev_event_type ev = "timeout" /\
    ev_packet_id ev = packet_id sample_packet /\ ev_cwnd ev = cwnd q /\
    ev_phase ev = phase q /\ ev_rtt ev = rtt q.
Proof.
  intros s n s' q.
  assert (H : (9 < value (congestion n))%Q) by reflexivity.
  split; [exact H|].
  exact (loss_reactions_are_always_logged exact still still s sample_packet
           n (or_introl H)).
Defined.

Lemma hop_entry_log_growth_witness :
  let s := sample_simulator "reno" in
  let n := sample_node 10 (PyInt 0) in
  let log' := packet_events
                (handle_congestion_control exact still still s
                   sample_packet n).1 in
  (length log' <= 2)%nat /\ (length log' <= 500)%nat.
Proof.
  intros s n log'.
  destruct (hop_entry_log_growth exact still still s sample_packet n)
    as [Hg Hc].
  split; [exact Hg|]. apply Hc. cbn. lia.
Defined.

Lemma spawn_keeps_congestion_in_range_witness :
  let s := linear_topology 5 in
  (forall x y, (x <= y)%Q -> (exact x <= exact y)%Q) /\ (0 <= exact 0)%Q /\
  congestion_in_range (store s) /\
  exists s',
    spawn_packet exact still still zero_draw list_order s 0%nat 2%nat true
      = Ok (true, s') /\
    congestion_in_range (store s').
Proof.
  intros s.
  assert (Hm : forall x y, (x <= y)%Q -> (exact x <= exact y)%Q)
    by (intros x y H; exact H).
  assert (H0 : (0 <= exact 0)%Q) by (unfold exact; lra).
  assert (Hr : congestion_in_range (store s)).
  { intros [|[|n]]; cbn; split; discriminate. }
  assert (Hrun : { s' | spawn_packet exact still still zero_draw list_order
                          s 0%nat 2%nat true = Ok (true, s') })
    by (eexists; vm_compute; reflexivity).
  destruct Hrun as [s' Hrun].
  repeat (split; [assumption|]).
  exists s'. split; [exact Hrun|].
  exact (spawn_keeps_congestion_in_range exact still still zero_draw
           list_order s 0%nat 2%nat true true s' Hm H0 Hrun Hr).
Defined.

Lemma spawn_result_tells_admission_witness :
  let s := linear_topology 5 in
  exists s' p,
    spawn_packet exact still still zero_draw list_order s 0%nat 2%nat true
      = Ok (true, s') /\
    nodes s' = nodes s /\ same_topology (store s) (store s') /\
    packets s' = packets s ++ [p] /\
    source p = 0%nat /\ destination p = 2%nat /\
    packet_counter s' = packet_counter s + 1.
Proof.
  intros s.
  assert (Hrun : { s' | spawn_packet exact still still zero_draw list_order
                          s 0%nat 2%nat true = Ok (true, s') })
    by (eexists; vm_compute; reflexivity).
  destruct Hrun as [s' Hrun].
  destruct (spawn_result_tells_admission exact still still zero_draw
              list_order s 0%nat 2%nat true true s' Hrun)
    as (Hn & Ht & _ & Hadm).
  destruct (Hadm eq_refl) as (p & Hp & Hsrc & Hdst & Hc & _).
  exists s', p. auto 10.
Defined.

Lemma random_send_loss_injection_witness :
  let s := linear_topology 5 in
  dijkstra_shortest_path list_order s 0%nat 2%nat
    = Ok (Some [0%nat; 1%nat; 2%nat], Dist 30) /\
  exists s' p,
    spawn_packet exact still still zero_draw list_order s 0%nat 2%nat false
      = Ok (true, s') /\
    packet_counter s' = packet_counter s + 1 /\
    packets s' = packets s ++ [p].
Proof.
  intros s.
  assert (Hd : dijkstra_shortest_path list_order s 0%nat 2%nat
               = Ok (Some [0%nat; 1%nat; 2%nat], Dist 30))
    by (vm_compute; reflexivity).
  split; [exact Hd|].
  destruct (random_send_loss_injection exact still still zero_draw
              list_order s 0%nat 2%nat 0%nat [1%nat; 2%nat] 30 Hd)
    as (s' & Hrun & Hc & _ & Hadm).
  destruct (Hadm eq_refl) as [p Hp].
  exists s', p. auto.
Defined.

Lemma decay_touches_only_loaded_nodes_witness :
  let s := linear_topology 5 in
  simulation_running s = false /\ decay_congestion exact s = s.
Proof.
  intros s. split; [reflexivity|].
  exact (proj1 (decay_touches_only_loaded_nodes exact s) eq_refl).
Defined.


Lemma calm_nodes_only_acknowledge_witness :
  let s := sample_simulator "reno" in
  let n := sample_node 10 (PyInt 2) in
  let q := hop_entry exact still still sample_packet (s, n) in
  get_congestion_level n <> "critical" /\
  dup_ack_count q = 0 /\ last_ack_time q = still (clock s) /\
  lost q = lost sample_packet /\
  retransmitted q = retransmitted sample_packet.
Proof.
  intros s n q.
  assert (H : get_congestion_level n <> "critical") by discriminate.
  split; [exact H|].
  exact (proj2 (calm_nodes_only_acknowledge exact still still s
                  sample_packet n) H).
Defined.

Lemma dijkstra_cost_is_least_witness :
  let s := linear_topology 5 in
  let r := [0%nat; 1%nat; 2%nat] in
  (forall x, x ∈ list_order (nodes s) <-> x ∈ nodes s) /\
  (forall n, n ∈ nodes s -> 0 <= latency (store s n)) /\
  dijkstra_shortest_path list_order s 0%nat 2%nat
    = Ok (Some [0%nat; 1%nat; 2%nat], Dist 30) /\
  is_route (store s) r /\
  30 = route_cost (store s) [0%nat; 1%nat; 2%nat] /\
  route_cost (store s) [0%nat; 1%nat; 2%nat] <= route_cost (store s) r.
Proof.
  intros s r.
  assert (Hord : forall x, x ∈ list_order (nodes s) <-> x ∈ nodes s)
    by (intros x; reflexivity).
  assert (Hlat : forall n, n ∈ nodes s -> 0 <= latency (store s n)).
  { intros [|[|n]] _; cbn; lia. }
  assert (Hd : dijkstra_shortest_path list_order s 0%nat 2%nat
               = Ok (Some [0%nat; 1%nat; 2%nat], Dist 30))
    by (vm_compute; reflexivity).
  assert (Hroute : is_route (store s) r).
  { repeat split; cbn; [left | right; left]. }
  assert (Hin : forall x, x ∈ r -> x ∈ nodes s) by (intros x H; exact H).
  repeat (split; [assumption|]).
  exact (dijkstra_cost_is_least list_order s Hord 0%nat 2%nat
           [0%nat; 1%nat; 2%nat] 30 Hlat Hd r eq_refl eq_refl Hroute Hin).
Defined.

Lemma dijkstra_missing_endpoint_witness :
  let s := linear_topology 5 in
  (forall x, x ∈ list_order (nodes s) <-> x ∈ nodes s) /\
  (7%nat ∉ nodes s) /\
  dijkstra_shortest_path list_order s 0%nat 7%nat = Ok (None, Infinity).
Proof.
  intros s.
  assert (Hord : forall x, x ∈ list_order (nodes s) <-> x ∈ nodes s)
    by (intros x; reflexivity).
  assert (H7 : 7%nat ∉ nodes s).
  { cbn. intros H.
    repeat (apply elem_of_cons in H as [H|H]; [discriminate|]).
    now apply elem_of_nil in H. }
  repeat (split; [assumption|]).
  exact (dijkstra_missing_endpoint list_order s Hord 0%nat 7%nat
           (or_intror H7)).
Defined.

Lemma dijkstra_decides_reachability_witness :
  let s := linear_topology 5 in
  (forall x, x ∈ list_order (nodes s) <-> x ∈ nodes s) /\
  0%nat ∈ nodes s /\ 2%nat ∈ nodes s /\
  (dijkstra_shortest_path list_order s 0%nat 2%nat = Ok (None, Infinity)
   <-> ~ reachable s 0%nat 2%nat) /\
  NoDup [0%nat; 1%nat; 2%nat].
Proof.
  intros s.
  assert (Hord : forall x, x ∈ list_order (nodes s) <-> x ∈ nodes s)
    by (intros x; reflexivity).
  assert (Ha : 0%nat ∈ nodes s) by (cbn; left).
  assert (Hb : 2%nat ∈ nodes s) by (cbn; right; right; left).
  assert (Hd : dijkstra_shortest_path list_order s 0%nat 2%nat
               = Ok (Some [0%nat; 1%nat; 2%nat], Dist 30))
    by (vm_compute; reflexivity).
  destruct (dijkstra_decides_reachability list_order s Hord 0%nat 2%nat
              Ha Hb) as [Hiff Hfound].
  repeat (split; [assumption|]).
  exact (proj1 (Hfound _ _ Hd)).
Defined.

Lemma tick_keeps_floors_and_phases_witness :
  let s := set_packets [sample_packet] (sample_simulator "reno") in
  (forall x y, (x <= y)%Q -> (exact x <= exact y)%Q) /\ (0 <= exact 0)%Q /\
  (1 <= exact 1)%Q /\
  Forall (fun p => window_floors p /\ stable_phase (phase p)) (packets s) /\
  exists s',
    draw_packets exact still still s = Some s' /\
    Forall (fun q => window_floors q /\ stable_phase (phase q)) (packets s').
Proof.
  intros s.
  assert (Hm : forall x y, (x <= y)%Q -> (exact x <= exact y)%Q)
    by (intros x y H; exact H).
  assert (H0 : (0 <= exact 0)%Q) by (unfold exact; lra).
  assert (H1 : (1 <= exact 1)%Q) by (unfold exact; lra).
  assert (Hf : Forall (fun p => window_floors p /\ stable_phase (phase p))
                 (packets s)).
  { repeat constructor; cbn; try discriminate. }
  repeat (split; [assumption|]).
  destruct (draw_packets_runs exact still still s) as (s' & Hrun & _).
  exists s'. split; [exact Hrun|].
  exact (tick_keeps_floors_and_phases exact still still Hm H0 H1 s s'
           Hf Hrun).
Defined.

Lemma phase_counts_account_for_every_flow_witness :
  let s := set_packets [sample_packet; sample_packet]
             (sample_simulator "reno") in
  Forall (fun p => stable_phase (phase p)) (packets s) /\
  exists ss ca fr,
    get_phase_counts s !! "slow_start" = Some ss /\
    get_phase_counts s !! "congestion_avoidance" = Some ca /\
    get_phase_counts s !! "fast_recovery" = Some fr /\
    get_phase_counts s !! "fast_retransmit" = Some 0 /\
    ss + ca + fr = 2.
Proof.
  intros s.
  assert (Hf : Forall (fun p => stable_phase (phase p)) (packets s)).
  { repeat constructor. }
  split; [exact Hf|].
  exact (phase_counts_account_for_every_flow s Hf).
Defined.

Lemma click_keeps_links_simple_witness :
  let objects := fun _ : node => sample_node 10 (PyInt 0) in
  let c := connecting_from 0%nat [] in
  let c' := (on_canvas_click (Some 1%nat) c objects).1 in
  let objects' := (on_canvas_click (Some 1%nat) c objects).2 in
  simple_links objects (canvas_connections c) /\
  simple_links objects' (canvas_connections c') /\
  canvas_connections c' = [(0%nat, 1%nat)].
Proof.
  intros objects c c' objects'.
  assert (H : simple_links objects (canvas_connections c)).
  { split; cbn.
    - intros a Ha. now apply elem_of_nil in Ha.
    - intros a. apply NoDup_nil_2.
    - intros a b. rewrite !elem_of_nil. tauto.
    - apply NoDup_nil_2.
    - intros a b Ha. now apply elem_of_nil in Ha. }
  split; [exact H|]. split; [|reflexivity].
  exact (proj1 (click_keeps_links_simple (Some 1%nat) c objects H)).
Defined.

Lemma second_click_links_both_ways_witness :
  let objects := fun _ : node => sample_node 10 (PyInt 0) in
  let c := connecting_from 0%nat [] in
  let c' := (on_canvas_click (Some 1%nat) c objects).1 in
  let objects' := (on_canvas_click (Some 1%nat) c objects).2 in
  simple_links objects (canvas_connections c) /\
  connection_mode c = true /\ selected_node c = Some 0%nat /\
  selected_node c' = None /\
  1%nat ∈ connections (objects' 0%nat) /\
  0%nat ∈ connections (objects' 1%nat).
Proof.
  intros objects c c' objects'.
  assert (H : simple_links objects (canvas_connections c)).
  { split; cbn.
    - intros a Ha. now apply elem_of_nil in Ha.
    - intros a. apply NoDup_nil_2.
    - intros a b. rewrite !elem_of_nil. tauto.
    - apply NoDup_nil_2.
    - intros a b Ha. now apply elem_of_nil in Ha. }
  split; [exact H|]. split; [reflexivity|]. split; [reflexivity|].
  assert (Hne : 0%nat <> 1%nat) by discriminate.
  destruct (proj2 (second_click_links_both_ways 0%nat 1%nat c objects H
                     eq_refl eq_refl) Hne) as (Hs & Ha & Hb & _).
  auto.
Defined.

Lemma dijkstra_return_trip_witness :
  let s := linear_topology 5 in
  (forall x, x ∈ list_order (nodes s) <-> x ∈ nodes s) /\
  (forall n, n ∈ nodes s -> 0 <= latency (store s n)) /\
  (forall x y, x ∈ nodes s -> y ∈ nodes s ->
     y ∈ connections (store s x) -> x ∈ connections (store s y)) /\
  dijkstra_shortest_path list_order s 0%nat 2%nat
    = Ok (Some [0%nat; 1%nat; 2%nat], Dist 30) /\
  dijkstra_shortest_path list_order s 2%nat 0%nat
    = Ok (Some [2%nat; 1%nat; 0%nat], Dist 25) /\
  30 + latency (store s 2%nat) = 25 + latency (store s 0%nat).
Proof.
  intros s.
  assert (Hord : forall x, x ∈ list_order (nodes s) <-> x ∈ nodes s)
    by (intros x; reflexivity).
  assert (Hlat : forall n, n ∈ nodes s -> 0 <= latency (store s n)).
  { intros [|[|n]] _; cbn; lia. }
  assert (Hthree : forall x : node,
             x ∈ nodes s -> x = 0%nat \/ x = 1%nat \/ x = 2%nat).
  { intros x Hx. cbn in Hx. rewrite !elem_of_cons, elem_of_nil in Hx.
    tauto. }
  assert (Hsym : forall x y, x ∈ nodes s -> y ∈ nodes s ->
             y ∈ connections (store s x) -> x ∈ connections (store s y)).
  { intros x y Hx Hy.
    destruct (Hthree x Hx) as [-> | [-> | ->]],
             (Hthree y Hy) as [-> | [-> | ->]];
      cbn; rewrite ?elem_of_cons, ?elem_of_nil;
      intuition (try discriminate; try congruence). }
  assert (Ha : 0%nat ∈ nodes s) by (cbn; left).
  assert (Hb : 2%nat ∈ nodes s) by (cbn; right; right; left).
  assert (Hab : dijkstra_shortest_path list_order s 0%nat 2%nat
                = Ok (Some [0%nat; 1%nat; 2%nat], Dist 30))
    by (vm_compute; reflexivity).
  assert (Hba : dijkstra_shortest_path list_order s 2%nat 0%nat
                = Ok (Some [2%nat; 1%nat; 0%nat], Dist 25))
    by (vm_compute; reflexivity).
  repeat (split; [assumption|]).
  exact (proj2 (dijkstra_return_trip list_order s Hord Hlat Hsym
                  0%nat 2%nat Ha Hb) _ _ _ _ Hab Hba).
Defined.

Lemma generator_respects_the_flow_cap_witness :
  let s := set_simulation_running true (linear_topology 5) in
  (forall x, x ∈ list_order (nodes s) <-> x ∈ nodes s) /\
  NoDup (nodes s) /\
  exists s',
    start_packet_generation exact still still zero_draw list_order
      (fun _ => 0%nat) 50 s = Some (Ok (true, s')) /\
    nodes s' = nodes s /\
    Z.of_nat (length (packets s')) <= 50.
Proof.
  intros s.
  assert (Hord : forall x, x ∈ list_order (nodes s) <-> x ∈ nodes s)
    by (intros x; reflexivity).
  assert (Hnd : NoDup (nodes s)).
  { cbn. repeat (apply NoDup_cons_2; [rewrite ?elem_of_cons, elem_of_nil;
                                      intuition discriminate|]).
    apply NoDup_nil_2. }
  split; [exact Hord|]. split; [exact Hnd|].
  destruct (generator_respects_the_flow_cap exact still still zero_draw
              list_order (fun _ => 0%nat) 50 s Hord Hnd)
    as (again & s' & Hrun & -> & _ & Hn & Hcap & _).
  exists s'. split; [exact Hrun|]. split; [exact Hn|]. exact Hcap.
Defined.

Lemma track_performance_keeps_histories_bounded_witness :
  let s := linear_topology 5 in
  histories_bounded Performance_init /\
  exists s' m',
    track_performance exact still s Performance_init (Dist 30) 3
      = Some (s', m') /\
    histories_bounded m' /\ total_packets m' = 1 /\
    last (latency_history m') = Some (Dist 30).
Proof.
  intros s.
  assert (H : histories_bounded Performance_init)
    by (repeat split; cbn; lia).
  split; [exact H|].
  assert (Hrun : { r | track_performance exact still s Performance_init
                         (Dist 30) 3 = Some r })
    by (eexists; vm_compute; reflexivity).
  destruct Hrun as [[s' m'] Hrun].
  destruct (track_performance_keeps_histories_bounded exact still s
              Performance_init (Dist 30) 3 s' m' H Hrun)
    as (Hb & Ht & Hl & _).
  exists s', m'. auto.
Defined.

Lemma admitted_flow_starts_fresh_on_its_route_witness :
  let s := linear_topology 5 in
  (forall x, x ∈ list_order (nodes s) <-> x ∈ nodes s) /\
  exists s' p,
    spawn_packet exact still still zero_draw list_order s 0%nat 2%nat true
      = Ok (true, s') /\
    packets s' = packets s ++ [p] /\
    head (path p) = Some 0%nat /\ last (path p) = Some 2%nat /\
    is_route (store s) (path p) /\
    total_latency p = Dist (route_cost (store s) (path p)) /\
    cwnd p = PyInt 1 /\ phase p = "slow_start" /\ packet_id p = 1.
Proof.
  intros s.
  assert (Hord : forall x, x ∈ list_order (nodes s) <-> x ∈ nodes s)
    by (intros x; reflexivity).
  split; [exact Hord|].
  assert (Hrun : { s' | spawn_packet exact still still zero_draw list_order
                          s 0%nat 2%nat true = Ok (true, s') })
    by (eexists; vm_compute; reflexivity).
  destruct Hrun as [s' Hrun].
  destruct (admitted_flow_starts_fresh_on_its_route exact still still
              zero_draw list_order s 0%nat 2%nat true s' Hord Hrun)
    as (p & Hp & _ & _ & _ & Hh & Hl & Hr & _ & Ht & _ & _ & _ & Hc & _ &
        Hph & _ & _ & Hid).
  exists s', p. repeat (split; [assumption|]).
  apply Hid. cbn. lia.
Defined.
